(** * Monitoring and alerting core of mentis-app

    A shallow embedding of [src/services/MonitoringService.ts],
    [services/AgentService.ts] (alert part) and
    [services/NotificationService.ts], with the PostgreSQL tables of
    [migrations/001_initial_schema.sql] as lists of rows.

    Conventions.
    - A table is a [list] of rows (a bag, in insertion order); [INSERT]
      appends, [UPDATE ... WHERE] maps, [DELETE ... WHERE] filters.
    - The JS [Map] [monitoringJobs] is a [gmap string].
    - An [async] method is a state transformer over [World] returning a
      [Result]: [Err] is a rejected promise / thrown [Error].  The world
      is kept when an error is thrown, as effects already performed stay.
    - Failures of the outside world (database, cache, channel transports,
      agent runtime) are decided by an [Env] oracle, one flag per call
      site.
    - Timestamps are microseconds ([Z]), as PostgreSQL stores them.
    - node-postgres hands [bigint] and [numeric] columns over as decimal
      strings; JS relational operators convert them with [ToNumber].  The
      counts are modelled as [Z] and the average as an exact rational
      [option Q] ([None] for SQL [NULL]). *)

From Stdlib Require Import ZArith QArith String List Lia Lqa.
From stdpp Require Import base option list gmap strings pretty sorting.

Local Open Scope string_scope.
Local Open Scope list_scope.
Local Open Scope Z_scope.

(** ** Enumerations of [types/index.ts] *)

Inductive AlertSeverity := LOW | MEDIUM | HIGH | CRITICAL.

Inductive AgentStatus := ACTIVE | INACTIVE | ERROR | MAINTENANCE.

Inductive SystemStatus := healthy | warning | critical.

#[global] Instance AlertSeverity_eq_dec : EqDecision AlertSeverity.
Proof. solve_decision. Defined.

#[global] Instance AgentStatus_eq_dec : EqDecision AgentStatus.
Proof. solve_decision. Defined.

#[global] Instance SystemStatus_eq_dec : EqDecision SystemStatus.
Proof. solve_decision. Defined.

(** The string value of the enum, as compared by [===] and stored in the
    [alert_severity] column. *)
Definition severity_value (s : AlertSeverity) : string :=
  match s with
  | LOW => "low" | MEDIUM => "medium" | HIGH => "high" | CRITICAL => "critical"
  end.

(** ** Tables *)

Record AgentRow := mkAgentRow {
  agent_id : string;
  agent_user_id : string;
  agent_status : AgentStatus;
  last_health_check : option Z
}.

Record MetricRow := mkMetricRow {
  metric_agent_id : string;
  uptime : option Q;
  recorded_at : Z
}.

Record AlertRow := mkAlertRow {
  alert_id : string;
  alert_agent_id : string;
  alert_user_id : string;
  alert_type : string;
  alert_severity : AlertSeverity;
  alert_message : string;
  resolved : bool;
  resolved_at : option Z;
  resolved_by : option string;
  created_at : Z
}.

Record UserRow := mkUserRow {
  user_id : string;
  email : string
}.

Record NotificationSettings := mkSettings {
  settings_user_id : string;
  email_enabled : bool;
  slack_webhook_url : option string;
  telegram_chat_id : option string;
  webhook_url : option string
}.

Record Database := mkDatabase {
  agents : list AgentRow;
  agent_metrics : list MetricRow;
  alerts : list AlertRow;
  users : list UserRow;
  notification_settings : list NotificationSettings;
  uuid_seq : nat
}.

(** ** Observable effects *)

(** The in-memory alert object of [MonitoringService.ts]. *)
Record MonitoringAlert := mkMonitoringAlert {
  ma_id : string;
  ma_agentId : string;
  ma_type : string;
  ma_severity : AlertSeverity;
  ma_message : string;
  ma_timestamp : Z;
  ma_resolved : bool
}.

Inductive Channel := Email | Slack | Telegram | Webhook.

#[global] Instance Channel_eq_dec : EqDecision Channel.
Proof. solve_decision. Defined.

Inductive SendOutcome := Sent | Raised.

(** One entry per invocation of a channel sender ([sendEmailAlert],
    [sendSlackAlert], [sendTelegramAlert], [sendWebhookAlert]). *)
Record Dispatch := mkDispatch {
  d_channel : Channel;
  d_alert : MonitoringAlert;
  d_outcome : SendOutcome
}.

(** [io.to(room).emit(event, ...)]; [room = None] is a global [io.emit]. *)
Record Emit := mkEmit {
  e_room : option string;
  e_event : string;
  e_subject : string
}.

Inductive LogLevel := info | warn | error.

(** What a node-cron task runs on each tick. *)
Inductive JobKind :=
| AgentMonitor (agentId : string)
| SystemHealthJob
| CleanupJob
| MetricsBroadcastJob.

#[global] Instance JobKind_eq_dec : EqDecision JobKind.
Proof. solve_decision. Defined.

(** A node-cron task object; [task_handle] is its identity as a JS
    object. *)
Record CronTask := mkCronTask {
  task_handle : nat;
  task_kind : JobKind
}.

#[global] Instance CronTask_eq_dec : EqDecision CronTask.
Proof. solve_decision. Defined.

(** The fields of the [MonitoringService] object, and the tasks node-cron
    currently fires ([cron_live]: started and not destroyed). *)
Record Service := mkService {
  monitoringJobs : gmap string CronTask;
  isRunning : bool;
  cron_live : list CronTask;
  cron_seq : nat
}.

Record World := mkWorld {
  db : Database;
  cache : gmap string (string * Z);
  emitted : list Emit;
  dispatched : list Dispatch;
  log : list (LogLevel * string);
  svc : Service;
  clock : Z
}.

(** A thrown JS [Error], by its message. *)
Inductive Result (A : Type) :=
| Ok (a : A)
| Err (message : string).
Arguments Ok {A} a.
Arguments Err {A} message.

(** ** The outside world *)

Inductive QuerySite :=
| Q_getAgentById | Q_updateAgent | Q_insertAlert | Q_resolveAlert
| Q_healthStats | Q_unresolvedAlerts | Q_activeAgents
| Q_latestMetrics (agentId : string)
| Q_deleteMetrics | Q_deleteAlerts | Q_notificationSettings | Q_userEmail.

Record Env := mkEnv {
  query_fails : QuerySite -> bool;
  redis_fails : bool;
  transport_fails : Channel -> bool;
  telegram_bot_token : option string;
  (** [aiAgentService.executeTask]: the task status it returns, or the
      error it raises.  What a run that gets past the lookup of the
      agent writes on its way (the task records it stores in the cache,
      the rows the tools of the agent insert) is not modelled: the
      [AIAgentService] that [MonitoringService] reaches through its own
      [AgentService] never has an agent added, so its runs end at the
      lookup, with [Agent <id> not found]. *)
  agent_runtime : string -> Result string
}.

(** ** A state-and-exception monad for [async] methods *)

Definition M (A : Type) : Type := World -> Result A * World.

Definition ret {A} (a : A) : M A := fun w => (Ok a, w).

Definition throw {A} (message : string) : M A := fun w => (Err message, w).

Definition bind {A B} (m : M A) (k : A -> M B) : M B :=
  fun w => match m w with
           | (Ok a, w') => k a w'
           | (Err e, w') => (Err e, w')
           end.

(** [try { body } catch (error) { handler(error) }] *)
Definition try_catch {A} (body : M A) (handler : string -> M A) : M A :=
  fun w => match body w with
           | (Ok a, w') => (Ok a, w')
           | (Err e, w') => handler e w'
           end.

Notation "'do' x <- m ; k" := (bind m (fun x => k))
  (at level 10, x name, m at level 100, k at level 200).
Notation "'run' m ; k" := (bind m (fun _ => k))
  (at level 10, m at level 100, k at level 200).

Definition get_world : M World := fun w => (Ok w, w).

Definition modify (f : World -> World) : M unit := fun w => (Ok tt, f w).

Definition set_db (f : Database -> Database) (w : World) : World :=
  mkWorld (f (db w)) (cache w) (emitted w) (dispatched w) (log w) (svc w) (clock w).

Definition set_cache (f : gmap string (string * Z) -> gmap string (string * Z))
    (w : World) : World :=
  mkWorld (db w) (f (cache w)) (emitted w) (dispatched w) (log w) (svc w) (clock w).

Definition set_emitted (f : list Emit -> list Emit) (w : World) : World :=
  mkWorld (db w) (cache w) (f (emitted w)) (dispatched w) (log w) (svc w) (clock w).

Definition set_dispatched (f : list Dispatch -> list Dispatch) (w : World) : World :=
  mkWorld (db w) (cache w) (emitted w) (f (dispatched w)) (log w) (svc w) (clock w).

Definition set_log (f : list (LogLevel * string) -> list (LogLevel * string))
    (w : World) : World :=
  mkWorld (db w) (cache w) (emitted w) (dispatched w) (f (log w)) (svc w) (clock w).

Definition set_svc (f : Service -> Service) (w : World) : World :=
  mkWorld (db w) (cache w) (emitted w) (dispatched w) (log w) (f (svc w)) (clock w).

(** Time passing between two operations. *)
Definition set_clock (t : Z) (w : World) : World :=
  mkWorld (db w) (cache w) (emitted w) (dispatched w) (log w) (svc w) t.

Definition set_alerts (f : list AlertRow -> list AlertRow) (d : Database) : Database :=
  mkDatabase (agents d) (agent_metrics d) (f (alerts d)) (users d)
             (notification_settings d) (uuid_seq d).

Definition set_agents (f : list AgentRow -> list AgentRow) (d : Database) : Database :=
  mkDatabase (f (agents d)) (agent_metrics d) (alerts d) (users d)
             (notification_settings d) (uuid_seq d).

Definition set_agent_metrics (f : list MetricRow -> list MetricRow) (d : Database) : Database :=
  mkDatabase (agents d) (f (agent_metrics d)) (alerts d) (users d)
             (notification_settings d) (uuid_seq d).

Definition next_uuid (d : Database) : Database :=
  mkDatabase (agents d) (agent_metrics d) (alerts d) (users d)
             (notification_settings d) (S (uuid_seq d)).

Definition logger (lvl : LogLevel) (msg : string) : M unit :=
  modify (set_log (fun l => l ++ [(lvl, msg)])).

Definition emit (room : option string) (event subject : string) : M unit :=
  modify (set_emitted (fun l => l ++ [mkEmit room event subject])).

Definition record_dispatch (d : Dispatch) : M unit :=
  modify (set_dispatched (fun l => l ++ [d])).

(** [database.query] of [config/database.ts]: logs and rethrows a failure
    of the pool. *)
Definition database_query (env : Env) (site : QuerySite) : M unit :=
  if query_fails env site
  then run logger error "Database query error"; throw "database error"
  else ret tt.

(** [redis.set(key, value, ttl)] of [config/redis.ts]. *)
Definition redis_set (env : Env) (key value : string) (ttl : Z) : M unit :=
  if redis_fails env
  then throw "redis error"
  else modify (set_cache (fun c => <[key := (value, ttl)]> c)).

(** ** Health aggregation ([MonitoringService.getSystemHealth]) *)

Module Health.

(** The row of aggregates returned by the statistics query. *)
Record Stats := mkStats {
  total_agents : Z;
  active_agents : Z;
  error_agents : Z;
  avg_uptime : option Q
}.

Record SystemHealth := mkSystemHealth {
  totalAgents : Z;
  activeAgents : Z;
  errorAgents : Z;
  avgUptime : Q;
  unresolvedAlerts : Z;
  systemStatus : SystemStatus
}.

(** JS [ToNumber] on a [numeric] column value: [null] converts to [+0]. *)
Definition ToNumber (v : option Q) : Q :=
  match v with Some q => q | None => 0%Q end.

Definition Qltb (x y : Q) : bool := negb (Qle_bool y x).

(** [parseFloat(v) || 0]: [parseFloat(null)] is [NaN], and both [NaN]
    and [0] are falsy. *)
Definition parseFloat_or_zero (v : option Q) : Q :=
  match v with
  | Some q => if Qeq_bool q 0 then 0%Q else q
  | None => 0%Q
  end.

(** The block under [// Determine system status]. *)
Definition determineSystemStatus (stats : Stats) (unresolved : Z) : SystemStatus :=
  if (0 <? error_agents stats) || (10 <? unresolved) then critical
  else if Qltb (ToNumber (avg_uptime stats)) 95%Q || (5 <? unresolved) then warning
  else healthy.

Definition computeSystemHealth (stats : Stats) (unresolved : Z) : SystemHealth :=
  {| totalAgents := total_agents stats;
     activeAgents := active_agents stats;
     errorAgents := error_agents stats;
     avgUptime := parseFloat_or_zero (avg_uptime stats);
     unresolvedAlerts := unresolved;
     systemStatus := determineSystemStatus stats unresolved |}.

(** The status reported for a non-[NULL] average. *)
Definition classify (total active err : Z) (avg : Q) (unres : Z) : SystemStatus :=
  systemStatus (computeSystemHealth (mkStats total active err (Some avg)) unres).

(** [LEFT JOIN LATERAL (SELECT uptime FROM agent_metrics WHERE agent_id
    = a.id ORDER BY recorded_at DESC LIMIT 1)]: the most recent sample
    of an agent, the earliest inserted one among equally recent ones. *)
Definition more_recent (best : option MetricRow) (m : MetricRow) : option MetricRow :=
  match best with
  | Some b => if recorded_at b <? recorded_at m then Some m else Some b
  | None => Some m
  end.

Definition latest_metrics (ms : list MetricRow) (aid : string) : option MetricRow :=
  fold_left more_recent
    (filter (fun m => metric_agent_id m = aid) ms) None.

(** [CASE WHEN latest_metrics.uptime IS NOT NULL THEN
    latest_metrics.uptime ELSE 0 END] *)
Definition uptime_or_zero (ms : list MetricRow) (a : AgentRow) : Q :=
  match latest_metrics ms (agent_id a) with
  | Some m => ToNumber (uptime m)
  | None => 0%Q
  end.

Definition Qsum (l : list Q) : Q := fold_right Qplus 0%Q l.

(** SQL [AVG]: [NULL] over no rows. *)
Definition AVG (l : list Q) : option Q :=
  match l with
  | [] => None
  | _ => Some (Qsum l / inject_Z (Z.of_nat (length l)))%Q
  end.

Definition count_status (s : AgentStatus) (l : list AgentRow) : Z :=
  Z.of_nat (length (filter (fun a => agent_status a = s) l)).

Definition health_stats (d : Database) : Stats :=
  {| total_agents := Z.of_nat (length (agents d));
     active_agents := count_status ACTIVE (agents d);
     error_agents := count_status ERROR (agents d);
     avg_uptime := AVG (map (uptime_or_zero (agent_metrics d)) (agents d)) |}.

(** [SELECT COUNT( * ) FROM alerts WHERE resolved = false] *)
Definition unresolved_alerts (d : Database) : Z :=
  Z.of_nat (length (filter (fun a => resolved a = false) (alerts d))).

Definition getSystemHealth (env : Env) : M SystemHealth :=
  try_catch
    (run database_query env Q_healthStats;
     run database_query env Q_unresolvedAlerts;
     do w <- get_world;
     ret (computeSystemHealth (health_stats (db w)) (unresolved_alerts (db w))))
    (fun e => run logger error "Failed to get system health"; throw e).

End Health.

(** [for (const x of xs) { await body(x) }] *)
Fixpoint for_each {A} (xs : list A) (body : A -> M unit) : M unit :=
  match xs with
  | [] => ret tt
  | x :: xs' => run body x; for_each xs' body
  end.

(** The outcome of a promise as [Promise.allSettled] sees it: a
    rejection becomes a value. *)
Definition settle {A} (p : M A) : M (Result A) :=
  fun w => match p w with (r, w') => (Ok r, w') end.

Fixpoint allSettled {A} (ps : list (M A)) : M (list (Result A)) :=
  match ps with
  | [] => ret []
  | p :: ps' => do r <- settle p; do rs <- allSettled ps'; ret (r :: rs)
  end.

(** JS truthiness of an optional string column: [null], [undefined] and
    the empty string are falsy. *)
Definition truthy (v : option string) : bool :=
  match v with
  | Some s => negb (String.eqb s EmptyString)
  | None => false
  end.

(** ** [AgentService] *)

Module AgentService.

Definition getAgentById (env : Env) (agentId : string) : M (option AgentRow) :=
  try_catch
    (run database_query env Q_getAgentById;
     do w <- get_world;
     ret (head (filter (fun a => agent_id a = agentId) (agents (db w)))))
    (fun e => run logger error "Failed to get agent"; throw e).

Definition touch (now : Z) (a : AgentRow) : AgentRow :=
  mkAgentRow (agent_id a) (agent_user_id a) (agent_status a) (Some now).

(** [updateAgent(agentId, { last_health_check: new Date() })] *)
Definition updateAgent (env : Env) (agentId : string) : M unit :=
  try_catch
    (run database_query env Q_updateAgent;
     do w <- get_world;
     run modify (set_db (set_agents (map (fun a =>
           if decide (agent_id a = agentId) then touch (clock w) a else a))));
     match filter (fun a => agent_id a = agentId) (agents (db w)) with
     | [] => throw "Agent not found"
     | _ => logger info "Agent updated successfully"
     end)
    (fun e => run logger error "Failed to update agent"; throw e).

(** The call of [aiAgentService.executeTask] is answered by
    [agent_runtime]: only what it returns or raises is taken from it. *)
Definition executeAgentTask (env : Env) (agentId : string) : M string :=
  try_catch
    (run logger info "Executing agent task";
     match agent_runtime env agentId with
     | Ok task => ret task
     | Err e => throw e
     end)
    (fun e => run logger error "Failed to execute agent task"; throw e).

(** [SET resolved = true, resolved_at = CURRENT_TIMESTAMP, resolved_by = $1] *)
Definition resolve_row (now : Z) (userId : string) (a : AlertRow) : AlertRow :=
  mkAlertRow (alert_id a) (alert_agent_id a) (alert_user_id a) (alert_type a)
             (alert_severity a) (alert_message a)
             true (Some now) (Some userId) (created_at a).

(** [resolved_by UUID REFERENCES users(id)] of the schema: the store
    rejects the UPDATE when a row would get a resolver that is no row
    of [users].  Nothing is checked when no row carries the id. *)
Definition violates_resolved_by (alertId userId : string) (d : Database) : bool :=
  bool_decide (alertId ∈ map alert_id (alerts d))
  && negb (bool_decide (userId ∈ map user_id (users d))).

Definition resolveAlert (env : Env) (alertId userId : string) : M unit :=
  try_catch
    (run database_query env Q_resolveAlert;
     do w <- get_world;
     if violates_resolved_by alertId userId (db w)
     then (run logger error "Database query error";
           throw "violates foreign key constraint alerts_resolved_by_fkey")
     else (run modify (set_db (set_alerts (map (fun a =>
                 if decide (alert_id a = alertId)
                 then resolve_row (clock w) userId a else a))));
           logger info "Alert resolved"))
    (fun e => run logger error "Failed to resolve alert"; throw e).

End AgentService.

(** ** [NotificationService] *)

Module NotificationService.

Definition getUserNotificationSettings (env : Env) (userId : string)
    : M (option NotificationSettings) :=
  try_catch
    (run database_query env Q_notificationSettings;
     do w <- get_world;
     ret (head (filter (fun s => settings_user_id s = userId)
                       (notification_settings (db w)))))
    (fun e => run logger error "Failed to get notification settings"; ret None).

(** [emailTransporter.sendMail] / [axios.post] *)
Definition transport (env : Env) (ch : Channel) : M unit :=
  if transport_fails env ch then throw "transport error" else ret tt.

(** The bodies of the four senders, before their [catch]. *)
Definition sender_body (env : Env) (ch : Channel) : M unit :=
  match ch with
  | Email => run transport env Email; logger info "Email alert sent"
  | Slack => run transport env Slack; logger info "Slack alert sent"
  | Telegram =>
      if truthy (telegram_bot_token env)
      then run transport env Telegram; logger info "Telegram alert sent"
      else throw "Telegram bot token not configured"
  | Webhook => run transport env Webhook; logger info "Webhook alert sent"
  end.

Definition failure_line (ch : Channel) : string :=
  match ch with
  | Email => "Failed to send email alert"
  | Slack => "Failed to send Slack alert"
  | Telegram => "Failed to send Telegram alert"
  | Webhook => "Failed to send webhook alert"
  end.

(** [sendEmailAlert], [sendSlackAlert], [sendTelegramAlert] and
    [sendWebhookAlert]: log and rethrow.  The invocation and how it
    ended are recorded in [dispatched]. *)
Definition send (env : Env) (ch : Channel) (alert : MonitoringAlert) : M unit :=
  fun w =>
    match try_catch (sender_body env ch)
                    (fun e => run logger error (failure_line ch); throw e) w with
    | (Ok tt, w') => record_dispatch (mkDispatch ch alert Sent) w'
    | (Err e, w') =>
        (Err e, snd (record_dispatch (mkDispatch ch alert Raised) w'))
    end.

(** The [notifications] array built by [sendAlert]. *)
Definition notifications (env : Env) (settings : NotificationSettings)
    (alert : MonitoringAlert) : list (M unit) :=
  (if email_enabled settings then [send env Email alert] else []) ++
  (if truthy (slack_webhook_url settings) then [send env Slack alert] else []) ++
  (if truthy (telegram_chat_id settings) then [send env Telegram alert] else []) ++
  (if truthy (webhook_url settings) then [send env Webhook alert] else []).

Definition sendAlert (env : Env) (userId : string) (alert : MonitoringAlert)
    : M unit :=
  try_catch
    (do settings <- getUserNotificationSettings env userId;
     match settings with
     | None => logger warn "No notification settings found for user"
     | Some settings =>
         run database_query env Q_userEmail;
         do w <- get_world;
         match filter (fun u => user_id u = userId) (users (db w)) with
         | [] => logger warn "User not found"
         | user :: _ =>
             run allSettled (notifications env settings alert);
             logger info "Alert notifications sent"
         end
     end)
    (fun e => logger error "Failed to send alert notifications").

Definition sendTestNotification (env : Env) (userId : string) : M unit :=
  do w <- get_world;
  sendAlert env userId
    (mkMonitoringAlert "test-alert" "test-agent" "test_notification" MEDIUM
       "This is a test notification from Mentis Protocol. Your notification settings are working correctly!"
       (clock w) false).

End NotificationService.

(** ** [MonitoringService] *)

Module MonitoringService.

(** [uuid_generate_v4()]: the store hands out a new id per row. *)
Definition uuid_generate_v4 (n : nat) : string := "alert-" +:+ pretty n.

(** [JSON.stringify(alert)], abbreviated to the fields that identify
    the alert. *)
Definition stringify_alert (a : MonitoringAlert) : string :=
  ma_id a +:+ "|" +:+ ma_agentId a +:+ "|" +:+ ma_type a +:+ "|" +:+
  severity_value (ma_severity a) +:+ "|" +:+ ma_message a.

Definition status_value (s : SystemStatus) : string :=
  match s with
  | healthy => "healthy" | warning => "warning" | critical => "critical"
  end.

Definition new_alert_row (alertId agentId userId type : string)
    (severity : AlertSeverity) (message : string) (now : Z) : AlertRow :=
  mkAlertRow alertId agentId userId type severity message false None None now.

Definition createAlert (env : Env) (agentId type : string)
    (severity : AlertSeverity) (message : string) : M string :=
  try_catch
    (do agent <- AgentService.getAgentById env agentId;
     match agent with
     | None => throw "Agent not found"
     | Some agent =>
         run database_query env Q_insertAlert;
         do w <- get_world;
         let alertId := uuid_generate_v4 (uuid_seq (db w)) in
         run modify (set_db (fun d => next_uuid (set_alerts (fun l => l ++
               [new_alert_row alertId agentId (agent_user_id agent) type
                              severity message (clock w)]) d)));
         let alert := mkMonitoringAlert alertId agentId type severity message
                                        (clock w) false in
         run emit (Some ("agent-" +:+ agentId)) "alert" alertId;
         run emit (Some ("user-" +:+ agent_user_id agent)) "alert" alertId;
         run (if String.eqb (severity_value severity) "high"
                 || String.eqb (severity_value severity) "critical"
              then NotificationService.sendAlert env (agent_user_id agent) alert
              else ret tt);
         run redis_set env ("alert:" +:+ alertId) (stringify_alert alert) 3600;
         run logger info "Alert created";
         ret alertId
     end)
    (fun e => run logger error "Failed to create alert"; throw e).

Definition performAgentHealthCheck (env : Env) (agentId : string) : M unit :=
  try_catch
    (do task <- AgentService.executeAgentTask env agentId;
     run emit (Some ("agent-" +:+ agentId)) "health_check" task;
     AgentService.updateAgent env agentId)
    (fun e =>
       run logger error "Agent health check failed";
       do _ <- createAlert env agentId "health_check_failed" CRITICAL
                           ("Health check failed: " +:+ e);
       ret tt).


(** The fields of a newly constructed [MonitoringService]. *)
Definition new_service : Service := mkService ∅ false [] 0.

(** *** node-cron *)

(** [cron.schedule(expr, fn, { scheduled })]: a new task object, firing
    at once unless [scheduled: false]. *)
Definition cron_schedule (kind : JobKind) (scheduled : bool) : M CronTask :=
  fun w =>
    let t := mkCronTask (cron_seq (svc w)) kind in
    (Ok t,
     set_svc (fun s => mkService (monitoringJobs s) (isRunning s)
                         (if scheduled then cron_live s ++ [t] else cron_live s)
                         (S (cron_seq s))) w).

(** [job.start()] *)
Definition task_start (t : CronTask) : M unit :=
  modify (set_svc (fun s => mkService (monitoringJobs s) (isRunning s)
                    (if bool_decide (t ∈ cron_live s) then cron_live s
                     else cron_live s ++ [t])
                    (cron_seq s))).

(** [job.destroy()] *)
Definition task_destroy (t : CronTask) : M unit :=
  modify (set_svc (fun s => mkService (monitoringJobs s) (isRunning s)
                    (filter (fun t' => t' ≠ t) (cron_live s))
                    (cron_seq s))).

Definition jobs_set (id : string) (t : CronTask) : M unit :=
  modify (set_svc (fun s => mkService (<[id := t]> (monitoringJobs s))
                    (isRunning s) (cron_live s) (cron_seq s))).

Definition jobs_delete (id : string) : M unit :=
  modify (set_svc (fun s => mkService (delete id (monitoringJobs s))
                    (isRunning s) (cron_live s) (cron_seq s))).

Definition startAgentMonitoring (env : Env) (agentId : string) : M unit :=
  do w <- get_world;
  match monitoringJobs (svc w) !! agentId with
  | Some _ => logger warn "Agent monitoring already active"
  | None =>
      try_catch
        (run logger info "Starting agent monitoring";
         do job <- cron_schedule (AgentMonitor agentId) false;
         run task_start job;
         run jobs_set agentId job;
         run performAgentHealthCheck env agentId;
         logger info "Agent monitoring started")
        (fun e => run logger error "Failed to start agent monitoring"; throw e)
  end.

Definition stopAgentMonitoring (agentId : string) : M unit :=
  do w <- get_world;
  match monitoringJobs (svc w) !! agentId with
  | None => ret tt
  | Some job =>
      run logger info "Stopping agent monitoring";
      run task_destroy job;
      jobs_delete agentId
  end.

(** *** The tick handlers of the four kinds of job *)

Definition agentMonitorTick (env : Env) (agentId : string) : M unit :=
  performAgentHealthCheck env agentId.

(** The snapshot is emitted and cached whole; the model keeps its status
    as the payload. *)
Definition systemHealthTick (env : Env) : M unit :=
  try_catch
    (do health <- Health.getSystemHealth env;
     run emit None "system_health" (status_value (Health.systemStatus health));
     run redis_set env "system:health"
                   (status_value (Health.systemStatus health)) 300;
     if decide (Health.systemStatus health = critical)
     then logger warn "System health is critical"
     else ret tt)
    (fun e => logger error "System health monitoring failed").

(** [INTERVAL 'n days'] in microseconds. *)
Definition days (n : Z) : Z := n * 86400000000.

(** [DELETE FROM agent_metrics WHERE recorded_at < NOW() - INTERVAL '30 days'] *)
Definition metric_expired (now : Z) (m : MetricRow) : bool :=
  recorded_at m <? now - days 30.

(** [DELETE FROM alerts WHERE resolved = true AND resolved_at < NOW() -
    INTERVAL '7 days']; a [NULL] [resolved_at] makes the condition
    unknown, and the row stays. *)
Definition alert_expired (now : Z) (a : AlertRow) : bool :=
  resolved a &&
  match resolved_at a with
  | Some t => t <? now - days 7
  | None => false
  end.

Definition cleanupTick (env : Env) : M unit :=
  try_catch
    (run database_query env Q_deleteMetrics;
     do w <- get_world;
     run modify (set_db (set_agent_metrics
           (filter (fun m => metric_expired (clock w) m = false))));
     run database_query env Q_deleteAlerts;
     run modify (set_db (set_alerts
           (filter (fun a => alert_expired (clock w) a = false))));
     logger info "Periodic cleanup completed")
    (fun e => logger error "Periodic cleanup failed").

Definition metricsBroadcastTick (env : Env) : M unit :=
  try_catch
    (run database_query env Q_activeAgents;
     do w <- get_world;
     for_each (filter (fun a => agent_status a = ACTIVE) (agents (db w)))
       (fun row =>
          run database_query env (Q_latestMetrics (agent_id row));
          do w' <- get_world;
          match Health.latest_metrics (agent_metrics (db w')) (agent_id row) with
          | Some _ => emit (Some ("agent-" +:+ agent_id row)) "metrics" (agent_id row)
          | None => ret tt
          end))
    (fun e => logger error "Metrics broadcasting failed").

(** The rows the loop of [metricsBroadcastTick] gets through: those
    before the first agent whose latest-metrics query fails. *)
Fixpoint answered (env : Env) (rows : list AgentRow) : list AgentRow :=
  match rows with
  | [] => []
  | a :: rows' =>
      if query_fails env (Q_latestMetrics (agent_id a))
      then []
      else a :: answered env rows'
  end.

(** What node-cron calls when a task fires. *)
Definition tick (env : Env) (kind : JobKind) : M unit :=
  match kind with
  | AgentMonitor agentId => agentMonitorTick env agentId
  | SystemHealthJob => systemHealthTick env
  | CleanupJob => cleanupTick env
  | MetricsBroadcastJob => metricsBroadcastTick env
  end.

(** *** Starting and stopping the service *)

Definition set_running (b : bool) : M unit :=
  modify (set_svc (fun s => mkService (monitoringJobs s) b (cron_live s) (cron_seq s))).

Definition startSystemHealthMonitoring : M unit :=
  do job <- cron_schedule SystemHealthJob true;
  jobs_set "system-health" job.

Definition startPeriodicCleanup : M unit :=
  do job <- cron_schedule CleanupJob true;
  jobs_set "cleanup" job.

Definition startMetricsBroadcasting : M unit :=
  do job <- cron_schedule MetricsBroadcastJob true;
  jobs_set "metrics-broadcast" job.

(** The query is the statement [metricsBroadcastTick] also sends
    ([SELECT id FROM agents WHERE status = 'active']). *)
Definition discoverAndMonitorAgents (env : Env) : M unit :=
  try_catch
    (run database_query env Q_activeAgents;
     do w <- get_world;
     run for_each (filter (fun a => agent_status a = ACTIVE) (agents (db w)))
           (fun row => startAgentMonitoring env (agent_id row));
     logger info
       ("Started monitoring for " +:+
        pretty (length (filter (fun a => agent_status a = ACTIVE) (agents (db w)))) +:+
        " active agents"))
    (fun e => logger error "Failed to discover agents").

Definition startMonitoring (env : Env) : M unit :=
  do w <- get_world;
  if isRunning (svc w)
  then logger warn "Monitoring service is already running"
  else
    try_catch
      (run logger info "Starting monitoring service";
       run startSystemHealthMonitoring;
       run discoverAndMonitorAgents env;
       run startPeriodicCleanup;
       run startMetricsBroadcasting;
       run set_running true;
       logger info "Monitoring service started successfully")
      (fun e => run logger error "Failed to start monitoring service"; throw e).

(** [for (const [jobId, job] of this.monitoringJobs)]: every entry is
    visited once; the order does not matter for what is left.  A task
    is destroyed only [if (job.destroy)]: [has_destroy] says for which
    task objects of the node-cron release in use that member is
    there. *)
Definition stopMonitoring (has_destroy : CronTask -> bool) : M unit :=
  do w <- get_world;
  if isRunning (svc w)
  then
    run logger info "Stopping monitoring service";
    run for_each (map_to_list (monitoringJobs (svc w)))
          (fun entry =>
             run (if has_destroy (snd entry)
                  then task_destroy (snd entry)
                  else ret tt);
             jobs_delete (fst entry));
    run set_running false;
    logger info "Monitoring service stopped"
  else ret tt.

End MonitoringService.

(** ** Reading the effects of the fanout *)

Module Fanout.

(** The channels a settings row enables, in the order [sendAlert]
    tests them. *)
Definition enabled_channels (s : NotificationSettings) : list Channel :=
  (if email_enabled s then [Email] else []) ++
  (if truthy (slack_webhook_url s) then [Slack] else []) ++
  (if truthy (telegram_chat_id s) then [Telegram] else []) ++
  (if truthy (webhook_url s) then [Webhook] else []).

(** How the sender of a channel ends under [env]. *)
Definition outcome (env : Env) (ch : Channel) : SendOutcome :=
  match ch with
  | Telegram =>
      if truthy (telegram_bot_token env)
      then (if transport_fails env Telegram then Raised else Sent)
      else Raised
  | _ => if transport_fails env ch then Raised else Sent
  end.

Definition dispatches (env : Env) (alert : MonitoringAlert)
    (chs : list Channel) : list Dispatch :=
  map (fun ch => mkDispatch ch alert (outcome env ch)) chs.

(** [w'] differs from [w] by log lines and by the dispatches [ds]. *)
Definition notified (w w' : World) (ds : list Dispatch) : Prop :=
  db w' = db w /\ cache w' = cache w /\ emitted w' = emitted w /\
  svc w' = svc w /\ clock w' = clock w /\
  dispatched w' = dispatched w ++ ds.

(** The channels [sendAlert] reaches for [userId]: none when the
    settings or the user row cannot be read or do not exist, else the
    enabled ones. *)
Definition fanout_channels (env : Env) (userId : string) (d : Database)
    : list Channel :=
  if query_fails env Q_notificationSettings then []
  else match head (filter (fun s => settings_user_id s = userId)
                          (notification_settings d)) with
       | None => []
       | Some s =>
           if query_fails env Q_userEmail then []
           else match filter (fun u => user_id u = userId) (users d) with
                | [] => []
                | _ => enabled_channels s
                end
       end.

(** The test of [createAlert] before the fanout:
    [severity === 'high' || severity === 'critical']. *)
Definition notifies (severity : AlertSeverity) : bool :=
  String.eqb (severity_value severity) "high"
  || String.eqb (severity_value severity) "critical".

(** The channels of the dispatches made between [w] and [w']. *)
Definition reached (w w' : World) : list Channel :=
  map d_channel (drop (length (dispatched w)) (dispatched w')).

End Fanout.

(** ** Reading the job registry *)

Module Registry.
Import MonitoringService.

(** The recurring jobs node-cron fires for [agentId]. *)
Definition live_jobs_for (agentId : string) (s : Service) : nat :=
  length (filter (fun t => task_kind t = AgentMonitor agentId) (cron_live s)).

(** The calls of the start and stop routes. *)
Inductive Request :=
| StartAgent (agentId : string)
| StopAgent (agentId : string).

Definition serve (env : Env) (r : Request) : M unit :=
  match r with
  | StartAgent agentId => startAgentMonitoring env agentId
  | StopAgent agentId => stopAgentMonitoring agentId
  end.

(** Serving requests one after the other; a failed request leaves the
    world it reached. *)
Fixpoint serve_all (env : Env) (rs : list Request) (w : World) : World :=
  match rs with
  | [] => w
  | r :: rs' => serve_all env rs' (snd (serve env r w))
  end.

(** The registry and the live tasks describe each other. *)
Record consistent (s : Service) : Prop := mkConsistent {
  registered_live : forall id t,
    monitoringJobs s !! id = Some t ->
    task_kind t = AgentMonitor id /\ t ∈ cron_live s;
  live_registered : forall t,
    t ∈ cron_live s ->
    exists id, task_kind t = AgentMonitor id /\ monitoringJobs s !! id = Some t;
  live_handles : forall t, t ∈ cron_live s -> (task_handle t < cron_seq s)%nat;
  live_nodup : NoDup (cron_live s)
}.

(** [m] leaves the registry and the cron tasks alone. *)
Definition keeps_svc {A} (m : M A) : Prop :=
  forall w, svc (snd (m w)) = svc w.

(** [s'] has every registered job and every live task of [s], and
    possibly more. *)
Definition grows (s s' : Service) : Prop :=
  (forall k t, monitoringJobs s !! k = Some t -> monitoringJobs s' !! k = Some t) /\
  (forall t, t ∈ cron_live s -> t ∈ cron_live s') /\
  isRunning s' = isRunning s /\
  (cron_seq s <= cron_seq s')%nat.

Definition grows_svc {A} (m : M A) : Prop :=
  forall w, grows (svc w) (svc (snd (m w))).

End Registry.

(** ** Check cycles on the event loop *)

Module Overlap.
Import MonitoringService.

(** Where a call of [performAgentHealthCheck] stands between two turns
    of the event loop: at one of its three [await]s. *)
Inductive Pending :=
| AwaitsTask
| AwaitsUpdate
| AwaitsAlert (e : string).

(** What a turn makes of a pending call. *)
Inductive Progress :=
| Still (p : Pending)
| Settled (r : Result unit).

(** One turn of a pending call of [performAgentHealthCheck]: the
    awaited call settles, with its effects placed in this turn, and the
    function runs on to its next [await] or to its end. *)
Definition resume (env : Env) (agentId : string) (p : Pending) (w : World)
    : Progress * World :=
  match p with
  | AwaitsTask =>
      match AgentService.executeAgentTask env agentId w with
      | (Ok task, w1) =>
          (Still AwaitsUpdate,
           snd (emit (Some ("agent-" +:+ agentId)) "health_check" task w1))
      | (Err e, w1) =>
          (Still (AwaitsAlert e), snd (logger error "Agent health check failed" w1))
      end
  | AwaitsUpdate =>
      match AgentService.updateAgent env agentId w with
      | (Ok _, w1) => (Settled (Ok tt), w1)
      | (Err e, w1) =>
          (Still (AwaitsAlert e), snd (logger error "Agent health check failed" w1))
      end
  | AwaitsAlert e =>
      match createAlert env agentId "health_check_failed" CRITICAL
                        ("Health check failed: " +:+ e) w with
      | (Ok _, w1) => (Settled (Ok tt), w1)
      | (Err e', w1) => (Settled (Err e'), w1)
      end
  end.

(** The event loop between two turns: the world, and the calls of
    [performAgentHealthCheck] that have started and not yet settled,
    oldest first, each with the agent it checks. *)
Record Loop := mkLoop {
  loop_world : World;
  in_flight : list (string * Pending)
}.

Definition checks_in_flight (agentId : string) (l : Loop) : nat :=
  length (filter (fun c => fst c = agentId) (in_flight l)).

Inductive LoopEvent :=
| Fires (t : CronTask)
| Resumes (i : nat).

(** The callback of the agent job is
    [async () => { await this.performAgentHealthCheck(agentId); }]: a
    firing calls [performAgentHealthCheck], which is then in flight at
    its first [await].  The callbacks of the other jobs are run in one
    turn.  [Resumes i] gives the [i]-th call in flight its next turn; a
    settled call leaves the list. *)
Definition loop_step (env : Env) (l : Loop) (e : LoopEvent) : Loop :=
  match e with
  | Fires t =>
      if bool_decide (t ∈ cron_live (svc (loop_world l))) then
        match task_kind t with
        | AgentMonitor agentId =>
            mkLoop (loop_world l) (in_flight l ++ [(agentId, AwaitsTask)])
        | kind => mkLoop (snd (tick env kind (loop_world l))) (in_flight l)
        end
      else l
  | Resumes i =>
      match in_flight l !! i with
      | None => l
      | Some (agentId, p) =>
          match resume env agentId p (loop_world l) with
          | (Still p', w') => mkLoop w' (<[i := (agentId, p')]> (in_flight l))
          | (Settled _, w') => mkLoop w' (delete i (in_flight l))
          end
      end
  end.

Definition loop_run (env : Env) (l : Loop) (es : list LoopEvent) : Loop :=
  fold_left (loop_step env) es l.

End Overlap.

(** ** Reading the alert table *)

Module AlertStore.

(** [resolved_at] and [resolved_by] of the rows with id [alertId]. *)
Definition resolution (alertId : string) (w : World)
    : list (option Z * option string) :=
  map (fun a => (resolved_at a, resolved_by a))
      (filter (fun a => alert_id a = alertId) (alerts (db w))).

(** Two [resolveAlert] requests for the same alert, the second by
    [user2] at time [t2]. *)
Definition resolve_again (env : Env) (alertId user1 user2 : string) (t2 : Z)
    (w : World) : Result unit * World :=
  AgentService.resolveAlert env alertId user2
    (set_clock t2 (snd (AgentService.resolveAlert env alertId user1 w))).

End AlertStore.

(** ** Fixtures for the scenarios below *)

Module Fixtures.

(** Every collaborator answers. *)
Definition calm : Env :=
  mkEnv (fun _ => false) false (fun _ => false) (Some "bot-token")
        (fun _ => Ok "completed").

(** The mail transport is down, everything else answers. *)
Definition email_down : Env :=
  mkEnv (fun _ => false) false
        (fun ch => bool_decide (ch = Email)) (Some "bot-token")
        (fun _ => Ok "completed").

(** The agent runtime does not know the agent. *)
Definition runtime_down : Env :=
  mkEnv (fun _ => false) false (fun _ => false) (Some "bot-token")
        (fun agentId => Err ("Agent " +:+ agentId +:+ " not found")).

Definition empty_db : Database := mkDatabase [] [] [] [] [] 0.

Definition empty_world : World :=
  mkWorld empty_db ∅ [] [] [] MonitoringService.new_service 0.

Definition agent_R : AgentRow := mkAgentRow "R" "U" ACTIVE None.

Definition user_U : UserRow := mkUserRow "U" "u@example.org".

Definition settings_U : NotificationSettings :=
  mkSettings "U" true (Some "https://hooks.example/slack") None None.

Definition alert_A : AlertRow :=
  mkAlertRow "A" "R" "U" "latency" HIGH "slow" false None None 0.

Definition alert_A_object : MonitoringAlert :=
  mkMonitoringAlert "A" "R" "latency" HIGH "slow" 0 false.

Definition one_agent_db : Database :=
  mkDatabase [agent_R] [] [alert_A] [user_U] [settings_U] 0.

Definition one_agent_world : World :=
  mkWorld one_agent_db ∅ [] [] [] MonitoringService.new_service 1000.

(** Agent [R] is monitored; nothing has settled yet. *)
Definition job_R : CronTask := mkCronTask 0 (AgentMonitor "R").

Definition monitoring_R : Overlap.Loop :=
  Overlap.mkLoop
    (snd (MonitoringService.startAgentMonitoring runtime_down "R" one_agent_world))
    [].

(** Agent [R] was deleted while its job is still registered. *)
Definition orphaned_R : World :=
  set_db (set_agents (fun _ => []))
         (snd (MonitoringService.startAgentMonitoring calm "R" one_agent_world)).

(** Alerts resolved 8 and 6 days before the sweep, and an old
    unresolved one. *)
Definition sweep_time : Z := MonitoringService.days 100.

Definition resolved_8_days : AlertRow :=
  mkAlertRow "A8" "R" "U" "latency" HIGH "slow" true
             (Some (sweep_time - MonitoringService.days 8)) (Some "U") 0.

Definition resolved_6_days : AlertRow :=
  mkAlertRow "A6" "R" "U" "latency" HIGH "slow" true
             (Some (sweep_time - MonitoringService.days 6)) (Some "U") 0.

Definition unresolved_old : AlertRow :=
  mkAlertRow "A0" "R" "U" "latency" HIGH "slow" false None None 0.

(** An alert raised 8 days before the sweep and resolved the day before
    it. *)
Definition raised_8_resolved_1 : AlertRow :=
  mkAlertRow "A81" "R" "U" "latency" HIGH "slow" true
             (Some (sweep_time - MonitoringService.days 1)) (Some "U")
             (sweep_time - MonitoringService.days 8).

(** A second user, who may resolve alerts too. *)
Definition user_W : UserRow := mkUserRow "W" "w@example.org".

Definition two_user_world : World :=
  mkWorld (mkDatabase [agent_R] [] [alert_A] [user_U; user_W] [settings_U] 0)
          ∅ [] [] [] MonitoringService.new_service 1000.

Definition late_resolution_world : World :=
  mkWorld (mkDatabase [agent_R] [] [raised_8_resolved_1] [user_U] [settings_U] 1)
          ∅ [] [] [] MonitoringService.new_service sweep_time.

Definition sweep_world : World :=
  mkWorld (mkDatabase [agent_R] [] [resolved_8_days; resolved_6_days; unresolved_old]
                      [user_U] [settings_U] 3)
          ∅ [] [] [] MonitoringService.new_service sweep_time.

End Fixtures.

(** ** Read operations *)

Module Queries.

(** Further statements, which may fail like any other. *)
Inductive ReadSite := R_metricsHistory | R_agentAlerts | R_deleteAgent.

Record Outside := mkOutside {
  outside_env : Env;
  read_fails : ReadSite -> bool
}.

Definition read_query (o : Outside) (site : ReadSite) : M unit :=
  if read_fails o site
  then run logger error "Database query error"; throw "database error"
  else ret tt.

(** The operand of [INTERVAL '...'] in [MonitoringService.getAgentMetrics]. *)
Inductive Interval :=
| Minutes (n : Z)
| Hours (n : Z)
| Days (n : Z).

(** The [switch (timeRange)] with its initial [let interval = '1 hour']. *)
Definition interval_of (timeRange : string) : Interval :=
  if String.eqb timeRange "5m" then Minutes 5
  else if String.eqb timeRange "15m" then Minutes 15
  else if String.eqb timeRange "1h" then Hours 1
  else if String.eqb timeRange "6h" then Hours 6
  else if String.eqb timeRange "24h" then Hours 24
  else if String.eqb timeRange "7d" then Days 7
  else Hours 1.

Definition interval_micros (i : Interval) : Z :=
  match i with
  | Minutes n => n * 60000000
  | Hours n => n * 3600000000
  | Days n => n * 86400000000
  end.

Definition earlier (a b : MetricRow) : Prop := recorded_at a <= recorded_at b.

#[global] Instance earlier_dec a b : Decision (earlier a b).
Proof. unfold earlier. apply _. Defined.

(** [MonitoringService.getAgentMetrics]: [WHERE agent_id = $1 AND
    recorded_at >= NOW() - INTERVAL '...' ORDER BY recorded_at ASC]. *)
Definition getAgentMetrics (o : Outside) (agentId timeRange : string)
    : M (list MetricRow) :=
  try_catch
    (run read_query o R_metricsHistory;
     do w <- get_world;
     ret (merge_sort earlier
            (filter (fun m => metric_agent_id m = agentId /\
                              clock w - interval_micros (interval_of timeRange)
                                <= recorded_at m)
                    (agent_metrics (db w)))))
    (fun e => run logger error "Failed to get agent metrics"; throw e).

Definition newer (a b : AlertRow) : Prop := created_at b <= created_at a.

#[global] Instance newer_dec a b : Decision (newer a b).
Proof. unfold newer. apply _. Defined.

(** [AgentService.getAgentAlerts]: [WHERE agent_id = $1 AND resolved = $2
    ORDER BY created_at DESC]. *)
Definition getAgentAlerts (o : Outside) (agentId : string) (resolved_flag : bool)
    : M (list AlertRow) :=
  try_catch
    (run read_query o R_agentAlerts;
     do w <- get_world;
     ret (merge_sort newer
            (filter (fun a => alert_agent_id a = agentId /\ resolved a = resolved_flag)
                    (alerts (db w)))))
    (fun e => run logger error "Failed to get agent alerts"; throw e).

End Queries.

(** ** Repeated ticks and further fixtures *)

Module Ticks.

(** [n] firings of a job, one after the other has settled. *)
Fixpoint fire_times (env : Env) (kind : JobKind) (n : nat) (w : World) : World :=
  match n with
  | O => w
  | S n' => fire_times env kind n' (snd (MonitoringService.tick env kind w))
  end.

End Ticks.

Module MoreFixtures.
Import Fixtures.

(** The cache is down, everything else answers. *)
Definition cache_down : Env :=
  mkEnv (fun _ => false) true (fun _ => false) (Some "bot-token")
        (fun _ => Ok "completed").

(** Every read answers too. *)
Definition calm_reads : Queries.Outside := Queries.mkOutside calm (fun _ => false).

End MoreFixtures.

(** ** [AgentService.updateAgent] in full, and its statement *)

Module AgentUpdate.

(** [UpdateAgentData]: an absent field is [undefined]. *)
Record UpdateAgentData := mkUpdate {
  u_name : option string;
  u_description : option string;
  u_endpoint_url : option string;
  u_config : option string;
  u_status : option AgentStatus;
  u_last_health_check : option Z
}.

Inductive SqlValue :=
| VText (s : string)
| VStatus (s : AgentStatus)
| VTime (t : Z).

(** The three variables of [updateAgent] while the statement is built. *)
Record Builder := mkBuilder {
  updateFields : list string;
  values : list SqlValue;
  paramCount : nat
}.

(** [if (v !== undefined) { updateFields.push(`col = $${paramCount++}`);
    values.push(v); }] *)
Definition push_field (column : string) (v : option SqlValue) (b : Builder) : Builder :=
  match v with
  | Some x =>
      mkBuilder (updateFields b ++ [column +:+ " = $" +:+ pretty (paramCount b)])
                (values b ++ [x])
                (S (paramCount b))
  | None => b
  end.

Definition build_update (agentId : string) (data : UpdateAgentData) : Builder :=
  let b0 := mkBuilder [] [] 1 in
  let b1 := push_field "name" (VText <$> u_name data) b0 in
  let b2 := push_field "description" (VText <$> u_description data) b1 in
  let b3 := push_field "endpoint_url" (VText <$> u_endpoint_url data) b2 in
  let b4 := push_field "config" (VText <$> u_config data) b3 in
  let b5 := push_field "status" (VStatus <$> u_status data) b4 in
  let b6 := push_field "last_health_check" (VTime <$> u_last_health_check data) b5 in
  mkBuilder (updateFields b6 ++ ["updated_at = CURRENT_TIMESTAMP"])
            (values b6 ++ [VText agentId])
            (paramCount b6).

(** [updateFields.join(', ')] *)
Fixpoint join (sep : string) (l : list string) : string :=
  match l with
  | [] => EmptyString
  | [x] => x
  | x :: rest => x +:+ sep +:+ join sep rest
  end.

Definition update_statement (b : Builder) : string :=
  "UPDATE agents SET " +:+ join ", " (updateFields b) +:+
  " WHERE id = $" +:+ pretty (paramCount b) +:+ " RETURNING *".

(** The fields given, paired with their columns, in the order of the
    tests. *)
Definition given (data : UpdateAgentData) : list (string * SqlValue) :=
  omap (fun cv => (fun v => (fst cv, v)) <$> snd cv)
    [("name", VText <$> u_name data);
     ("description", VText <$> u_description data);
     ("endpoint_url", VText <$> u_endpoint_url data);
     ("config", VText <$> u_config data);
     ("status", VStatus <$> u_status data);
     ("last_health_check", VTime <$> u_last_health_check data)].

(** What the statement does to a row of the model, which carries the
    [status] and [last_health_check] columns. *)
Definition apply_update (data : UpdateAgentData) (a : AgentRow) : AgentRow :=
  mkAgentRow (agent_id a) (agent_user_id a)
             (default (agent_status a) (u_status data))
             (match u_last_health_check data with
              | Some t => Some t
              | None => last_health_check a
              end).

Definition updateAgent (env : Env) (agentId : string) (data : UpdateAgentData)
    : M unit :=
  try_catch
    (run database_query env Q_updateAgent;
     do w <- get_world;
     run modify (set_db (set_agents (map (fun a =>
           if decide (agent_id a = agentId) then apply_update data a else a))));
     match filter (fun a => agent_id a = agentId) (agents (db w)) with
     | [] => throw "Agent not found"
     | _ => logger info "Agent updated successfully"
     end)
    (fun e => run logger error "Failed to update agent"; throw e).

End AgentUpdate.

(** ** The agent service with its AI agents *)

Module Server.
Import Queries AgentUpdate.

(** The entry of [AIAgentService.agents] for one agent: the interval
    handle when it is being monitored. *)
Record AgentData := mkAgentData {
  monitoringInterval : option nat
}.

(** The in-memory map of the AI agents and the intervals that
    [setInterval] has running. *)
Record AIState := mkAIState {
  ai_agents : gmap string AgentData;
  timers : list nat;
  timer_seq : nat
}.

Record State := mkState {
  world : World;
  ai : AIState
}.

Definition SM (A : Type) : Type := State -> Result A * State.

Definition lift {A} (m : M A) : SM A :=
  fun s => match m (world s) with (r, w') => (r, mkState w' (ai s)) end.

Definition sbind {A B} (m : SM A) (k : A -> SM B) : SM B :=
  fun s => match m s with
           | (Ok a, s') => k a s'
           | (Err e, s') => (Err e, s')
           end.

Definition stry {A} (body : SM A) (handler : string -> SM A) : SM A :=
  fun s => match body s with
           | (Ok a, s') => (Ok a, s')
           | (Err e, s') => handler e s'
           end.

Notation "'step' m ; k" := (sbind m (fun _ => k))
  (at level 10, m at level 100, k at level 200).

(** [AIAgentService.startMonitoring] *)
Definition ai_startMonitoring (agentId : string) : SM unit :=
  fun s =>
    match ai_agents (ai s) !! agentId with
    | None => (Err ("Agent " +:+ agentId +:+ " not found"), s)
    | Some _ =>
        (Ok tt,
         mkState
           (set_log (fun l => l ++ [(info, "Starting continuous monitoring")]) (world s))
           (mkAIState
              (<[agentId := mkAgentData (Some (timer_seq (ai s)))]> (ai_agents (ai s)))
              (timers (ai s) ++ [timer_seq (ai s)])
              (S (timer_seq (ai s)))))
    end.

(** [AIAgentService.stopMonitoring] *)
Definition ai_stopMonitoring (agentId : string) : SM unit :=
  fun s =>
    match ai_agents (ai s) !! agentId with
    | Some (mkAgentData (Some handle)) =>
        (Ok tt,
         mkState
           (set_log (fun l => l ++ [(info, "Stopping monitoring")]) (world s))
           (mkAIState
              (<[agentId := mkAgentData None]> (ai_agents (ai s)))
              (filter (fun h => h <> handle) (timers (ai s)))
              (timer_seq (ai s))))
    | _ => (Ok tt, s)
    end.

Definition with_status (st : AgentStatus) : UpdateAgentData :=
  mkUpdate None None None None (Some st) None.

(** [AgentService.startAgent] *)
Definition startAgent (o : Outside) (agentId : string) : SM unit :=
  stry
    (step lift (logger info "Starting agent");
     step lift (updateAgent (outside_env o) agentId (with_status ACTIVE));
     step ai_startMonitoring agentId;
     step lift (redis_set (outside_env o) ("agent:" +:+ agentId +:+ ":status")
                          "active" 3600);
     lift (logger info "Agent started successfully"))
    (fun e => step lift (logger error "Failed to start agent"); lift (throw e)).

(** [AgentService.stopAgent] *)
Definition stopAgent (o : Outside) (agentId : string) : SM unit :=
  stry
    (step lift (logger info "Stopping agent");
     step lift (updateAgent (outside_env o) agentId (with_status INACTIVE));
     step ai_stopMonitoring agentId;
     step lift (redis_set (outside_env o) ("agent:" +:+ agentId +:+ ":status")
                          "inactive" 3600);
     lift (logger info "Agent stopped successfully"))
    (fun e => step lift (logger error "Failed to stop agent"); lift (throw e)).

(** [DELETE FROM agents WHERE id = $1], with the [ON DELETE CASCADE] of
    [agent_metrics.agent_id] and [alerts.agent_id]. *)
Definition delete_agent_rows (agentId : string) (d : Database) : Database :=
  mkDatabase (filter (fun a => agent_id a <> agentId) (agents d))
             (filter (fun m => metric_agent_id m <> agentId) (agent_metrics d))
             (filter (fun a => alert_agent_id a <> agentId) (alerts d))
             (users d) (notification_settings d) (uuid_seq d).

(** [AgentService.deleteAgent] *)
Definition deleteAgent (o : Outside) (agentId : string) : SM unit :=
  stry
    (step stopAgent o agentId;
     step lift (read_query o R_deleteAgent);
     sbind (lift get_world) (fun w =>
       step lift (modify (set_db (delete_agent_rows agentId)));
       match filter (fun a => agent_id a = agentId) (agents (db w)) with
       | [] => lift (throw "Agent not found")
       | _ => lift (logger info "Agent deleted successfully")
       end))
    (fun e => step lift (logger error "Failed to delete agent"); lift (throw e)).

End Server.

(** ** The statement of [updateNotificationSettings] *)

Module SettingsUpdate.
Import Stdlib.Strings.Ascii.
Import AgentUpdate.

(** [Partial<NotificationSettings>]: an absent field is [undefined];
    [alert_thresholds] is passed on as [JSON.stringify] renders it. *)
Record SettingsPatch := mkPatch {
  p_email_enabled : option bool;
  p_slack_webhook_url : option string;
  p_telegram_chat_id : option string;
  p_webhook_url : option string;
  p_alert_thresholds : option string
}.

Inductive SettingValue :=
| SBool (b : bool)
| SText (s : string).

Record SettingsBuilder := mkSettingsBuilder {
  s_updateFields : list string;
  s_values : list SettingValue;
  s_paramCount : nat
}.

Definition push_setting (column : string) (v : option SettingValue)
    (b : SettingsBuilder) : SettingsBuilder :=
  match v with
  | Some x =>
      mkSettingsBuilder
        (s_updateFields b ++ [column +:+ " = $" +:+ pretty (s_paramCount b)])
        (s_values b ++ [x])
        (S (s_paramCount b))
  | None => b
  end.

Definition build_settings (userId : string) (patch : SettingsPatch) : SettingsBuilder :=
  let b0 := mkSettingsBuilder [] [] 1 in
  let b1 := push_setting "email_enabled" (SBool <$> p_email_enabled patch) b0 in
  let b2 := push_setting "slack_webhook_url" (SText <$> p_slack_webhook_url patch) b1 in
  let b3 := push_setting "telegram_chat_id" (SText <$> p_telegram_chat_id patch) b2 in
  let b4 := push_setting "webhook_url" (SText <$> p_webhook_url patch) b3 in
  let b5 := push_setting "alert_thresholds" (SText <$> p_alert_thresholds patch) b4 in
  mkSettingsBuilder (s_updateFields b5 ++ ["updated_at = CURRENT_TIMESTAMP"])
                    (s_values b5 ++ [SText userId])
                    (s_paramCount b5).

Definition is_digit (c : ascii) : bool :=
  (48 <=? nat_of_ascii c)%nat && (nat_of_ascii c <=? 57)%nat.

Definition starts_with_digit (s : string) : bool :=
  match s with
  | String c _ => is_digit c
  | EmptyString => false
  end.

(** [.replace(/\$\d+/g, '')]: every dollar sign that is followed by a
    digit goes, with all the digits after it.  [in_digits] says that
    the digits of a match are being skipped. *)
Fixpoint strip_placeholders (in_digits : bool) (s : string) : string :=
  match s with
  | EmptyString => EmptyString
  | String c rest =>
      if in_digits && is_digit c then strip_placeholders true rest
      else if Ascii.eqb c "$"%char && starts_with_digit rest
           then strip_placeholders true rest
           else String c (strip_placeholders false rest)
  end.

(** [.replace(pattern, replacement)] with a literal, non-global pattern:
    the first occurrence only. *)
Fixpoint replace_first (pattern replacement s : string) : string :=
  if String.prefix pattern s
  then replacement +:+ String.substring (String.length pattern)
                                        (String.length s - String.length pattern) s
  else match s with
       | EmptyString => EmptyString
       | String c rest => String c (replace_first pattern replacement rest)
       end.

(** The text between [INSERT INTO notification_settings (user_id, ] and
    [ created_at, updated_at)]. *)
Definition insert_columns (b : SettingsBuilder) : string :=
  replace_first "updated_at = CURRENT_TIMESTAMP," "updated_at,"
    (strip_placeholders false (join ", " (s_updateFields b))).

(** The placeholders of [VALUES (...)], before the two
    [CURRENT_TIMESTAMP]s. *)
Definition insert_placeholders (b : SettingsBuilder) : list string :=
  ("$" +:+ pretty (s_paramCount b))
  :: imap (fun i _ => "$" +:+ pretty (S i)) (s_updateFields b).

(** The columns given, in the order of the tests. *)
Definition given_columns (patch : SettingsPatch) : list string :=
  omap (fun cv => (fun _ => fst cv) <$> snd cv)
    [("email_enabled", SBool <$> p_email_enabled patch);
     ("slack_webhook_url", SText <$> p_slack_webhook_url patch);
     ("telegram_chat_id", SText <$> p_telegram_chat_id patch);
     ("webhook_url", SText <$> p_webhook_url patch);
     ("alert_thresholds", SText <$> p_alert_thresholds patch)].

End SettingsUpdate.

(** ** Further worlds for the scenarios *)

Module ServerFixtures.
Import Fixtures MoreFixtures.

(** The first DELETE of the sweep fails. *)
Definition metrics_delete_down : Env :=
  mkEnv (fun q => match q with Q_deleteMetrics => true | _ => false end)
        false (fun _ => false) (Some "bot-token") (fun _ => Ok "completed").

Definition agent_S : AgentRow := mkAgentRow "S" "U" ACTIVE None.

Definition agent_T : AgentRow := mkAgentRow "T" "U" ACTIVE None.

(** The latest-metrics query fails for agent [S] only. *)
Definition latest_down_for_S : Env :=
  mkEnv (fun q => match q with
                  | Q_latestMetrics agentId => String.eqb agentId "S"
                  | _ => false
                  end)
        false (fun _ => false) (Some "bot-token") (fun _ => Ok "completed").

(** Agent [S] is unknown to the agent runtime, and the cache is down. *)
Definition S_unknown_cache_down : Env :=
  mkEnv (fun _ => false) true (fun _ => false) (Some "bot-token")
        (fun agentId => if String.eqb agentId "S"
                        then Err ("Agent " +:+ agentId +:+ " not found")
                        else Ok "completed").

(** Three active agents, each with a sample. *)
Definition three_agent_world : World :=
  mkWorld (mkDatabase [agent_R; agent_S; agent_T]
             [mkMetricRow "R" (Some (99 # 1)) 990;
              mkMetricRow "S" (Some (98 # 1)) 991;
              mkMetricRow "T" (Some (97 # 1)) 992]
             [] [user_U] [settings_U] 0)
          ∅ [] [] [] MonitoringService.new_service 1000.

(** Agent [R] reported 99 percent a moment ago. *)
Definition sample_R : MetricRow := mkMetricRow "R" (Some (99 # 1)) 990.

Definition healthy_world : World :=
  mkWorld (mkDatabase [agent_R] [sample_R] [alert_A] [user_U] [settings_U] 0)
          ∅ [] [] [] MonitoringService.new_service 1000.

(** The service after [startMonitoring]. *)
Definition started_world : World :=
  snd (MonitoringService.startMonitoring runtime_down one_agent_world).

Definition set_inactive : AgentUpdate.UpdateAgentData :=
  AgentUpdate.mkUpdate None None None None (Some INACTIVE) None.

Definition nothing_given : AgentUpdate.UpdateAgentData :=
  AgentUpdate.mkUpdate None None None None None None.

(** A server whose AI service has lost agent [R] (a restart empties
    the in-memory map) and one that still has it. *)
Definition server_without_ai : Server.State :=
  Server.mkState one_agent_world (Server.mkAIState ∅ [] 0).

Definition server_with_ai : Server.State :=
  Server.mkState one_agent_world
    (Server.mkAIState {[ "R" := Server.mkAgentData None ]} [] 0).

(** Agent [R] has its health-check job registered. *)
Definition server_monitoring_R : Server.State :=
  Server.mkState
    (snd (MonitoringService.startAgentMonitoring calm "R" one_agent_world))
    (Server.mkAIState {[ "R" := Server.mkAgentData None ]} [] 0).

End ServerFixtures.

(** * Properties *)

(** ** Health classification *)

Section HealthFacts.
Import Health.

Lemma Qltb_lt (x y : Q) : Qltb x y = true <-> (x < y)%Q.
Proof.
  unfold Qltb. rewrite negb_true_iff. split.
  - intros H. apply Qnot_le_lt. intros Hle.
    apply Qle_bool_iff in Hle. congruence.
  - intros H. destruct (Qle_bool y x) eqn:E; [|reflexivity].
    apply Qle_bool_iff in E. exfalso. exact (Qlt_not_le _ _ H E).
Qed.

Lemma Qltb_ge (x y : Q) : Qltb x y = false <-> ~ (x < y)%Q.
Proof.
  rewrite <- Qltb_lt. destruct (Qltb x y); split; congruence.
Qed.

Lemma classify_unfold total active err avg unres :
  classify total active err avg unres =
  if (0 <? err) || (10 <? unres) then critical
  else if Qltb avg 95%Q || (5 <? unres) then warning
  else healthy.
Proof. reflexivity. Qed.

(** First match wins: exactly one of the three rules applies. *)
Lemma classify_cases total active err (avg : Q) unres :
  ((err > 0 \/ unres > 10)
     /\ classify total active err avg unres = critical) \/
  (~ (err > 0 \/ unres > 10) /\ ((avg < 95)%Q \/ unres > 5)
     /\ classify total active err avg unres = warning) \/
  (~ (err > 0 \/ unres > 10) /\ ~ ((avg < 95)%Q \/ unres > 5)
     /\ classify total active err avg unres = healthy).
Proof.
  assert (Hc : (0 <? err) || (10 <? unres) = true <-> (err > 0 \/ unres > 10)).
  { rewrite orb_true_iff, !Z.ltb_lt. lia. }
  assert (Hw : Qltb avg 95%Q || (5 <? unres) = true
               <-> ((avg < 95)%Q \/ unres > 5)).
  { rewrite orb_true_iff, Qltb_lt, Z.ltb_lt. intuition lia. }
  rewrite classify_unfold.
  destruct ((0 <? err) || (10 <? unres)) eqn:Ec.
  - left. split; [apply Hc|]; reflexivity.
  - assert (Hnc : ~ (err > 0 \/ unres > 10)).
    { intros H. apply Hc in H. discriminate. }
    destruct (Qltb avg 95%Q || (5 <? unres)) eqn:Ew.
    + right; left. repeat split; [exact Hnc | apply Hw; reflexivity].
    + right; right. repeat split; [exact Hnc |].
      intros H. apply Hw in H. discriminate.
Qed.

(** C1. The status is [critical] exactly when [errorCount > 0] or
    [unresolvedAlertCount > 10]; otherwise [warning] exactly when
    [avgUptime < 95] or [unresolvedAlertCount > 5]; otherwise [healthy].
    The bounds are strict: an average of exactly 95 and exactly 5
    unresolved alerts give [healthy], 6 unresolved alerts give
    [warning], and an error agent gives [critical] whatever the
    average. *)
Theorem C1_health_classification (total active err : Z) (avg : Q) (unres : Z) :
  (classify total active err avg unres = critical
     <-> (err > 0 \/ unres > 10)) /\
  (classify total active err avg unres = warning
     <-> (~ (err > 0 \/ unres > 10) /\ ((avg < 95)%Q \/ unres > 5))) /\
  (classify total active err avg unres = healthy
     <-> (~ (err > 0 \/ unres > 10) /\ ~ ((avg < 95)%Q \/ unres > 5))) /\
  classify total active 0 95%Q 5 = healthy /\
  classify total active 0 avg 6 = warning /\
  classify total active 1 avg unres = critical /\
  classify total active err avg 11 = critical.
Proof.
  split; [|split; [|split; [|split; [|split; [|split]]]]].
  1-3: destruct (classify_cases total active err avg unres)
         as [[Hc E] | [[Hc [Hw E]] | [Hc [Hw E]]]];
       rewrite E; split; intros H;
       solve [ discriminate | reflexivity | assumption | tauto ].
  - reflexivity.
  - rewrite classify_unfold. simpl. rewrite orb_true_r. reflexivity.
  - reflexivity.
  - rewrite classify_unfold. simpl. rewrite orb_true_r. reflexivity.
Qed.

(** [SELECT ... FROM agents] over an empty table: all counts are 0 and
    [AVG] is [NULL]. *)
Lemma health_stats_empty (d : Database) :
  agents d = [] -> health_stats d = mkStats 0 0 0 None.
Proof. intros H. unfold health_stats, count_status. rewrite H. reflexivity. Qed.

(** C9. With no agent at all and at most 10 unresolved alerts,
    [getSystemHealth] answers [warning] (the [NULL] average converts to
    0, which is below 95) and reports [avgUptime] 0. *)
Theorem C9_empty_fleet_is_warning (env : Env) (w : World) :
  agents (db w) = [] ->
  query_fails env Q_healthStats = false ->
  query_fails env Q_unresolvedAlerts = false ->
  unresolved_alerts (db w) <= 10 ->
  exists h,
    getSystemHealth env w = (Ok h, w) /\
    systemStatus h = warning /\
    avgUptime h = 0%Q /\
    totalAgents h = 0 /\
    errorAgents h = 0 /\
    unresolvedAlerts h = unresolved_alerts (db w).
Proof.
  intros Hempty Hq1 Hq2 Hle.
  exists (computeSystemHealth (health_stats (db w)) (unresolved_alerts (db w))).
  split.
  - unfold getSystemHealth, try_catch, bind, database_query.
    rewrite Hq1, Hq2. reflexivity.
  - rewrite (health_stats_empty _ Hempty).
    unfold computeSystemHealth, determineSystemStatus. simpl.
    destruct (10 <? unresolved_alerts (db w)) eqn:E.
    + apply Z.ltb_lt in E. lia.
    + repeat split.
Qed.

End HealthFacts.

Section HealthWitness.
Import Health Fixtures.

Lemma C9_empty_fleet_witness :
  exists h,
    getSystemHealth calm empty_world = (Ok h, empty_world) /\
    systemStatus h = warning /\
    avgUptime h = 0%Q /\
    totalAgents h = 0 /\
    errorAgents h = 0 /\
    unresolvedAlerts h = unresolved_alerts (db empty_world).
Proof.
  apply (C9_empty_fleet_is_warning calm empty_world);
    [reflexivity | reflexivity | reflexivity | vm_compute; discriminate].
Defined.

End HealthWitness.

(** ** Alert creation *)

Section CreateAlertFacts.
Import AgentService MonitoringService.

Lemma filter_unknown_agent (l : list AgentRow) (agentId : string) :
  agentId ∉ map agent_id l ->
  filter (fun a => agent_id a = agentId) l = [].
Proof.
  induction l as [|a l IH]; intros Hnotin; [reflexivity|].
  simpl in Hnotin. apply not_elem_of_cons in Hnotin as [Hne Hrest].
  rewrite filter_cons. destruct (decide (agent_id a = agentId)) as [E|_].
  - congruence.
  - apply IH, Hrest.
Qed.

(** C5. [createAlert] for an agent id that no row of [agents] carries
    is rejected, with [Agent not found] whenever the lookup itself
    answers, and leaves the tables, the cache, the emitted events and
    the dispatched notifications as they were: only the error line is
    logged. *)
Theorem C5_createAlert_unknown_agent (env : Env) (w : World)
    (agentId type : string) (severity : AlertSeverity) (message : string) :
  agentId ∉ map agent_id (agents (db w)) ->
  exists e w',
    createAlert env agentId type severity message w = (Err e, w') /\
    (query_fails env Q_getAgentById = false -> e = "Agent not found") /\
    db w' = db w /\
    emitted w' = emitted w /\
    dispatched w' = dispatched w /\
    cache w' = cache w /\
    svc w' = svc w /\
    Forall (fun l => fst l = error) (drop (length (log w)) (log w')).
Proof.
  intros Hunknown.
  apply filter_unknown_agent in Hunknown.
  unfold createAlert, getAgentById, try_catch, bind, database_query.
  destruct (query_fails env Q_getAgentById) eqn:Hq; simpl.
  - eexists _, _. split; [reflexivity|].
    repeat split; [discriminate|]. simpl.
    rewrite <- !app_assoc, drop_app_length. repeat constructor.
  - rewrite Hunknown. simpl.
    eexists _, _. split; [reflexivity|].
    repeat split. simpl. rewrite drop_app_length. repeat constructor.
Qed.

End CreateAlertFacts.

(** ** Notification fanout *)

Section FanoutFacts.
Import NotificationService Fanout.

Lemma notified_refl w : notified w w [].
Proof. unfold notified. rewrite app_nil_r. repeat split. Qed.

Lemma notified_trans w1 w2 w3 ds1 ds2 :
  notified w1 w2 ds1 -> notified w2 w3 ds2 -> notified w1 w3 (ds1 ++ ds2).
Proof.
  unfold notified. intros (?&?&?&?&?&?) (?&?&?&?&?&?).
  repeat split; try congruence.
  rewrite app_assoc. congruence.
Qed.

Lemma logger_notified lvl msg w : notified w (snd (logger lvl msg w)) [].
Proof. unfold notified. simpl. rewrite app_nil_r. repeat split. Qed.

(** A sender records exactly one dispatch, with the outcome the
    environment decides, and touches nothing else but the log. *)
Lemma send_notified env ch alert w :
  notified w (snd (send env ch alert w)) [mkDispatch ch alert (outcome env ch)].
Proof.
  unfold send, try_catch, sender_body, transport, outcome, notified.
  destruct ch; simpl;
    repeat match goal with
           | |- context [if ?b then _ else _] => destruct b; simpl
           end;
    repeat split.
Qed.

Lemma allSettled_ok {A} (ps : list (M A)) w :
  exists rs, fst (allSettled ps w) = Ok rs.
Proof.
  revert w. induction ps as [|p ps IH]; intros w; simpl.
  - eexists. reflexivity.
  - unfold bind, settle. destruct (p w) as [r w1].
    destruct (IH w1) as [rs Hrs].
    destruct (allSettled ps w1) as [r2 w2]. simpl in Hrs. subst r2.
    eexists. reflexivity.
Qed.

(** [Promise.allSettled] over the senders of [chs]: every one of them
    is run, whatever the others do. *)
Lemma allSettled_sends env alert (chs : list Channel) w :
  notified w
    (snd (allSettled (map (fun ch => send env ch alert) chs) w))
    (dispatches env alert chs).
Proof.
  revert w. induction chs as [|ch chs IH]; intros w; simpl.
  - apply notified_refl.
  - unfold bind, settle.
    pose proof (send_notified env ch alert w) as H1.
    destruct (send env ch alert w) as [r w1]. simpl in H1.
    pose proof (IH w1) as H2.
    destruct (allSettled (map (fun ch0 => send env ch0 alert) chs) w1)
      as [[rs|e] w2]; simpl in *;
      exact (notified_trans _ _ _ _ _ H1 H2).
Qed.

Lemma notifications_enabled env s alert :
  notifications env s alert = map (fun ch => send env ch alert) (enabled_channels s).
Proof.
  unfold notifications, enabled_channels.
  destruct (email_enabled s), (truthy (slack_webhook_url s)),
           (truthy (telegram_chat_id s)), (truthy (webhook_url s));
    reflexivity.
Qed.

(** [sendAlert] always returns normally, and dispatches to exactly the
    channels of [fanout_channels], whatever the alert is. *)
Lemma sendAlert_spec env userId alert w :
  fst (sendAlert env userId alert w) = Ok tt /\
  notified w (snd (sendAlert env userId alert w))
           (dispatches env alert (fanout_channels env userId (db w))).
Proof.
  unfold sendAlert, fanout_channels, getUserNotificationSettings,
    try_catch, bind, database_query.
  destruct (query_fails env Q_notificationSettings) eqn:Hs; simpl.
  { split; [reflexivity|]. unfold notified; simpl.
    rewrite app_nil_r. repeat split. }
  destruct (head (filter (fun s => settings_user_id s = userId)
                         (notification_settings (db w)))) as [s|] eqn:Hrow;
    simpl.
  2:{ split; [reflexivity|]. unfold notified; simpl.
      rewrite app_nil_r. repeat split. }
  destruct (query_fails env Q_userEmail) eqn:Hu; simpl.
  { split; [reflexivity|]. unfold notified; simpl.
    rewrite app_nil_r. repeat split. }
  destruct (filter (fun u => user_id u = userId) (users (db w)))
    as [|user rest] eqn:Husers; simpl.
  { split; [reflexivity|]. unfold notified; simpl.
    rewrite app_nil_r. repeat split. }
  rewrite notifications_enabled.
  pose proof (allSettled_sends env alert (enabled_channels s) w) as Hn.
  destruct (allSettled_ok
              (map (fun ch => send env ch alert) (enabled_channels s)) w)
    as [rs Hok].
  destruct (allSettled (map (fun ch => send env ch alert) (enabled_channels s)) w)
    as [r w1]. simpl in Hok, Hn. subst r. simpl.
  split; [reflexivity|].
  rewrite <- (app_nil_r (dispatches env alert (enabled_channels s))).
  exact (notified_trans _ _ _ _ _ Hn (logger_notified _ _ w1)).
Qed.

Lemma notified_reached env alert chs w w' :
  notified w w' (dispatches env alert chs) -> reached w w' = chs.
Proof.
  intros (_&_&_&_&_&Hd). unfold reached, dispatches in *.
  rewrite Hd, drop_app_length, map_map. simpl. apply map_id.
Qed.

Lemma dispatches_elem env alert chs ch :
  ch ∈ chs -> mkDispatch ch alert (outcome env ch) ∈ dispatches env alert chs.
Proof.
  intros H. unfold dispatches.
  apply (list_elem_of_fmap_2 (fun c => mkDispatch c alert (outcome env c))), H.
Qed.

(** C6. [sendAlert] returns normally in every environment.  When the
    settings row and the user row are read, the sender of every enabled
    channel is run and recorded, with the outcome the environment
    decides for that channel alone, so a channel that raises does not
    keep another from being attempted.  A missing settings row gives a
    warning and no dispatch; a failed read of the settings or of the
    user gives an error line and no dispatch. *)
Theorem C6_fanout_failure_isolation (env : Env) (userId : string)
    (alert : MonitoringAlert) (w : World) :
  fst (sendAlert env userId alert w) = Ok tt /\
  (forall s u rest,
      query_fails env Q_notificationSettings = false ->
      head (filter (fun s => settings_user_id s = userId)
                   (notification_settings (db w))) = Some s ->
      query_fails env Q_userEmail = false ->
      filter (fun u => user_id u = userId) (users (db w)) = u :: rest ->
      notified w (snd (sendAlert env userId alert w))
               (dispatches env alert (enabled_channels s)) /\
      forall ch, ch ∈ enabled_channels s ->
        mkDispatch ch alert (outcome env ch)
          ∈ dispatched (snd (sendAlert env userId alert w))) /\
  (query_fails env Q_notificationSettings = false ->
   head (filter (fun s => settings_user_id s = userId)
                (notification_settings (db w))) = None ->
   notified w (snd (sendAlert env userId alert w)) [] /\
   log (snd (sendAlert env userId alert w))
     = log w ++ [(warn, "No notification settings found for user")]) /\
  (query_fails env Q_notificationSettings = true ->
   notified w (snd (sendAlert env userId alert w)) [] /\
   (error, "Failed to get notification settings")
     ∈ log (snd (sendAlert env userId alert w))) /\
  (forall s,
      query_fails env Q_notificationSettings = false ->
      head (filter (fun s => settings_user_id s = userId)
                   (notification_settings (db w))) = Some s ->
      query_fails env Q_userEmail = true ->
      notified w (snd (sendAlert env userId alert w)) [] /\
      (error, "Failed to send alert notifications")
        ∈ log (snd (sendAlert env userId alert w))).
Proof.
  destruct (sendAlert_spec env userId alert w) as [Hok Hn].
  split; [exact Hok|].
  split; [|split; [|split]].
  - intros s u rest Hs Hrow Hu Huser.
    unfold fanout_channels in Hn. rewrite Hs, Hrow, Hu, Huser in Hn.
    split; [exact Hn|].
    intros ch Hch. destruct Hn as (_&_&_&_&_&Hd). rewrite Hd.
    apply elem_of_app. right. apply dispatches_elem, Hch.
  - intros Hs Hrow.
    unfold fanout_channels in Hn. rewrite Hs, Hrow in Hn.
    split; [exact Hn|].
    unfold sendAlert, getUserNotificationSettings, try_catch, bind,
      database_query.
    rewrite Hs. simpl. rewrite Hrow. reflexivity.
  - intros Hs.
    unfold fanout_channels in Hn. rewrite Hs in Hn.
    split; [exact Hn|].
    unfold sendAlert, getUserNotificationSettings, try_catch, bind,
      database_query.
    rewrite Hs. simpl. rewrite !elem_of_app, !list_elem_of_singleton.
    left; right. reflexivity.
  - intros s Hs Hrow Hu.
    unfold fanout_channels in Hn. rewrite Hs, Hrow, Hu in Hn.
    split; [exact Hn|].
    unfold sendAlert, getUserNotificationSettings, try_catch, bind,
      database_query.
    rewrite Hs. simpl. rewrite Hrow, Hu. simpl.
    rewrite !elem_of_app, !list_elem_of_singleton. right. reflexivity.
Qed.

End FanoutFacts.

(** ** The severity gate *)

Section SeverityGate.
Import AgentService NotificationService MonitoringService Fanout.

Lemma notifies_high_critical severity :
  notifies severity = true <-> severity = HIGH \/ severity = CRITICAL.
Proof.
  destruct severity; unfold notifies; simpl; intuition discriminate.
Qed.

(** What [createAlert] does to the alert table and to the dispatches,
    in every environment: at most one row is appended, existing rows
    are kept as they are, and the fanout is entered only behind the
    severity test. *)
Lemma createAlert_effects env agentId type severity message w :
  let w' := snd (createAlert env agentId type severity message w) in
  (exists new, alerts (db w') = alerts (db w) ++ new /\
               Forall (fun a => resolved a = false) new) /\
  (notifies severity = false -> reached w w' = []) /\
  (forall agent,
      query_fails env Q_getAgentById = false ->
      head (filter (fun a => agent_id a = agentId) (agents (db w))) = Some agent ->
      query_fails env Q_insertAlert = false ->
      reached w w' = if notifies severity
                     then fanout_channels env (agent_user_id agent) (db w)
                     else []).
Proof.
  assert (Hnil : forall w0 w1 : World,
             dispatched w1 = dispatched w0 -> reached w0 w1 = []).
  { intros w0 w1 H. unfold reached. rewrite H, drop_all. reflexivity. }
  assert (Hsame : forall w1 : World, db w1 = db w ->
             exists new, alerts (db w1) = alerts (db w) ++ new /\
                         Forall (fun a => resolved a = false) new).
  { intros w1 H. exists []. rewrite H, app_nil_r.
    split; [reflexivity | constructor]. }
  unfold createAlert, getAgentById, try_catch, bind, database_query.
  destruct (query_fails env Q_getAgentById) eqn:Hq; simpl.
  { split; [apply Hsame; reflexivity|].
    split; [intros _; apply Hnil; reflexivity | discriminate]. }
  destruct (head (filter (fun a => agent_id a = agentId) (agents (db w))))
    as [agent|] eqn:Hagent; simpl.
  2:{ split; [apply Hsame; reflexivity|].
      split; [intros _; apply Hnil; reflexivity | discriminate]. }
  destruct (query_fails env Q_insertAlert) eqn:Hi; simpl.
  { split; [apply Hsame; reflexivity|].
    split; [intros _; apply Hnil; reflexivity | discriminate]. }
  fold (notifies severity).
  set (alertId := uuid_generate_v4 (uuid_seq (db w))).
  set (alert := mkMonitoringAlert alertId agentId type severity message
                                  (clock w) false).
  set (w2 := set_emitted _ (set_emitted _ (set_db _ w))).
  assert (Hw2 : notified w2 (snd ((if notifies severity
                   then sendAlert env (agent_user_id agent) alert
                   else ret tt) w2))
                  (dispatches env alert
                     (if notifies severity
                      then fanout_channels env (agent_user_id agent) (db w)
                      else [])) /\
                fst ((if notifies severity
                   then sendAlert env (agent_user_id agent) alert
                   else ret tt) w2) = Ok tt).
  { destruct (notifies severity).
    - destruct (sendAlert_spec env (agent_user_id agent) alert w2) as [Hok Hn].
      split; [exact Hn | exact Hok].
    - split; [apply notified_refl | reflexivity]. }
  destruct Hw2 as [(Hdb & _ & _ & _ & _ & Hd) Hok].
  destruct ((if notifies severity
             then sendAlert env (agent_user_id agent) alert
             else ret tt) w2) as [r w3].
  simpl in Hdb, Hd, Hok. subst r.
  assert (Hreach : forall w4, dispatched w4 = dispatched w3 ->
            reached w w4 = if notifies severity
                           then fanout_channels env (agent_user_id agent) (db w)
                           else []).
  { intros w4 H4. unfold reached. rewrite H4, Hd. subst w2. simpl.
    rewrite drop_app_length. unfold dispatches. rewrite map_map. simpl.
    apply map_id. }
  assert (Hrows : forall w4, db w4 = db w3 ->
            exists new, alerts (db w4) = alerts (db w) ++ new /\
                        Forall (fun a => resolved a = false) new).
  { intros w4 H4. rewrite H4, Hdb. subst w2. simpl.
    eexists. split; [reflexivity|]. repeat constructor. }
  unfold redis_set. destruct (redis_fails env); simpl.
  - split; [apply Hrows; reflexivity|]. split.
    + intros Hno. rewrite Hreach by reflexivity. rewrite Hno. reflexivity.
    + intros agent' _ Hagent' _. inversion Hagent'; subst agent'.
      apply Hreach. reflexivity.
  - split; [apply Hrows; reflexivity|]. split.
    + intros Hno. rewrite Hreach by reflexivity. rewrite Hno. reflexivity.
    + intros agent' _ Hagent' _. inversion Hagent'; subst agent'.
      apply Hreach. reflexivity.
Qed.

Lemma fanout_channels_found env userId d s u rest :
  query_fails env Q_notificationSettings = false ->
  head (filter (fun s => settings_user_id s = userId)
               (notification_settings d)) = Some s ->
  query_fails env Q_userEmail = false ->
  filter (fun u => user_id u = userId) (users d) = u :: rest ->
  fanout_channels env userId d = enabled_channels s.
Proof.
  intros Hs Hrow Hu Huser. unfold fanout_channels.
  rewrite Hs, Hrow, Hu, Huser. reflexivity.
Qed.

(** C10. The channels [sendAlert] reaches are a function of the
    subscriber's settings alone, not of the alert: with the settings and
    the user row read, they are all the enabled channels, for an alert
    of any severity.  [sendTestNotification] therefore reaches all of
    them with its [MEDIUM] alert.  The test on [high] and [critical]
    sits in [createAlert]: an alert of another severity reaches no
    channel through it, and one of these two reaches what [sendAlert]
    reaches. *)
Theorem C10_no_severity_filter_in_fanout (env : Env) (userId : string)
    (alert : MonitoringAlert) (w : World) :
  reached w (snd (sendAlert env userId alert w))
    = fanout_channels env userId (db w) /\
  (forall s u rest,
      query_fails env Q_notificationSettings = false ->
      head (filter (fun s => settings_user_id s = userId)
                   (notification_settings (db w))) = Some s ->
      query_fails env Q_userEmail = false ->
      filter (fun u => user_id u = userId) (users (db w)) = u :: rest ->
      reached w (snd (sendAlert env userId alert w)) = enabled_channels s /\
      reached w (snd (sendTestNotification env userId w)) = enabled_channels s) /\
  reached w (snd (sendTestNotification env userId w))
    = fanout_channels env userId (db w) /\
  Forall (fun d => ma_severity (d_alert d) = MEDIUM)
         (drop (length (dispatched w))
               (dispatched (snd (sendTestNotification env userId w)))) /\
  (forall agentId type severity message,
      notifies severity = false ->
      reached w (snd (createAlert env agentId type severity message w)) = []) /\
  (forall agentId type severity message agent,
      query_fails env Q_getAgentById = false ->
      head (filter (fun a => agent_id a = agentId) (agents (db w))) = Some agent ->
      query_fails env Q_insertAlert = false ->
      reached w (snd (createAlert env agentId type severity message w))
        = if notifies severity
          then fanout_channels env (agent_user_id agent) (db w)
          else []) /\
  (forall severity,
      notifies severity = true <-> severity = HIGH \/ severity = CRITICAL).
Proof.
  assert (Hsend : forall a : MonitoringAlert,
             reached w (snd (sendAlert env userId a w))
             = fanout_channels env userId (db w)).
  { intros a. destruct (sendAlert_spec env userId a w) as [_ Hn].
    exact (notified_reached _ _ _ _ _ Hn). }
  assert (Htest : forall a : MonitoringAlert,
             snd (sendTestNotification env userId w)
             = snd (sendAlert env userId
                      (mkMonitoringAlert "test-alert" "test-agent"
                         "test_notification" MEDIUM
                         "This is a test notification from Mentis Protocol. Your notification settings are working correctly!"
                         (clock w) false) w)).
  { intros _. reflexivity. }
  split; [apply Hsend|].
  split; [|split; [|split; [|split; [|split]]]].
  - intros s u rest Hs Hrow Hu Huser. rewrite (Htest alert), !Hsend.
    split; exact (fanout_channels_found _ _ _ _ _ _ Hs Hrow Hu Huser).
  - rewrite (Htest alert). apply Hsend.
  - rewrite (Htest alert).
    match goal with
    | |- context [sendAlert env userId ?a w] =>
        destruct (sendAlert_spec env userId a w) as [_ (_&_&_&_&_&Hd)]
    end.
    rewrite Hd, drop_app_length. unfold dispatches.
    apply List.Forall_forall. intros d Hin.
    apply in_map_iff in Hin as (ch & <- & _). reflexivity.
  - intros agentId type severity message Hno.
    apply (createAlert_effects env agentId type severity message w), Hno.
  - intros agentId type severity message agent Hq Hagent Hi.
    apply (createAlert_effects env agentId type severity message w);
      assumption.
  - apply notifies_high_critical.
Qed.

End SeverityGate.

(** ** Resolving alerts *)

Section ResolveFacts.
Import AgentService AlertStore Fixtures.

(** What one [resolveAlert] that the store accepts does to the table. *)
Lemma resolveAlert_ok env alertId userId w :
  query_fails env Q_resolveAlert = false ->
  violates_resolved_by alertId userId (db w) = false ->
  fst (resolveAlert env alertId userId w) = Ok tt /\
  alerts (db (snd (resolveAlert env alertId userId w)))
    = map (fun a => if decide (alert_id a = alertId)
                    then resolve_row (clock w) userId a else a)
          (alerts (db w)) /\
  users (db (snd (resolveAlert env alertId userId w))) = users (db w).
Proof.
  intros Hq Hfk. unfold resolveAlert, try_catch, bind, database_query.
  rewrite Hq. simpl. rewrite Hfk. simpl. repeat split; reflexivity.
Qed.

(** A [resolveAlert] that the store rejects raises and leaves the
    tables alone. *)
Lemma resolveAlert_rejected env alertId userId w :
  query_fails env Q_resolveAlert = false ->
  violates_resolved_by alertId userId (db w) = true ->
  fst (resolveAlert env alertId userId w)
    = Err "violates foreign key constraint alerts_resolved_by_fkey" /\
  db (snd (resolveAlert env alertId userId w)) = db w.
Proof.
  intros Hq Hfk. unfold resolveAlert, try_catch, bind, database_query.
  rewrite Hq. simpl. rewrite Hfk. simpl. split; reflexivity.
Qed.

(** A [resolveAlert] that returned normally was accepted by the store. *)
Lemma resolveAlert_returned env alertId userId w :
  fst (resolveAlert env alertId userId w) = Ok tt ->
  query_fails env Q_resolveAlert = false /\
  violates_resolved_by alertId userId (db w) = false.
Proof.
  unfold resolveAlert, try_catch, bind, database_query.
  destruct (query_fails env Q_resolveAlert); simpl; [discriminate|].
  destruct (violates_resolved_by alertId userId (db w)); simpl; [discriminate|].
  intros _. split; reflexivity.
Qed.

Lemma resolver_known alertId userId d :
  userId ∈ map user_id (users d) ->
  violates_resolved_by alertId userId d = false.
Proof.
  intros H. unfold violates_resolved_by.
  rewrite (bool_decide_eq_true_2 _ H). apply andb_false_r.
Qed.

Lemma resolver_unknown alertId userId d :
  alertId ∈ map alert_id (alerts d) ->
  userId ∉ map user_id (users d) ->
  violates_resolved_by alertId userId d = true.
Proof.
  intros Ha Hu. unfold violates_resolved_by.
  rewrite (bool_decide_eq_true_2 _ Ha), (bool_decide_eq_false_2 _ Hu). reflexivity.
Qed.

(** The second of two [resolveAlert] calls replaces what the first one
    wrote: alert [A], resolved by [U] at time 1000, ends with the time
    of the second call when [U] resolves it again at time 2000, and
    with the time and the resolver of the second call when user [W]
    does. *)
Lemma C2_second_resolve_overwrites :
  resolution "A" (snd (resolveAlert calm "A" "U" two_user_world))
    = [(Some 1000, Some "U")] /\
  fst (resolve_again calm "A" "U" "U" 2000 two_user_world) = Ok tt /\
  resolution "A" (snd (resolve_again calm "A" "U" "U" 2000 two_user_world))
    = [(Some 2000, Some "U")] /\
  fst (resolve_again calm "A" "U" "W" 2000 two_user_world) = Ok tt /\
  resolution "A" (snd (resolve_again calm "A" "U" "W" 2000 two_user_world))
    = [(Some 2000, Some "W")] /\
  resolution "A" (snd (resolve_again calm "A" "U" "U" 2000 two_user_world))
    <> resolution "A" (snd (resolveAlert calm "A" "U" two_user_world)).
Proof.
  split; [reflexivity|]. split; [reflexivity|]. split; [reflexivity|].
  split; [reflexivity|]. split; [reflexivity|].
  vm_compute. discriminate.
Qed.

(** C2, as the code has it.  A second [resolveAlert] on an alert by a
    resolver who is a row of [users] succeeds and leaves every row of
    that id resolved, with [resolved_at] the time of the second call
    and [resolved_by] its resolver; rows of other ids are as they were
    before the two calls, and no row is added or removed.  A second
    call whose resolver is no row of [users] is rejected by the store
    when a row carries the id: it raises, and the table stays as the
    first call left it. *)
Theorem C2_resolve_again_takes_latest (env : Env) (w : World)
    (alertId user1 user2 : string) (t2 : Z) :
  query_fails env Q_resolveAlert = false ->
  (user2 ∈ map user_id (users (db w)) ->
   fst (resolve_again env alertId user1 user2 t2 w) = Ok tt /\
   (forall a,
       a ∈ alerts (db (snd (resolve_again env alertId user1 user2 t2 w))) ->
       alert_id a = alertId ->
       resolved a = true /\ resolved_at a = Some t2 /\ resolved_by a = Some user2) /\
   resolution alertId (snd (resolve_again env alertId user1 user2 t2 w))
     = map (fun _ => (Some t2, Some user2))
           (filter (fun a => alert_id a = alertId) (alerts (db w))) /\
   filter (fun a => alert_id a <> alertId)
          (alerts (db (snd (resolve_again env alertId user1 user2 t2 w))))
     = filter (fun a => alert_id a <> alertId) (alerts (db w)) /\
   map alert_id (alerts (db (snd (resolve_again env alertId user1 user2 t2 w))))
     = map alert_id (alerts (db w))) /\
  (user2 ∉ map user_id (users (db w)) ->
   alertId ∈ map alert_id (alerts (db w)) ->
   fst (resolve_again env alertId user1 user2 t2 w)
     = Err "violates foreign key constraint alerts_resolved_by_fkey" /\
   alerts (db (snd (resolve_again env alertId user1 user2 t2 w)))
     = alerts (db (snd (resolveAlert env alertId user1 w)))).
Proof.
  intros Hq.
  (* the first call, whether the store accepts it or not *)
  assert (H1 : users (db (snd (resolveAlert env alertId user1 w))) = users (db w) /\
               map alert_id (alerts (db (snd (resolveAlert env alertId user1 w))))
                 = map alert_id (alerts (db w)) /\
               (alerts (db (snd (resolveAlert env alertId user1 w))) = alerts (db w) \/
                alerts (db (snd (resolveAlert env alertId user1 w)))
                  = map (fun a => if decide (alert_id a = alertId)
                                  then resolve_row (clock w) user1 a else a)
                        (alerts (db w)))).
  { destruct (violates_resolved_by alertId user1 (db w)) eqn:Hfk.
    - destruct (resolveAlert_rejected env alertId user1 w Hq Hfk) as [_ Hdb].
      rewrite Hdb. repeat split. left. reflexivity.
    - destruct (resolveAlert_ok env alertId user1 w Hq Hfk) as (_ & Hal & Hus).
      rewrite Hus, Hal. split; [reflexivity|]. split; [|right; reflexivity].
      rewrite map_map. apply map_ext. intros a.
      destruct (decide (alert_id a = alertId)); reflexivity. }
  destruct H1 as (Hus1 & Hids1 & Hal1).
  unfold resolve_again.
  remember (snd (resolveAlert env alertId user1 w)) as w1 eqn:Hw1.
  split.
  - intros Hu2.
    assert (Hfk2 : violates_resolved_by alertId user2 (db (set_clock t2 w1)) = false).
    { apply resolver_known. simpl. rewrite Hus1. exact Hu2. }
    destruct (resolveAlert_ok env alertId user2 (set_clock t2 w1) Hq Hfk2)
      as (Hok & H2 & _).
    simpl in H2. split; [exact Hok|]. unfold resolution. rewrite H2. clear Hok H2.
    assert (Hboth : map (fun a => if decide (alert_id a = alertId)
                                  then resolve_row t2 user2 a else a)
                        (alerts (db w1))
                    = map (fun a => if decide (alert_id a = alertId)
                                    then resolve_row t2 user2 a else a)
                          (alerts (db w))).
    { destruct Hal1 as [-> | ->]; [reflexivity|].
      rewrite map_map. apply map_ext. intros a.
      destruct (decide (alert_id a = alertId)) as [E|N]; simpl.
      - rewrite decide_True by exact E. reflexivity.
      - rewrite decide_False by exact N. reflexivity. }
    rewrite Hboth. clear.
    induction (alerts (db w)) as [|row l (IH1 & IH2 & IH3 & IH4)]; simpl.
    + split; [intros a Ha; inversion Ha | repeat split; reflexivity].
    + destruct (decide (alert_id row = alertId)) as [E|N]; simpl;
        rewrite !filter_cons; simpl;
        repeat case_decide; simpl in *; try congruence; try tauto;
        (split; [|split; [|split]]);
        try solve [ f_equal; assumption | assumption ].
      * intros a Ha Ha'.
        apply elem_of_cons in Ha as [->|Ha]; [repeat split | exact (IH1 a Ha Ha')].
      * intros a Ha Ha'.
        apply elem_of_cons in Ha as [->|Ha]; [congruence | exact (IH1 a Ha Ha')].
  - intros Hu2 Ha.
    assert (Hfk2 : violates_resolved_by alertId user2 (db (set_clock t2 w1)) = true).
    { apply resolver_unknown; simpl.
      - rewrite Hids1. exact Ha.
      - rewrite Hus1. exact Hu2. }
    destruct (resolveAlert_rejected env alertId user2 (set_clock t2 w1) Hq Hfk2)
      as [Herr Hdb].
    split; [exact Herr|]. rewrite Hdb. reflexivity.
Qed.

Lemma C2_resolve_again_witness :
  fst (resolve_again calm "A" "U" "W" 2000 two_user_world) = Ok tt /\
  resolution "A" (snd (resolve_again calm "A" "U" "W" 2000 two_user_world))
    = map (fun _ => (Some 2000, Some "W"))
          (filter (fun a => alert_id a = "A") (alerts (db two_user_world))) /\
  fst (resolve_again calm "A" "U" "V" 2000 two_user_world)
    = Err "violates foreign key constraint alerts_resolved_by_fkey" /\
  resolution "A" (snd (resolve_again calm "A" "U" "V" 2000 two_user_world))
    = [(Some 1000, Some "U")].
Proof.
  destruct (C2_resolve_again_takes_latest calm two_user_world "A" "U" "W" 2000 eq_refl)
    as [Hknown _].
  destruct (C2_resolve_again_takes_latest calm two_user_world "A" "U" "V" 2000 eq_refl)
    as [_ Hunknown].
  destruct Hknown as (Hok & _ & Hres & _).
  { apply (bool_decide_unpack _). vm_compute. exact I. }
  destruct Hunknown as (Herr & Hal).
  { apply (bool_decide_unpack _). vm_compute. exact I. }
  { apply list_elem_of_here. }
  split; [exact Hok|]. split; [exact Hres|]. split; [exact Herr|].
  unfold resolution. rewrite Hal. reflexivity.
Defined.

End ResolveFacts.

(** ** Retention sweep *)

Section SweepFacts.
Import MonitoringService Fixtures.

Lemma cleanupTick_ok env w :
  query_fails env Q_deleteMetrics = false ->
  query_fails env Q_deleteAlerts = false ->
  fst (cleanupTick env w) = Ok tt /\
  agent_metrics (db (snd (cleanupTick env w)))
    = filter (fun m => metric_expired (clock w) m = false) (agent_metrics (db w)) /\
  alerts (db (snd (cleanupTick env w)))
    = filter (fun a => alert_expired (clock w) a = false) (alerts (db w)).
Proof.
  intros Hm Ha. unfold cleanupTick, try_catch, bind, database_query.
  rewrite Hm. simpl. rewrite Ha. simpl. repeat split.
Qed.

Lemma alert_expired_iff now a :
  alert_expired now a = true <->
  resolved a = true /\ exists t, resolved_at a = Some t /\ t < now - days 7.
Proof.
  unfold alert_expired. rewrite andb_true_iff.
  destruct (resolved_at a) as [t|].
  - rewrite Z.ltb_lt. split.
    + intros [Hr Ht]. split; [exact Hr|]. exists t. split; [reflexivity | exact Ht].
    + intros [Hr (t' & Ht' & Hlt)]. inversion Ht'; subst t'. split; assumption.
  - split.
    + intros [_ H]. discriminate.
    + intros [_ (t & Ht & _)]. discriminate.
Qed.

(** A resolved alert that is 8 days old survives the sweep when it was
    resolved less than 7 days before it: here it was raised 8 days and
    resolved 1 day before the sweep. *)
Lemma C8_old_alert_resolved_late_is_kept :
  resolved raised_8_resolved_1 = true /\
  created_at raised_8_resolved_1 = clock late_resolution_world - days 8 /\
  alerts (db late_resolution_world) = [raised_8_resolved_1] /\
  fst (cleanupTick calm late_resolution_world) = Ok tt /\
  alerts (db (snd (cleanupTick calm late_resolution_world))) = [raised_8_resolved_1].
Proof. repeat split; vm_compute; reflexivity. Qed.

(** C8, as the code has it.  A sweep whose two [DELETE]s go through
    removes exactly the metric samples recorded more than 30 days before
    it, and exactly the alerts that are resolved and whose [resolved_at]
    lies more than 7 days before it, whenever they were created; every
    other row stays.  So an alert resolved 8 days before is removed, one
    resolved 6 days before is kept, and an unresolved alert is kept at
    any age. *)
Theorem C8_retention_sweep (env : Env) (w : World) :
  query_fails env Q_deleteMetrics = false ->
  query_fails env Q_deleteAlerts = false ->
  fst (cleanupTick env w) = Ok tt /\
  (forall m,
      m ∈ agent_metrics (db (snd (cleanupTick env w))) <->
      m ∈ agent_metrics (db w) /\ ~ recorded_at m < clock w - days 30) /\
  (forall a,
      a ∈ alerts (db (snd (cleanupTick env w))) <->
      a ∈ alerts (db w) /\
      ~ (resolved a = true /\
         exists t, resolved_at a = Some t /\ t < clock w - days 7)) /\
  (forall a,
      a ∈ alerts (db w) -> resolved a = false ->
      a ∈ alerts (db (snd (cleanupTick env w)))) /\
  (forall a,
      a ∈ alerts (db w) -> resolved a = true ->
      resolved_at a = Some (clock w - days 8) ->
      a ∉ alerts (db (snd (cleanupTick env w)))) /\
  (forall a,
      a ∈ alerts (db w) -> resolved a = true ->
      resolved_at a = Some (clock w - days 6) ->
      a ∈ alerts (db (snd (cleanupTick env w)))).
Proof.
  intros Hm Ha.
  destruct (cleanupTick_ok env w Hm Ha) as (Hok & Hmetrics & Halerts).
  split; [exact Hok|]. rewrite Hmetrics, Halerts. clear Hok Hmetrics Halerts.
  assert (Hkeep : forall a,
             a ∈ filter (fun a => alert_expired (clock w) a = false) (alerts (db w))
             <-> a ∈ alerts (db w) /\
                 ~ (resolved a = true /\
                    exists t, resolved_at a = Some t /\ t < clock w - days 7)).
  { intros a. rewrite list_elem_of_filter, <- alert_expired_iff.
    destruct (alert_expired (clock w) a); intuition congruence. }
  split; [|split; [exact Hkeep|split; [|split]]].
  - intros m. rewrite list_elem_of_filter. unfold metric_expired.
    rewrite Z.ltb_ge. split; intros [H1 H2]; split; auto; lia.
  - intros a Hin Hunres. apply Hkeep. split; [exact Hin|].
    intros [Hres _]. congruence.
  - intros a Hin Hres Hat Hkept. apply Hkeep in Hkept as [_ Hno].
    apply Hno. split; [exact Hres|]. eexists. split; [exact Hat|].
    unfold days. lia.
  - intros a Hin Hres Hat. apply Hkeep. split; [exact Hin|].
    intros [_ (t & Ht & Hlt)]. rewrite Hat in Ht. inversion Ht; subst t.
    unfold days in Hlt. lia.
Qed.

(** The scenario of the three alerts: only the one resolved 8 days
    before the sweep goes. *)
Lemma C8_retention_sweep_witness :
  fst (cleanupTick calm sweep_world) = Ok tt /\
  (resolved_8_days ∉ alerts (db (snd (cleanupTick calm sweep_world)))) /\
  (resolved_6_days ∈ alerts (db (snd (cleanupTick calm sweep_world)))) /\
  (unresolved_old ∈ alerts (db (snd (cleanupTick calm sweep_world)))).
Proof.
  destruct (C8_retention_sweep calm sweep_world)
    as (Hok & _ & _ & Hunres & H8 & H6); [reflexivity | reflexivity |].
  split; [exact Hok|]. split; [|split].
  - apply H8; [| reflexivity | reflexivity].
    simpl. apply list_elem_of_here.
  - apply H6; [| reflexivity | reflexivity].
    simpl. apply list_elem_of_further, list_elem_of_here.
  - apply Hunres; [| reflexivity].
    simpl. do 2 apply list_elem_of_further. apply list_elem_of_here.
Defined.

End SweepFacts.

(** ** Operations that leave the scheduler alone *)

Section KeepsService.
Import AgentService NotificationService MonitoringService Registry.

Lemma keeps_ret {A} (a : A) : keeps_svc (ret a).
Proof. intros w. reflexivity. Qed.

Lemma keeps_throw {A} e : keeps_svc (@throw A e).
Proof. intros w. reflexivity. Qed.

Lemma keeps_get_world : keeps_svc get_world.
Proof. intros w. reflexivity. Qed.

Lemma keeps_bind {A B} (m : M A) (k : A -> M B) :
  keeps_svc m -> (forall a, keeps_svc (k a)) -> keeps_svc (bind m k).
Proof.
  intros Hm Hk w. unfold bind. specialize (Hm w).
  destruct (m w) as [[a|e] w1]; simpl in *; [|exact Hm].
  rewrite (Hk a w1). exact Hm.
Qed.

Lemma keeps_try_catch {A} (m : M A) (h : string -> M A) :
  keeps_svc m -> (forall e, keeps_svc (h e)) -> keeps_svc (try_catch m h).
Proof.
  intros Hm Hh w. unfold try_catch. specialize (Hm w).
  destruct (m w) as [[a|e] w1]; simpl in *; [exact Hm|].
  rewrite (Hh e w1). exact Hm.
Qed.

Lemma keeps_logger lvl msg : keeps_svc (logger lvl msg).
Proof. intros w. reflexivity. Qed.

Lemma keeps_emit room event subject : keeps_svc (emit room event subject).
Proof. intros w. reflexivity. Qed.

Lemma keeps_modify_db f : keeps_svc (modify (set_db f)).
Proof. intros w. reflexivity. Qed.

Lemma keeps_database_query env site : keeps_svc (database_query env site).
Proof. intros w. unfold database_query. destruct (query_fails env site); reflexivity. Qed.

Lemma keeps_redis_set env key value ttl : keeps_svc (redis_set env key value ttl).
Proof. intros w. unfold redis_set. destruct (redis_fails env); reflexivity. Qed.

Lemma keeps_for_each {A} (xs : list A) (body : A -> M unit) :
  (forall x, keeps_svc (body x)) -> keeps_svc (for_each xs body).
Proof.
  intros Hbody. induction xs as [|x xs IH]; simpl.
  - apply keeps_ret.
  - apply keeps_bind; [apply Hbody | intros _; exact IH].
Qed.

Lemma keeps_sendAlert env userId alert : keeps_svc (sendAlert env userId alert).
Proof.
  intros w. destruct (sendAlert_spec env userId alert w) as [_ (_&_&_&H&_)].
  exact H.
Qed.

Create HintDb keeps.

Hint Resolve keeps_ret keeps_throw keeps_get_world keeps_logger keeps_emit
  keeps_modify_db keeps_database_query keeps_redis_set keeps_sendAlert
  : keeps.

Ltac keeps :=
  repeat first
    [ solve [auto with keeps]
    | apply keeps_bind; [|intros ?]
    | apply keeps_try_catch; [|intros ?]
    | apply keeps_for_each; intros ?
    | match goal with
      | |- keeps_svc (match ?x with _ => _ end) => destruct x
      end ].

Lemma keeps_getAgentById env agentId : keeps_svc (getAgentById env agentId).
Proof. unfold getAgentById. keeps. Qed.

Lemma keeps_updateAgent env agentId : keeps_svc (updateAgent env agentId).
Proof. unfold updateAgent. keeps. Qed.

Lemma keeps_executeAgentTask env agentId : keeps_svc (executeAgentTask env agentId).
Proof. unfold executeAgentTask. keeps. Qed.

Hint Resolve keeps_getAgentById keeps_updateAgent keeps_executeAgentTask : keeps.

Lemma keeps_createAlert env agentId type severity message :
  keeps_svc (createAlert env agentId type severity message).
Proof. unfold createAlert. keeps. Qed.

Hint Resolve keeps_createAlert : keeps.

Lemma keeps_performAgentHealthCheck env agentId :
  keeps_svc (performAgentHealthCheck env agentId).
Proof. unfold performAgentHealthCheck. keeps. Qed.

Lemma keeps_getSystemHealth env : keeps_svc (Health.getSystemHealth env).
Proof. unfold Health.getSystemHealth. keeps. Qed.

Hint Resolve keeps_performAgentHealthCheck keeps_getSystemHealth : keeps.

(** No tick touches the registry or the live cron tasks: a tick
    neither cancels nor replaces a job. *)
Lemma keeps_tick env kind : keeps_svc (tick env kind).
Proof.
  destruct kind; unfold tick, agentMonitorTick, systemHealthTick, cleanupTick,
    metricsBroadcastTick; keeps.
Qed.

End KeepsService.

(** ** Errors at the tick boundary *)

Section TickFacts.
Import MonitoringService Registry Fixtures.

(** A handler whose [catch] only logs never lets an error out. *)
Lemma try_catch_swallows (body : M unit) lvl msg w :
  fst (try_catch body (fun _ => logger lvl msg) w) = Ok tt.
Proof.
  unfold try_catch. destruct (body w) as [[[]|e] w']; reflexivity.
Qed.

(** The three system jobs wrap their whole tick in such a handler. *)
Lemma system_ticks_never_raise env kind w :
  (forall agentId, kind <> AgentMonitor agentId) ->
  fst (tick env kind w) = Ok tt.
Proof.
  intros Hkind. destruct kind as [agentId| | |]; simpl.
  - exfalso. exact (Hkind agentId eq_refl).
  - apply try_catch_swallows.
  - apply try_catch_swallows.
  - apply try_catch_swallows.
Qed.

(** C4 does not hold for the agent job.  Agent [R] is monitored and its
    row is gone; the runtime raises, the handler of
    [performAgentHealthCheck] calls [createAlert], [createAlert] throws
    [Agent not found], and the tick ends with that error instead of
    catching it. *)
Theorem C4_agent_tick_lets_createAlert_error_out :
  monitoringJobs (svc orphaned_R) !! "R" = Some job_R /\
  fst (tick runtime_down (AgentMonitor "R") orphaned_R) = Err "Agent not found".
Proof. split; vm_compute; reflexivity. Qed.

End TickFacts.

(** ** The job registry *)

Section RegistryFacts.
Import MonitoringService Registry.

Lemma new_service_consistent : consistent new_service.
Proof.
  split; simpl.
  - intros id t H. rewrite lookup_empty in H. discriminate.
  - intros t H. inversion H.
  - intros t H. inversion H.
  - constructor.
Qed.

(** Starting a registered agent again: a warning, nothing else. *)
Lemma start_registered env agentId w t :
  monitoringJobs (svc w) !! agentId = Some t ->
  startAgentMonitoring env agentId w
  = (Ok tt, set_log (fun l => l ++ [(warn, "Agent monitoring already active")]) w).
Proof.
  intros H. unfold startAgentMonitoring, bind, get_world. rewrite H. reflexivity.
Qed.

(** Starting an unregistered agent: one new task, started and
    registered, whether or not the first check then fails. *)
Lemma start_unregistered env agentId w :
  monitoringJobs (svc w) !! agentId = None ->
  svc (snd (startAgentMonitoring env agentId w))
  = let t := mkCronTask (cron_seq (svc w)) (AgentMonitor agentId) in
    mkService (<[agentId := t]> (monitoringJobs (svc w)))
              (isRunning (svc w))
              (if bool_decide (t ∈ cron_live (svc w)) then cron_live (svc w)
               else cron_live (svc w) ++ [t])
              (S (cron_seq (svc w))).
Proof.
  intros H. unfold startAgentMonitoring, bind at 1, get_world. rewrite H.
  pose proof (keeps_performAgentHealthCheck env agentId) as Hkeep.
  remember (performAgentHealthCheck env agentId) as check eqn:Hcheck.
  clear Hcheck.
  unfold try_catch, bind. simpl.
  match goal with
  | |- context [check ?w3] =>
      specialize (Hkeep w3); destruct (check w3) as [[[]|e] w4]
  end; simpl in *; exact Hkeep.
Qed.

Lemma stop_registered agentId w t :
  monitoringJobs (svc w) !! agentId = Some t ->
  svc (snd (stopAgentMonitoring agentId w))
  = mkService (delete agentId (monitoringJobs (svc w)))
              (isRunning (svc w))
              (filter (fun t' => t' <> t) (cron_live (svc w)))
              (cron_seq (svc w)).
Proof.
  intros H. unfold stopAgentMonitoring, bind, get_world. rewrite H. reflexivity.
Qed.

Lemma stop_unregistered agentId w :
  monitoringJobs (svc w) !! agentId = None ->
  stopAgentMonitoring agentId w = (Ok tt, w).
Proof.
  intros H. unfold stopAgentMonitoring, bind, get_world. rewrite H. reflexivity.
Qed.

Lemma start_consistent env agentId w :
  consistent (svc w) -> consistent (svc (snd (startAgentMonitoring env agentId w))).
Proof.
  intros [Hreg Hlive Hhandles Hnodup].
  destruct (monitoringJobs (svc w) !! agentId) as [t|] eqn:Hjob.
  { rewrite (start_registered env agentId w t Hjob). simpl.
    split; assumption. }
  rewrite (start_unregistered env agentId w Hjob). cbv zeta.
  set (t := mkCronTask (cron_seq (svc w)) (AgentMonitor agentId)).
  assert (Hfresh : t ∉ cron_live (svc w)).
  { intros Hin. apply Hhandles in Hin. simpl in Hin. lia. }
  rewrite bool_decide_eq_false_2 by exact Hfresh.
  split; simpl.
  - intros id t' Hlook. rewrite lookup_insert in Hlook.
    destruct (decide (agentId = id)) as [->|Hne].
    + inversion Hlook; subst t'. split; [reflexivity|].
      apply elem_of_app. right. apply list_elem_of_singleton. reflexivity.
    + destruct (Hreg id t' Hlook) as [Hk Hin]. split; [exact Hk|].
      apply elem_of_app. left. exact Hin.
  - intros t' Hin. apply elem_of_app in Hin as [Hin|Hin].
    + destruct (Hlive t' Hin) as (id & Hk & Hlook). exists id.
      split; [exact Hk|]. rewrite lookup_insert_ne; [exact Hlook|].
      intros ->. congruence.
    + apply list_elem_of_singleton in Hin. subst t'. exists agentId.
      split; [reflexivity|]. apply lookup_insert_eq.
  - intros t' Hin. apply elem_of_app in Hin as [Hin|Hin].
    + apply Hhandles in Hin. lia.
    + apply list_elem_of_singleton in Hin. subst t'. simpl. lia.
  - apply NoDup_app. split; [exact Hnodup|]. split.
    + intros t' Hin Hin'. apply list_elem_of_singleton in Hin'. subst t'.
      exact (Hfresh Hin).
    + apply NoDup_singleton.
Qed.

Lemma stop_consistent agentId w :
  consistent (svc w) -> consistent (svc (snd (stopAgentMonitoring agentId w))).
Proof.
  intros [Hreg Hlive Hhandles Hnodup].
  destruct (monitoringJobs (svc w) !! agentId) as [t|] eqn:Hjob.
  2:{ rewrite (stop_unregistered agentId w Hjob). split; assumption. }
  rewrite (stop_registered agentId w t Hjob).
  destruct (Hreg agentId t Hjob) as [Hkind _].
  split; simpl.
  - intros id t' Hlook. apply lookup_delete_Some in Hlook as [Hne Hlook].
    destruct (Hreg id t' Hlook) as [Hk Hin]. split; [exact Hk|].
    apply list_elem_of_filter. split; [|exact Hin].
    intros ->. congruence.
  - intros t' Hin. apply list_elem_of_filter in Hin as [Hne Hin].
    destruct (Hlive t' Hin) as (id & Hk & Hlook). exists id.
    split; [exact Hk|]. rewrite lookup_delete_ne; [exact Hlook|].
    intros ->. congruence.
  - intros t' Hin. apply list_elem_of_filter in Hin as [_ Hin].
    apply Hhandles, Hin.
  - apply NoDup_filter, Hnodup.
Qed.

(** The invariant holds after any sequence of start and stop requests. *)
Lemma serve_all_consistent env rs w :
  consistent (svc w) -> consistent (svc (serve_all env rs w)).
Proof.
  revert w. induction rs as [|r rs IH]; intros w Hw; simpl; [exact Hw|].
  apply IH. destruct r as [agentId|agentId]; simpl.
  - apply start_consistent, Hw.
  - apply stop_consistent, Hw.
Qed.

Lemma nodup_all_equal {A} (l : list A) (x : A) :
  NoDup l -> (forall y, y ∈ l -> y = x) -> x ∈ l -> length l = 1%nat.
Proof.
  intros Hnd Hall Hin. destruct l as [|a [|b l]]; simpl.
  - inversion Hin.
  - reflexivity.
  - exfalso. apply NoDup_cons in Hnd as [Hnotin _]. apply Hnotin.
    rewrite (Hall a), (Hall b).
    + apply list_elem_of_here.
    + apply list_elem_of_further, list_elem_of_here.
    + apply list_elem_of_here.
Qed.

(** Under the invariant node-cron fires one job for a registered agent
    and none for an unregistered one. *)
Lemma consistent_live_jobs s agentId :
  consistent s ->
  live_jobs_for agentId s
  = match monitoringJobs s !! agentId with Some _ => 1%nat | None => 0%nat end.
Proof.
  intros [Hreg Hlive Hhandles Hnodup]. unfold live_jobs_for.
  assert (Hall : forall t',
             t' ∈ filter (fun t => task_kind t = AgentMonitor agentId) (cron_live s)
             -> monitoringJobs s !! agentId = Some t').
  { intros t' Hin. apply list_elem_of_filter in Hin as [Hk Hin].
    destruct (Hlive t' Hin) as (id & Hk' & Hlook).
    rewrite Hk in Hk'. inversion Hk'; subst id. exact Hlook. }
  destruct (monitoringJobs s !! agentId) as [t|] eqn:Hjob.
  - apply (nodup_all_equal _ t).
    + apply NoDup_filter, Hnodup.
    + intros t' Hin. apply Hall in Hin. congruence.
    + destruct (Hreg agentId t Hjob) as [Hk Hin].
      apply list_elem_of_filter. split; assumption.
  - destruct (filter _ (cron_live s)) as [|t' l] eqn:Hf; [reflexivity|].
    discriminate (Hall t' (list_elem_of_here _ _)).
Qed.

(** C7. After any sequence of start and stop requests on a new
    service: node-cron fires exactly one job for a registered agent and
    none for an unregistered one; starting a registered agent again
    returns normally with a warning and leaves the registry and the
    cron tasks as they are; and stopping then starting an agent leaves
    it registered with exactly one job. *)
Theorem C7_one_job_per_agent (env : Env) (rs : list Request) (w0 : World)
    (agentId : string) :
  svc w0 = new_service ->
  live_jobs_for agentId (svc (serve_all env rs w0))
    = match monitoringJobs (svc (serve_all env rs w0)) !! agentId with
      | Some _ => 1%nat
      | None => 0%nat
      end /\
  (is_Some (monitoringJobs (svc (serve_all env rs w0)) !! agentId) ->
   fst (startAgentMonitoring env agentId (serve_all env rs w0)) = Ok tt /\
   svc (snd (startAgentMonitoring env agentId (serve_all env rs w0)))
     = svc (serve_all env rs w0) /\
   log (snd (startAgentMonitoring env agentId (serve_all env rs w0)))
     = log (serve_all env rs w0) ++ [(warn, "Agent monitoring already active")]) /\
  is_Some (monitoringJobs
             (svc (serve_all env (rs ++ [StopAgent agentId; StartAgent agentId]) w0))
           !! agentId) /\
  live_jobs_for agentId
    (svc (serve_all env (rs ++ [StopAgent agentId; StartAgent agentId]) w0))
    = 1%nat.
Proof.
  intros Hnew.
  assert (Hinit : consistent (svc w0)).
  { rewrite Hnew. apply new_service_consistent. }
  split; [|split].
  - apply consistent_live_jobs, serve_all_consistent, Hinit.
  - intros [t Ht]. rewrite (start_registered env agentId _ t Ht).
    repeat split.
  - assert (Hreg : is_Some (monitoringJobs
               (svc (serve_all env (rs ++ [StopAgent agentId; StartAgent agentId]) w0))
             !! agentId)).
    { assert (Happ : forall l1 l2 w,
                 serve_all env (l1 ++ l2) w = serve_all env l2 (serve_all env l1 w)).
      { induction l1 as [|r l1 IH]; intros l2 w; simpl; [reflexivity | apply IH]. }
      rewrite Happ. simpl.
      set (w1 := snd (stopAgentMonitoring agentId (serve_all env rs w0))).
      destruct (monitoringJobs (svc w1) !! agentId) as [t|] eqn:Hjob.
      - rewrite (start_registered env agentId w1 t Hjob). simpl.
        rewrite Hjob. eexists. reflexivity.
      - rewrite (start_unregistered env agentId w1 Hjob). simpl.
        rewrite lookup_insert_eq. eexists. reflexivity. }
    split; [exact Hreg|].
    rewrite consistent_live_jobs by (apply serve_all_consistent, Hinit).
    destruct Hreg as [t Ht]. rewrite Ht. reflexivity.
Qed.

End RegistryFacts.

(** ** Overlapping check cycles *)

Section OverlapFacts.
Import AgentService MonitoringService Overlap Fixtures.

Lemma fires_starts_check env (l : Loop) (t : CronTask) (agentId : string) :
  t ∈ cron_live (svc (loop_world l)) ->
  task_kind t = AgentMonitor agentId ->
  loop_step env l (Fires t)
  = mkLoop (loop_world l) (in_flight l ++ [(agentId, AwaitsTask)]).
Proof.
  intros Hlive Hkind. unfold loop_step.
  rewrite bool_decide_eq_true_2 by exact Hlive. rewrite Hkind. reflexivity.
Qed.

(** A turn of the youngest call in flight. *)
Lemma resume_last env w fl agentId p :
  loop_step env (mkLoop w (fl ++ [(agentId, p)])) (Resumes (length fl))
  = match resume env agentId p w with
    | (Still p', w') => mkLoop w' (fl ++ [(agentId, p')])
    | (Settled _, w') => mkLoop w' fl
    end.
Proof.
  unfold loop_step. cbn [in_flight loop_world].
  rewrite list_lookup_middle by reflexivity.
  destruct (resume env agentId p w) as [[p'|r] w'].
  - rewrite insert_app_r_alt by lia. rewrite Nat.sub_diag. reflexivity.
  - rewrite delete_middle, app_nil_r. reflexivity.
Qed.

Lemma resume_gone env w fl :
  loop_step env (mkLoop w fl) (Resumes (length fl)) = mkLoop w fl.
Proof.
  unfold loop_step. cbn [in_flight loop_world].
  rewrite lookup_ge_None_2 by lia. reflexivity.
Qed.

(** Three turns take a call that has just started to its end, and what
    they do is what [performAgentHealthCheck] does. *)
Lemma check_runs_to_end env w fl agentId :
  loop_run env (mkLoop w (fl ++ [(agentId, AwaitsTask)]))
           (repeat (Resumes (length fl)) 3)
  = mkLoop (snd (performAgentHealthCheck env agentId w)) fl.
Proof.
  unfold loop_run. cbn [repeat fold_left].
  unfold performAgentHealthCheck, try_catch, bind, ret.
  rewrite resume_last. cbn [resume].
  destruct (executeAgentTask env agentId w) as [[task|e] w1];
    rewrite resume_last; cbn [resume]; unfold emit, logger, modify; cbn [snd].
  - match goal with
    | |- context [updateAgent env agentId ?w2] =>
        destruct (updateAgent env agentId w2) as [[[]|e] w3]
    end; cbn [snd].
    + rewrite resume_gone. reflexivity.
    + rewrite resume_last. cbn [resume]. unfold logger, modify. cbn [snd].
      match goal with
      | |- context [createAlert env agentId ?ty ?sev ?msg ?w4] =>
          destruct (createAlert env agentId ty sev msg w4) as [[alertId|e'] w5]
      end; reflexivity.
  - match goal with
    | |- context [createAlert env agentId ?ty ?sev ?msg ?w4] =>
        destruct (createAlert env agentId ty sev msg w4) as [[alertId|e'] w5]
    end; rewrite resume_gone; reflexivity.
Qed.

Lemma checks_in_flight_started w fl agentId :
  checks_in_flight agentId (mkLoop w (fl ++ [(agentId, AwaitsTask)]))
  = S (checks_in_flight agentId (mkLoop w fl)).
Proof.
  unfold checks_in_flight. cbn [in_flight]. rewrite filter_app, length_app.
  rewrite filter_cons, decide_True by reflexivity. simpl. lia.
Qed.

(** The job of agent [R] fires twice while the agent runtime does not
    know [R]: two check cycles of [R] are in flight, none is skipped.
    Their turns interleave, both reach the [catch] block, and both
    raise their alert. *)
Lemma C3_two_checks_in_flight :
  cron_live (svc (loop_world monitoring_R)) = [job_R] /\
  checks_in_flight "R"
    (loop_run runtime_down monitoring_R [Fires job_R; Fires job_R]) = 2%nat /\
  ~ (checks_in_flight "R"
       (loop_run runtime_down monitoring_R [Fires job_R; Fires job_R]) <= 1)%nat /\
  in_flight (loop_run runtime_down monitoring_R
               [Fires job_R; Fires job_R; Resumes 0; Resumes 1])
    = [("R", AwaitsAlert "Agent R not found");
       ("R", AwaitsAlert "Agent R not found")] /\
  in_flight (loop_run runtime_down monitoring_R
               [Fires job_R; Fires job_R; Resumes 0; Resumes 1; Resumes 0; Resumes 0])
    = [] /\
  length (alerts (db (loop_world
            (loop_run runtime_down monitoring_R
               [Fires job_R; Fires job_R; Resumes 0; Resumes 1; Resumes 0; Resumes 0]))))
    = (2 + length (alerts (db (loop_world monitoring_R))))%nat.
Proof.
  split; [vm_compute; reflexivity|].
  assert (H : checks_in_flight "R"
                (loop_run runtime_down monitoring_R [Fires job_R; Fires job_R]) = 2%nat)
    by (vm_compute; reflexivity).
  split; [exact H|]. split; [rewrite H; lia|].
  split; [vm_compute; reflexivity|].
  split; vm_compute; reflexivity.
Qed.

(** C3, as the code has it.  A firing of the live job of an agent
    always starts a check cycle, whether or not earlier cycles of that
    agent are still in flight: the new call joins the calls in flight,
    so each firing raises their number by one and [n] firings without a
    settled check leave [n] more cycles in flight.  The call that a
    firing starts is not cut short: given its turns, it does to the
    world what [performAgentHealthCheck] does, and the calls that were
    in flight before are still in flight. *)
Theorem C3_every_firing_starts_a_check (env : Env) (l : Loop) (t : CronTask)
    (agentId : string) :
  t ∈ cron_live (svc (loop_world l)) ->
  task_kind t = AgentMonitor agentId ->
  in_flight (loop_step env l (Fires t)) = in_flight l ++ [(agentId, AwaitsTask)] /\
  checks_in_flight agentId (loop_step env l (Fires t))
    = S (checks_in_flight agentId l) /\
  loop_run env (loop_step env l (Fires t)) (repeat (Resumes (length (in_flight l))) 3)
    = mkLoop (snd (performAgentHealthCheck env agentId (loop_world l))) (in_flight l) /\
  forall n,
    checks_in_flight agentId (loop_run env l (repeat (Fires t) n))
      = (n + checks_in_flight agentId l)%nat.
Proof.
  intros Hlive Hkind.
  rewrite (fires_starts_check env l t agentId Hlive Hkind).
  split; [reflexivity|].
  split; [destruct l; apply checks_in_flight_started|].
  split; [apply check_runs_to_end|].
  intros n. unfold loop_run.
  assert (Hgen : forall l0, loop_world l0 = loop_world l ->
             checks_in_flight agentId
               (fold_left (loop_step env) (repeat (Fires t) n) l0)
             = (n + checks_in_flight agentId l0)%nat).
  { induction n as [|n IH]; intros l0 Hw; cbn [repeat fold_left];
      [reflexivity|].
    rewrite (fires_starts_check env l0 t agentId) by (rewrite ?Hw; assumption).
    rewrite IH by exact Hw.
    destruct l0 as [w0 fl0]. cbn [loop_world in_flight].
    rewrite checks_in_flight_started. lia. }
  apply Hgen. reflexivity.
Qed.

Lemma C3_every_firing_witness :
  in_flight (loop_step runtime_down monitoring_R (Fires job_R))
    = [("R", AwaitsTask)] /\
  loop_run runtime_down (loop_step runtime_down monitoring_R (Fires job_R))
           (repeat (Resumes 0) 3)
    = mkLoop (snd (performAgentHealthCheck runtime_down "R" (loop_world monitoring_R)))
             [] /\
  forall n,
    checks_in_flight "R" (loop_run runtime_down monitoring_R (repeat (Fires job_R) n))
      = (n + checks_in_flight "R" monitoring_R)%nat.
Proof.
  destruct (C3_every_firing_starts_a_check runtime_down monitoring_R job_R "R")
    as (Hstart & _ & Hend & Hmany).
  - apply (bool_decide_unpack _). vm_compute. exact I.
  - reflexivity.
  - split; [exact Hstart|]. split; [exact Hend | exact Hmany].
Defined.

End OverlapFacts.

(** ** Scenarios *)

Section Scenarios.
Import AgentService NotificationService MonitoringService Registry Fanout Fixtures.

Lemma C5_createAlert_unknown_agent_witness :
  exists e w',
    createAlert calm "ghost" "latency" HIGH "slow" one_agent_world = (Err e, w') /\
    (query_fails calm Q_getAgentById = false -> e = "Agent not found") /\
    db w' = db one_agent_world /\
    emitted w' = emitted one_agent_world /\
    dispatched w' = dispatched one_agent_world /\
    cache w' = cache one_agent_world /\
    svc w' = svc one_agent_world /\
    Forall (fun l => fst l = error)
           (drop (length (log one_agent_world)) (log w')).
Proof.
  apply (C5_createAlert_unknown_agent calm one_agent_world "ghost").
  apply (bool_decide_unpack _). vm_compute. exact I.
Defined.

(** The mail transport raises and the Slack webhook is still posted
    to; [sendAlert] returns normally. *)
Lemma C6_fanout_witness :
  fst (sendAlert email_down "U" alert_A_object one_agent_world) = Ok tt /\
  (mkDispatch Email alert_A_object Raised
     ∈ dispatched (snd (sendAlert email_down "U" alert_A_object one_agent_world))) /\
  (mkDispatch Slack alert_A_object Sent
     ∈ dispatched (snd (sendAlert email_down "U" alert_A_object one_agent_world))).
Proof.
  destruct (C6_fanout_failure_isolation email_down "U" alert_A_object one_agent_world)
    as (Hok & Hall & _).
  destruct (Hall settings_U user_U [] eq_refl eq_refl eq_refl eq_refl)
    as [_ Hch].
  split; [exact Hok|]. split.
  - apply (Hch Email). apply list_elem_of_here.
  - apply (Hch Slack). apply list_elem_of_further, list_elem_of_here.
Defined.

Lemma C7_one_job_per_agent_witness :
  live_jobs_for "R" (svc (serve_all calm [StartAgent "R"] one_agent_world))
    = match monitoringJobs (svc (serve_all calm [StartAgent "R"] one_agent_world))
            !! "R" with
      | Some _ => 1%nat
      | None => 0%nat
      end /\
  (is_Some (monitoringJobs (svc (serve_all calm [StartAgent "R"] one_agent_world))
            !! "R") ->
   fst (startAgentMonitoring calm "R"
          (serve_all calm [StartAgent "R"] one_agent_world)) = Ok tt /\
   svc (snd (startAgentMonitoring calm "R"
               (serve_all calm [StartAgent "R"] one_agent_world)))
     = svc (serve_all calm [StartAgent "R"] one_agent_world) /\
   log (snd (startAgentMonitoring calm "R"
               (serve_all calm [StartAgent "R"] one_agent_world)))
     = log (serve_all calm [StartAgent "R"] one_agent_world)
       ++ [(warn, "Agent monitoring already active")]) /\
  is_Some (monitoringJobs
             (svc (serve_all calm
                     ([StartAgent "R"] ++ [StopAgent "R"; StartAgent "R"])
                     one_agent_world))
           !! "R") /\
  live_jobs_for "R"
    (svc (serve_all calm ([StartAgent "R"] ++ [StopAgent "R"; StartAgent "R"])
                    one_agent_world))
    = 1%nat.
Proof.
  apply (C7_one_job_per_agent calm [StartAgent "R"] one_agent_world "R").
  reflexivity.
Defined.

(** The test notification, of [MEDIUM] severity, reaches both channels
    that user [U] has enabled. *)
Lemma C10_test_notification_witness :
  reached one_agent_world (snd (sendTestNotification calm "U" one_agent_world))
    = [Email; Slack].
Proof.
  destruct (C10_no_severity_filter_in_fanout calm "U" alert_A_object one_agent_world)
    as (_ & Hfound & _).
  destruct (Hfound settings_U user_U [] eq_refl eq_refl eq_refl eq_refl)
    as [_ Htest].
  exact Htest.
Defined.

End Scenarios.

(** ** The life of an alert *)

Section AlertLifecycle.
Import AgentService NotificationService MonitoringService Fanout.

(** [createAlert] for a known agent, up to the cache write: the row is
    appended, both rooms are told, and the fanout has run behind the
    severity test. *)
Lemma createAlert_found env agentId type severity message w agent :
  query_fails env Q_getAgentById = false ->
  head (filter (fun a => agent_id a = agentId) (agents (db w))) = Some agent ->
  query_fails env Q_insertAlert = false ->
  exists w3,
    db w3 = next_uuid (set_alerts (fun l => l ++
              [new_alert_row (uuid_generate_v4 (uuid_seq (db w))) agentId
                 (agent_user_id agent) type severity message (clock w)]) (db w)) /\
    cache w3 = cache w /\
    emitted w3 = emitted w ++
      [mkEmit (Some ("agent-" +:+ agentId)) "alert" (uuid_generate_v4 (uuid_seq (db w)));
       mkEmit (Some ("user-" +:+ agent_user_id agent)) "alert"
              (uuid_generate_v4 (uuid_seq (db w)))] /\
    svc w3 = svc w /\
    clock w3 = clock w /\
    createAlert env agentId type severity message w
    = if redis_fails env
      then (Err "redis error",
            set_log (fun l => l ++ [(error, "Failed to create alert")]) w3)
      else (Ok (uuid_generate_v4 (uuid_seq (db w))),
            set_log (fun l => l ++ [(info, "Alert created")])
              (set_cache (fun c =>
                 <[("alert:" +:+ uuid_generate_v4 (uuid_seq (db w))) :=
                   (stringify_alert
                      (mkMonitoringAlert (uuid_generate_v4 (uuid_seq (db w)))
                         agentId type severity message (clock w) false), 3600)]> c)
                 w3)).
Proof.
  intros Hq Hagent Hi.
  unfold createAlert, getAgentById, try_catch, bind, database_query.
  rewrite Hq. simpl. rewrite Hagent. simpl. rewrite Hi. simpl.
  fold (notifies severity).
  set (alertId := uuid_generate_v4 (uuid_seq (db w))).
  set (alert := mkMonitoringAlert alertId agentId type severity message
                                  (clock w) false).
  set (w2 := set_emitted _ (set_emitted _ (set_db _ w))).
  assert (Hw2 : notified w2 (snd ((if notifies severity
                   then sendAlert env (agent_user_id agent) alert
                   else ret tt) w2))
                  (dispatches env alert
                     (if notifies severity
                      then fanout_channels env (agent_user_id agent) (db w)
                      else [])) /\
                fst ((if notifies severity
                   then sendAlert env (agent_user_id agent) alert
                   else ret tt) w2) = Ok tt).
  { destruct (notifies severity).
    - destruct (sendAlert_spec env (agent_user_id agent) alert w2) as [Hok Hn].
      split; [exact Hn | exact Hok].
    - split; [apply notified_refl | reflexivity]. }
  destruct Hw2 as [(Hdb & Hcache & Hemit & Hsvc & Hclock & _) Hok].
  destruct ((if notifies severity
             then sendAlert env (agent_user_id agent) alert
             else ret tt) w2) as [r w3].
  simpl in Hdb, Hcache, Hemit, Hsvc, Hclock, Hok. subst r.
  exists w3. subst w2. simpl in *.
  rewrite Hdb, Hcache, Hemit, Hsvc, Hclock, <- app_assoc. simpl.
  repeat (split; [reflexivity|]).
  unfold redis_set. destruct (redis_fails env); reflexivity.
Qed.

(** X1. [createAlert] for a known agent, with the store and the cache
    answering, returns the id the store assigned, appends one unresolved
    row owned by the agent's user, tells the agent room and the user room
    once each, and caches the alert under [alert:<id>] for 3600 seconds;
    the agents and the scheduler are left alone. *)
Theorem X1_createAlert_stores_and_announces (env : Env) (w : World)
    (agentId type : string) (severity : AlertSeverity) (message : string)
    (agent : AgentRow) :
  query_fails env Q_getAgentById = false ->
  head (filter (fun a => agent_id a = agentId) (agents (db w))) = Some agent ->
  query_fails env Q_insertAlert = false ->
  redis_fails env = false ->
  exists w',
    createAlert env agentId type severity message w
      = (Ok (uuid_generate_v4 (uuid_seq (db w))), w') /\
    alerts (db w') = alerts (db w) ++
      [mkAlertRow (uuid_generate_v4 (uuid_seq (db w))) agentId (agent_user_id agent)
                  type severity message false None None (clock w)] /\
    agents (db w') = agents (db w) /\
    emitted w' = emitted w ++
      [mkEmit (Some ("agent-" +:+ agentId)) "alert" (uuid_generate_v4 (uuid_seq (db w)));
       mkEmit (Some ("user-" +:+ agent_user_id agent)) "alert"
              (uuid_generate_v4 (uuid_seq (db w)))] /\
    cache w' !! ("alert:" +:+ uuid_generate_v4 (uuid_seq (db w)))
      = Some (stringify_alert
                (mkMonitoringAlert (uuid_generate_v4 (uuid_seq (db w))) agentId type
                   severity message (clock w) false), 3600) /\
    svc w' = svc w.
Proof.
  intros Hq Hagent Hi Hr.
  destruct (createAlert_found env agentId type severity message w agent Hq Hagent Hi)
    as (w3 & Hdb & Hcache & Hemit & Hsvc & _ & Hres).
  rewrite Hr in Hres. eexists. split; [exact Hres|]. simpl.
  rewrite Hdb, Hemit, Hsvc. simpl.
  repeat (split; [reflexivity|]). split; [|reflexivity].
  apply lookup_insert_eq.
Qed.

(** X2. When only the cache write fails, [createAlert] raises the cache
    error although the alert row is already stored and both rooms and the
    notification channels have already been told: the error does not undo
    them. *)
Theorem X2_createAlert_cache_failure_keeps_alert (env : Env) (w : World)
    (agentId type : string) (severity : AlertSeverity) (message : string)
    (agent : AgentRow) :
  query_fails env Q_getAgentById = false ->
  head (filter (fun a => agent_id a = agentId) (agents (db w))) = Some agent ->
  query_fails env Q_insertAlert = false ->
  redis_fails env = true ->
  exists w',
    createAlert env agentId type severity message w = (Err "redis error", w') /\
    alerts (db w') = alerts (db w) ++
      [mkAlertRow (uuid_generate_v4 (uuid_seq (db w))) agentId (agent_user_id agent)
                  type severity message false None None (clock w)] /\
    emitted w' = emitted w ++
      [mkEmit (Some ("agent-" +:+ agentId)) "alert" (uuid_generate_v4 (uuid_seq (db w)));
       mkEmit (Some ("user-" +:+ agent_user_id agent)) "alert"
              (uuid_generate_v4 (uuid_seq (db w)))] /\
    reached w w' = (if notifies severity
                    then fanout_channels env (agent_user_id agent) (db w)
                    else []) /\
    cache w' = cache w.
Proof.
  intros Hq Hagent Hi Hr.
  destruct (createAlert_found env agentId type severity message w agent Hq Hagent Hi)
    as (w3 & Hdb & Hcache & Hemit & Hsvc & _ & Hres).
  rewrite Hr in Hres. eexists. split; [exact Hres|]. simpl.
  rewrite Hdb, Hemit, Hcache. simpl.
  repeat (split; [reflexivity|]). split; [|reflexivity].
  destruct (createAlert_effects env agentId type severity message w)
    as (_ & _ & Hreach).
  rewrite Hres in Hreach. exact (Hreach agent Hq Hagent Hi).
Qed.

(** A check whose runtime call raises, for a known agent with the store
    and the cache answering: the outcome is that of [createAlert] on the
    world with the failure logged. *)
Lemma failed_check_step env agentId e w agent :
  agent_runtime env agentId = Err e ->
  query_fails env Q_getAgentById = false ->
  head (filter (fun a => agent_id a = agentId) (agents (db w))) = Some agent ->
  query_fails env Q_insertAlert = false ->
  redis_fails env = false ->
  exists w',
    performAgentHealthCheck env agentId w = (Ok tt, w') /\
    db w' = next_uuid (set_alerts (fun l => l ++
              [new_alert_row (uuid_generate_v4 (uuid_seq (db w))) agentId
                 (agent_user_id agent) "health_check_failed" CRITICAL
                 ("Health check failed: " +:+ e) (clock w)]) (db w)) /\
    emitted w' = emitted w ++
      [mkEmit (Some ("agent-" +:+ agentId)) "alert" (uuid_generate_v4 (uuid_seq (db w)));
       mkEmit (Some ("user-" +:+ agent_user_id agent)) "alert"
              (uuid_generate_v4 (uuid_seq (db w)))] /\
    clock w' = clock w /\
    svc w' = svc w.
Proof.
  intros Hrt Hq Hagent Hi Hr.
  unfold performAgentHealthCheck, executeAgentTask, try_catch, bind.
  rewrite Hrt. cbn -[createAlert].
  match goal with
  | |- context [createAlert env agentId ?ty ?sev ?msg ?w1] =>
      destruct (createAlert_found env agentId ty sev msg w1 agent Hq Hagent Hi)
        as (w3 & Hdb & _ & Hemit & Hsvc & Hclock & Hres)
  end.
  rewrite Hr in Hres. rewrite Hres. cbn -[createAlert].
  eexists. split; [reflexivity|]. simpl in *.
  rewrite Hdb, Hemit, Hclock, Hsvc. repeat split.
Qed.



(** X4. A health check whose runtime call raises [e], for a known agent
    with the store and the cache answering, returns normally and leaves
    one new unresolved [CRITICAL] alert of type [health_check_failed]
    with message [Health check failed: e]; the agent rows, and so
    [last_health_check], are not touched. *)
Theorem X4_failed_check_raises_critical_alert (env : Env) (w : World)
    (agentId e : string) (agent : AgentRow) :
  agent_runtime env agentId = Err e ->
  query_fails env Q_getAgentById = false ->
  head (filter (fun a => agent_id a = agentId) (agents (db w))) = Some agent ->
  query_fails env Q_insertAlert = false ->
  redis_fails env = false ->
  exists w',
    performAgentHealthCheck env agentId w = (Ok tt, w') /\
    alerts (db w') = alerts (db w) ++
      [mkAlertRow (uuid_generate_v4 (uuid_seq (db w))) agentId (agent_user_id agent)
                  "health_check_failed" CRITICAL ("Health check failed: " +:+ e)
                  false None None (clock w)] /\
    agents (db w') = agents (db w) /\
    reached w w' = fanout_channels env (agent_user_id agent) (db w).
Proof.
  intros Hrt Hq Hagent Hi Hr.
  destruct (failed_check_step env agentId e w agent Hrt Hq Hagent Hi Hr)
    as (w' & Hres & Hdb & _).
  exists w'. split; [exact Hres|]. rewrite Hdb. simpl.
  repeat (split; [reflexivity|]).
  revert Hres.
  unfold performAgentHealthCheck, executeAgentTask, try_catch, bind.
  rewrite Hrt. cbn -[createAlert].
  match goal with
  | |- context [createAlert env agentId ?ty ?sev ?msg ?w1] =>
      destruct (createAlert_effects env agentId ty sev msg w1) as (_ & _ & Hreach);
      specialize (Hreach agent Hq Hagent Hi);
      destruct (createAlert env agentId ty sev msg w1) as [[id|e'] w2]
  end; cbn -[createAlert]; intros Hres; inversion Hres; subst w'.
  exact Hreach.
Qed.

Lemma uuid_generate_v4_inj n m : uuid_generate_v4 n = uuid_generate_v4 m -> n = m.
Proof.
  unfold uuid_generate_v4. intros H.
  apply (inj (String.app "alert-")) in H. apply (inj pretty) in H. exact H.
Qed.

Lemma failed_ticks_alerts env agentId e agent n w :
  agent_runtime env agentId = Err e ->
  query_fails env Q_getAgentById = false ->
  head (filter (fun a => agent_id a = agentId) (agents (db w))) = Some agent ->
  query_fails env Q_insertAlert = false ->
  redis_fails env = false ->
  alerts (db (Ticks.fire_times env (AgentMonitor agentId) n w))
  = alerts (db w) ++
    map (fun k => mkAlertRow (uuid_generate_v4 (uuid_seq (db w) + k)) agentId
                   (agent_user_id agent) "health_check_failed" CRITICAL
                   ("Health check failed: " +:+ e) false None None (clock w))
        (seq 0 n).
Proof.
  intros Hrt Hq Hagent Hi Hr. revert w Hagent.
  induction n as [|n IH]; intros w Hagent; simpl.
  - rewrite app_nil_r. reflexivity.
  - unfold agentMonitorTick.
    destruct (failed_check_step env agentId e w agent Hrt Hq Hagent Hi Hr)
      as (w' & Hres & Hdb & _ & Hclock & _).
    rewrite Hres. simpl.
    rewrite IH by (rewrite Hdb; exact Hagent).
    rewrite Hdb, Hclock. simpl. rewrite <- app_assoc. simpl.
    rewrite Nat.add_0_r. unfold new_alert_row.
    apply (f_equal (fun l => alerts (db w) ++ _ :: l)).
    rewrite <- seq_shift, map_map.
    apply map_ext. intros k. rewrite Nat.add_succ_r. reflexivity.
Qed.

(** X5. Nothing suppresses repeated alerts: [n] successive ticks of an
    agent's job whose runtime call raises each time leave [n] new
    unresolved [CRITICAL] alert rows, one per tick, with [n] different
    ids. *)
Theorem X5_failed_ticks_pile_up_alerts (env : Env) (w : World)
    (agentId e : string) (agent : AgentRow) (n : nat) :
  agent_runtime env agentId = Err e ->
  query_fails env Q_getAgentById = false ->
  head (filter (fun a => agent_id a = agentId) (agents (db w))) = Some agent ->
  query_fails env Q_insertAlert = false ->
  redis_fails env = false ->
  alerts (db (Ticks.fire_times env (AgentMonitor agentId) n w))
  = alerts (db w) ++
    map (fun k => mkAlertRow (uuid_generate_v4 (uuid_seq (db w) + k)) agentId
                   (agent_user_id agent) "health_check_failed" CRITICAL
                   ("Health check failed: " +:+ e) false None None (clock w))
        (seq 0 n) /\
  length (alerts (db (Ticks.fire_times env (AgentMonitor agentId) n w)))
  = (length (alerts (db w)) + n)%nat /\
  NoDup (map (fun k => uuid_generate_v4 (uuid_seq (db w) + k)) (seq 0 n)).
Proof.
  intros Hrt Hq Hagent Hi Hr.
  pose proof (failed_ticks_alerts env agentId e agent n w Hrt Hq Hagent Hi Hr) as H.
  split; [exact H|]. split.
  - rewrite H, length_app, length_map, length_seq. reflexivity.
  - apply NoDup_fmap_2_strong; [|apply NoDup_seq].
    intros k1 k2 _ _ Heq. apply uuid_generate_v4_inj in Heq. lia.
Qed.

End AlertLifecycle.

(** ** Listing and resolving alerts *)

Section AlertListing.
Import AgentService MonitoringService Queries.

#[local] Instance newer_total : Total newer.
Proof. intros a b. unfold newer. lia. Qed.

Lemma getAgentAlerts_ok o agentId flag w :
  read_fails o R_agentAlerts = false ->
  getAgentAlerts o agentId flag w
  = (Ok (merge_sort newer
           (filter (fun a => alert_agent_id a = agentId /\ resolved a = flag)
                   (alerts (db w)))), w).
Proof.
  intros H. unfold getAgentAlerts, try_catch, bind, read_query. rewrite H.
  reflexivity.
Qed.

Lemma elem_of_merge_sort_newer (a : AlertRow) l :
  a ∈ merge_sort newer l <-> a ∈ l.
Proof. rewrite merge_sort_Permutation. reflexivity. Qed.

(** X6. [resolveAlert] on an id that no alert carries does not fail: it
    returns normally, logs [Alert resolved], and changes nothing else. *)
Theorem X6_resolve_unknown_alert_is_silent (env : Env) (w : World)
    (alertId userId : string) :
  query_fails env Q_resolveAlert = false ->
  alertId ∉ map alert_id (alerts (db w)) ->
  resolveAlert env alertId userId w
  = (Ok tt, set_log (fun l => l ++ [(info, "Alert resolved")]) w).
Proof.
  intros Hq Hnotin.
  assert (Hfk : violates_resolved_by alertId userId (db w) = false).
  { unfold violates_resolved_by.
    rewrite (bool_decide_eq_false_2 _ Hnotin). reflexivity. }
  unfold resolveAlert, try_catch, bind, database_query. rewrite Hq. simpl.
  rewrite Hfk. simpl.
  assert (Hsame : map (fun a => if decide (alert_id a = alertId)
                                then resolve_row (clock w) userId a else a)
                      (alerts (db w)) = alerts (db w)).
  { induction (alerts (db w)) as [|a l IH]; [reflexivity|]. simpl in *.
    apply not_elem_of_cons in Hnotin as [Hne Hrest].
    rewrite decide_False by congruence. rewrite (IH Hrest). reflexivity. }
  unfold modify, set_db, set_alerts, set_log. simpl. rewrite Hsame.
  destruct w as [[? ? ? ? ? ?] ? ? ? ? ? ?]. reflexivity.
Qed.

(** X7. A [resolveAlert] that returned normally lowers the number of
    unresolved alerts that [getSystemHealth] counts by the number of
    unresolved rows that carry the id, and by nothing when the alert
    was resolved already. *)
Theorem X7_resolve_lowers_unresolved_count (env : Env) (w : World)
    (alertId userId : string) :
  fst (resolveAlert env alertId userId w) = Ok tt ->
  Health.unresolved_alerts (db (snd (resolveAlert env alertId userId w)))
  = Health.unresolved_alerts (db w)
    - Z.of_nat (length (filter (fun a => alert_id a = alertId /\ resolved a = false)
                               (alerts (db w)))).
Proof.
  intros Hok. destruct (resolveAlert_returned env alertId userId w Hok) as [Hq Hfk].
  unfold resolveAlert, try_catch, bind, database_query. rewrite Hq. simpl.
  rewrite Hfk. simpl.
  unfold Health.unresolved_alerts. simpl.
  induction (alerts (db w)) as [|a l IH]; [reflexivity|].
  simpl. rewrite !filter_cons.
  destruct (decide (alert_id a = alertId)) as [E|N]; simpl;
    repeat case_decide; simpl in *; try tauto; try congruence; lia.
Qed.

(** X8. After a [resolveAlert] that returned normally, no listing of unresolved
    alerts shows a row with that id, and every row that carried it is in
    the listing of resolved alerts of its agent, resolved by the caller
    at the time of the call; rows of other ids stay in the listing they
    were in.  Both listings are ordered newest first. *)
Theorem X8_resolved_alert_changes_listing (env : Env) (o : Outside) (w : World)
    (alertId userId agentId : string) :
  fst (resolveAlert env alertId userId w) = Ok tt ->
  read_fails o R_agentAlerts = false ->
  exists open_list closed_list,
    getAgentAlerts o agentId false (snd (resolveAlert env alertId userId w))
      = (Ok open_list, snd (resolveAlert env alertId userId w)) /\
    getAgentAlerts o agentId true (snd (resolveAlert env alertId userId w))
      = (Ok closed_list, snd (resolveAlert env alertId userId w)) /\
    (forall a, a ∈ open_list -> alert_id a <> alertId) /\
    (forall a, a ∈ alerts (db w) -> alert_id a = alertId ->
       alert_agent_id a = agentId ->
       mkAlertRow (alert_id a) (alert_agent_id a) (alert_user_id a) (alert_type a)
                  (alert_severity a) (alert_message a)
                  true (Some (clock w)) (Some userId) (created_at a) ∈ closed_list) /\
    (forall a, alert_id a <> alertId ->
       (a ∈ open_list <->
        a ∈ alerts (db w) /\ alert_agent_id a = agentId /\ resolved a = false) /\
       (a ∈ closed_list <->
        a ∈ alerts (db w) /\ alert_agent_id a = agentId /\ resolved a = true)) /\
    Sorted newer open_list /\
    Sorted newer closed_list.
Proof.
  intros Hok Hr.
  destruct (resolveAlert_returned env alertId userId w Hok) as [Hq Hfk].
  destruct (resolveAlert_ok env alertId userId w Hq Hfk) as (_ & Hrows & _).
  rewrite !(getAgentAlerts_ok o agentId _ _ Hr). rewrite Hrows.
  eexists _, _. split; [reflexivity|]. split; [reflexivity|].
  assert (Hin : forall (flag : bool) (x : AlertRow),
             x ∈ filter (fun a => alert_agent_id a = agentId /\ resolved a = flag)
                   (map (fun a => if decide (alert_id a = alertId)
                                  then resolve_row (clock w) userId a else a)
                        (alerts (db w)))
             <-> exists a, a ∈ alerts (db w) /\
                   x = (if decide (alert_id a = alertId)
                        then resolve_row (clock w) userId a else a) /\
                   alert_agent_id x = agentId /\ resolved x = flag).
  { intros flag x. rewrite list_elem_of_filter, list_elem_of_fmap. split.
    - intros [[Ha Hf] (a & Hx & Hain)]. exists a. repeat split; assumption.
    - intros (a & Hain & Hx & Ha & Hf). split; [split; assumption|].
      exists a. split; assumption. }
  split; [|split; [|split; [|split]]].
  - intros a Ha. apply elem_of_merge_sort_newer, Hin in Ha
      as (a0 & _ & Hx & _ & Hf).
    destruct (decide (alert_id a0 = alertId)); subst a; [discriminate | assumption].
  - intros a Hain Hid Hagent. apply elem_of_merge_sort_newer, Hin.
    exists a. split; [exact Hain|]. rewrite decide_True by exact Hid.
    repeat split. exact Hagent.
  - intros a Hne. split; rewrite elem_of_merge_sort_newer, Hin; split.
    + intros (a0 & Hain & Hx & Ha & Hf).
      destruct (decide (alert_id a0 = alertId)) as [E|N]; subst a;
        [exfalso; apply Hne; exact E | repeat split; assumption].
    + intros (Hain & Ha & Hf). exists a. split; [exact Hain|].
      rewrite decide_False by exact Hne. repeat split; assumption.
    + intros (a0 & Hain & Hx & Ha & Hf).
      destruct (decide (alert_id a0 = alertId)) as [E|N]; subst a;
        [exfalso; apply Hne; exact E | repeat split; assumption].
    + intros (Hain & Ha & Hf). exists a. split; [exact Hain|].
      rewrite decide_False by exact Hne. repeat split; assumption.
  - apply Sorted_merge_sort, _.
  - apply Sorted_merge_sort, _.
Qed.

End AlertListing.

(** ** More on the health snapshot *)

Section HealthMore.
Import Health.

Lemma getSystemHealth_ok env w :
  query_fails env Q_healthStats = false ->
  query_fails env Q_unresolvedAlerts = false ->
  getSystemHealth env w
  = (Ok (computeSystemHealth (health_stats (db w)) (unresolved_alerts (db w))), w).
Proof.
  intros H1 H2. unfold getSystemHealth, try_catch, bind, database_query.
  rewrite H1, H2. reflexivity.
Qed.

Lemma count_status_disjoint (l : list AgentRow) :
  count_status ACTIVE l + count_status ERROR l <= Z.of_nat (length l).
Proof.
  unfold count_status. induction l as [|a l IH]; simpl; [lia|].
  rewrite !filter_cons. destruct (agent_status a); repeat case_decide;
    try congruence; simpl length; lia.
Qed.

(** X9. [getSystemHealth] only reads: when both queries answer, the
    world is returned as it was, the active and the error agents are
    counted apart and together never exceed the total, and no count is
    negative; when a query fails it raises and the tables, the cache and
    the emitted events stay as they were. *)
Theorem X9_getSystemHealth_reads_only (env : Env) (w : World) :
  (query_fails env Q_healthStats = false ->
   query_fails env Q_unresolvedAlerts = false ->
   exists h,
     getSystemHealth env w = (Ok h, w) /\
     0 <= activeAgents h /\ 0 <= errorAgents h /\ 0 <= unresolvedAlerts h /\
     activeAgents h + errorAgents h <= totalAgents h /\
     totalAgents h = Z.of_nat (length (agents (db w)))) /\
  (query_fails env Q_healthStats = true \/ query_fails env Q_unresolvedAlerts = true ->
   fst (getSystemHealth env w) = Err "database error" /\
   db (snd (getSystemHealth env w)) = db w /\
   cache (snd (getSystemHealth env w)) = cache w /\
   emitted (snd (getSystemHealth env w)) = emitted w).
Proof.
  split.
  - intros H1 H2. rewrite (getSystemHealth_ok env w H1 H2).
    eexists. split; [reflexivity|]. simpl.
    pose proof (count_status_disjoint (agents (db w))).
    unfold count_status, unresolved_alerts in *. repeat split; lia.
  - intros H. unfold getSystemHealth, try_catch, bind, database_query.
    destruct (query_fails env Q_healthStats); simpl; [repeat split|].
    destruct H as [H|H]; [discriminate|]. rewrite H. simpl. repeat split.
Qed.

Lemma Qsum_lower_bound (c : Q) (l : list Q) :
  Forall (fun q => (c <= q)%Q) l ->
  (inject_Z (Z.of_nat (length l)) * c <= Qsum l)%Q.
Proof.
  induction 1 as [|q l Hq _ IH].
  - simpl. change (inject_Z (Z.of_nat 0)) with 0%Q. lra.
  - simpl Qsum. simpl length. rewrite Nat2Z.inj_succ. unfold Z.succ. rewrite inject_Z_plus.
    change (inject_Z 1) with 1%Q. lra.
Qed.

Lemma AVG_lower_bound (c : Q) (l : list Q) :
  l <> [] ->
  Forall (fun q => (c <= q)%Q) l ->
  exists avg, AVG l = Some avg /\ (c <= avg)%Q.
Proof.
  intros Hne Hall. destruct l as [|q l]; [congruence|].
  eexists. split; [reflexivity|].
  apply Qle_shift_div_l.
  - change 0%Q with (inject_Z 0). rewrite <- Zlt_Qlt. simpl length. lia.
  - rewrite Qmult_comm. apply Qsum_lower_bound, Hall.
Qed.

(** X10. A fleet with at least one agent, none of them in [error]
    status, in which the latest sample of every agent reports an uptime
    of 95 or more, is [healthy] as long as at most 5 alerts are
    unresolved. *)
Theorem X10_fleet_above_95_is_healthy (env : Env) (w : World) :
  query_fails env Q_healthStats = false ->
  query_fails env Q_unresolvedAlerts = false ->
  agents (db w) <> [] ->
  Forall (fun a => agent_status a <> ERROR) (agents (db w)) ->
  Forall (fun a => (95 <= uptime_or_zero (agent_metrics (db w)) a)%Q) (agents (db w)) ->
  unresolved_alerts (db w) <= 5 ->
  exists h, getSystemHealth env w = (Ok h, w) /\ systemStatus h = healthy.
Proof.
  intros H1 H2 Hne Hnoerr Hup Hun.
  rewrite (getSystemHealth_ok env w H1 H2). eexists. split; [reflexivity|].
  simpl. unfold determineSystemStatus, health_stats. simpl.
  assert (Herr : count_status ERROR (agents (db w)) = 0).
  { unfold count_status. clear Hne Hup.
    induction Hnoerr as [|a l Ha _ IH]; [reflexivity|].
    rewrite filter_cons. rewrite decide_False by exact Ha. exact IH. }
  rewrite Herr.
  destruct (AVG_lower_bound 95 (map (uptime_or_zero (agent_metrics (db w))) (agents (db w))))
    as (avg & Havg & Hle).
  - destruct (agents (db w)); [congruence | discriminate].
  - apply Forall_map. exact Hup.
  - rewrite Havg. simpl.
    assert (Hc : (10 <? unresolved_alerts (db w)) = false) by (apply Z.ltb_ge; lia).
    assert (Hw : (5 <? unresolved_alerts (db w)) = false) by (apply Z.ltb_ge; lia).
    rewrite Hc, Hw. simpl.
    assert (Hq : Qltb avg 95 = false).
    { apply Qltb_ge. intros Hlt. lra. }
    rewrite Hq. reflexivity.
Qed.

Lemma Qsum_zeros {A} (l : list A) : (Qsum (map (fun _ => 0%Q) l) == 0)%Q.
Proof. induction l as [|a l IH]; simpl; [reflexivity|]. rewrite IH. lra. Qed.

(** X11. An agent without any metric sample counts with uptime 0: a
    fleet with at least one agent and no sample at all is never
    [healthy], and its snapshot reports an average uptime of 0. *)
Theorem X11_fleet_without_samples_is_not_healthy (env : Env) (w : World) :
  query_fails env Q_healthStats = false ->
  query_fails env Q_unresolvedAlerts = false ->
  agents (db w) <> [] ->
  agent_metrics (db w) = [] ->
  exists h,
    getSystemHealth env w = (Ok h, w) /\
    systemStatus h <> healthy /\
    avgUptime h = 0%Q.
Proof.
  intros H1 H2 Hne Hnone.
  rewrite (getSystemHealth_ok env w H1 H2). eexists. split; [reflexivity|].
  simpl. unfold determineSystemStatus, health_stats. simpl. rewrite Hnone.
  assert (Hmap : map (uptime_or_zero []) (agents (db w))
                 = map (fun _ => 0%Q) (agents (db w))).
  { apply map_ext. intros a. reflexivity. }
  rewrite Hmap.
  destruct (agents (db w)) as [|a l] eqn:Hag; [congruence|].
  set (avg := (Qsum (map (fun _ => 0%Q) (a :: l))
               / inject_Z (Z.of_nat (length (map (fun _ : AgentRow => 0%Q) (a :: l)))))%Q).
  assert (Hzero : (avg == 0)%Q).
  { unfold avg. rewrite Qsum_zeros. unfold Qdiv. lra. }
  change (AVG (map (fun _ : AgentRow => 0%Q) (a :: l))) with (Some avg).
  simpl ToNumber. unfold parseFloat_or_zero.
  assert (Hlt : Qltb avg 95 = true) by (apply Qltb_lt; rewrite Hzero; lra).
  assert (Heq : Qeq_bool avg 0 = true) by (apply Qeq_bool_iff; exact Hzero).
  rewrite Hlt, Heq. split; [|reflexivity].
  destruct ((0 <? count_status ERROR (a :: l)) || (10 <? unresolved_alerts (db w)));
    discriminate.
Qed.

End HealthMore.

(** ** What the system jobs do on a tick *)

Section SystemTicks.
Import MonitoringService Health.

Lemma latest_metrics_from_some ms b :
  exists m, fold_left more_recent ms (Some b) = Some m.
Proof.
  revert b. induction ms as [|x ms IH]; intros b; simpl.
  - eexists. reflexivity.
  - destruct (recorded_at b <? recorded_at x); apply IH.
Qed.

(** An agent has a latest sample exactly when it has a sample. *)
Lemma latest_metrics_none ms aid :
  latest_metrics ms aid = None <-> filter (fun m => metric_agent_id m = aid) ms = [].
Proof.
  unfold latest_metrics.
  destruct (filter (fun m => metric_agent_id m = aid) ms) as [|x l]; simpl.
  - split; reflexivity.
  - destruct (latest_metrics_from_some l x) as [m Hm]. rewrite Hm.
    split; discriminate.
Qed.

Lemma for_each_emits {A} (body : A -> M unit) (ev : A -> Database -> list Emit) :
  (forall x w, body x w = (Ok tt, set_emitted (fun l => l ++ ev x (db w)) w)) ->
  forall xs w,
    for_each xs body w
    = (Ok tt, set_emitted (fun l => l ++ flat_map (fun x => ev x (db w)) xs) w).
Proof.
  intros Hbody xs. induction xs as [|x xs IH]; intros w.
  - simpl. unfold ret, set_emitted. rewrite app_nil_r. destruct w. reflexivity.
  - cbn [for_each flat_map]. unfold bind. rewrite Hbody, IH.
    unfold set_emitted. simpl. rewrite <- app_assoc. reflexivity.
Qed.

Lemma flat_map_filter {A B} (P : A -> Prop) `{!forall x, Decision (P x)}
    (f : A -> B) (l : list A) :
  flat_map (fun x => if decide (P x) then [f x] else []) l = map f (filter P l).
Proof.
  induction l as [|x l IH]; [reflexivity|].
  simpl. rewrite filter_cons. destruct (decide (P x)); simpl; rewrite IH; reflexivity.
Qed.

Lemma answered_all env rows :
  (forall a, a ∈ rows -> query_fails env (Q_latestMetrics (agent_id a)) = false) ->
  answered env rows = rows.
Proof.
  induction rows as [|a rows IH]; intros Hall; [reflexivity|].
  simpl. rewrite (Hall a (list_elem_of_here _ _)). f_equal.
  apply IH. intros b Hb. apply Hall. apply list_elem_of_further. exact Hb.
Qed.

(** The loop of [metricsBroadcastTick]: it emits for the agents with a
    sample among those it gets through, and only logs besides. *)
Lemma broadcast_loop env rows w :
  exists r lines,
    for_each rows
      (fun row =>
         run database_query env (Q_latestMetrics (agent_id row));
         do w' <- get_world;
         match latest_metrics (agent_metrics (db w')) (agent_id row) with
         | Some _ => emit (Some ("agent-" +:+ agent_id row)) "metrics" (agent_id row)
         | None => ret tt
         end) w
    = (r,
       set_log (fun l => l ++ lines)
         (set_emitted (fun l => l ++
            map (fun a => mkEmit (Some ("agent-" +:+ agent_id a)) "metrics" (agent_id a))
                (filter (fun a => filter (fun m => metric_agent_id m = agent_id a)
                                         (agent_metrics (db w)) <> [])
                        (answered env rows))) w)) /\
    (answered env rows = rows -> r = Ok tt /\ lines = []).
Proof.
  revert w. induction rows as [|a rows IH]; intros w.
  - exists (Ok tt), []. split; [|intros _; split; reflexivity].
    simpl. unfold ret, set_log, set_emitted. simpl. rewrite !app_nil_r.
    destruct w. reflexivity.
  - cbn [for_each answered].
    match goal with
    | |- context [for_each rows ?body] => set (loop := for_each rows body) in *
    end.
    unfold bind at 1. unfold bind at 1, database_query.
    destruct (query_fails env (Q_latestMetrics (agent_id a))) eqn:Hq.
    + simpl. exists (Err "database error"), [(error, "Database query error")].
      split; [|discriminate].
      unfold set_log, set_emitted. simpl. rewrite app_nil_r. destruct w. reflexivity.
    + cbn [ret]. unfold bind at 1, get_world. cbn beta iota.
      rewrite filter_cons.
      destruct (latest_metrics (agent_metrics (db w)) (agent_id a)) as [m|] eqn:Hm.
      * assert (Hne : filter (fun m0 => metric_agent_id m0 = agent_id a)
                        (agent_metrics (db w)) <> []).
        { intros Hnil. apply latest_metrics_none in Hnil. congruence. }
        rewrite decide_True by exact Hne.
        unfold emit, modify. cbn beta iota.
        match goal with
        | |- context [loop ?w1] => destruct (IH w1) as (r & lines & Hrun & Hall)
        end.
        rewrite Hrun. exists r, lines. split.
        -- unfold set_log, set_emitted. simpl. rewrite <- app_assoc. reflexivity.
        -- intros Heq. apply Hall. congruence.
      * apply latest_metrics_none in Hm.
        rewrite decide_False by (intros H; exact (H Hm)).
        unfold ret.
        destruct (IH w) as (r & lines & Hrun & Hall).
        rewrite Hrun. exists r, lines. split; [reflexivity|].
        intros Heq. apply Hall. congruence.
Qed.

(** X12. A tick of the metrics broadcast always returns normally and
    never changes a table.  When the list of active agents is read, it
    emits one [metrics] event to the room of every active agent with at
    least one sample, in table order, up to the first agent whose
    latest-metrics query fails: the events of the agents before that
    one have gone out, those of the agents after it have not.  When
    every query answers, that is every active agent with a sample, and
    nothing else changes.  When reading the active agents fails,
    nothing is emitted. *)
Theorem X12_metrics_broadcast_reaches_active_agents_with_samples
    (env : Env) (w : World) :
  fst (metricsBroadcastTick env w) = Ok tt /\
  db (snd (metricsBroadcastTick env w)) = db w /\
  (query_fails env Q_activeAgents = false ->
   emitted (snd (metricsBroadcastTick env w))
   = emitted w ++
     map (fun a => mkEmit (Some ("agent-" +:+ agent_id a)) "metrics" (agent_id a))
         (filter (fun a => filter (fun m => metric_agent_id m = agent_id a)
                                  (agent_metrics (db w)) <> [])
                 (answered env
                    (filter (fun a => agent_status a = ACTIVE) (agents (db w)))))) /\
  (query_fails env Q_activeAgents = false ->
   (forall a, a ∈ filter (fun a => agent_status a = ACTIVE) (agents (db w)) ->
              query_fails env (Q_latestMetrics (agent_id a)) = false) ->
   metricsBroadcastTick env w
   = (Ok tt,
      set_emitted (fun l => l ++
        map (fun a => mkEmit (Some ("agent-" +:+ agent_id a)) "metrics" (agent_id a))
            (filter (fun a => filter (fun m => metric_agent_id m = agent_id a)
                                     (agent_metrics (db w)) <> [])
                    (filter (fun a => agent_status a = ACTIVE) (agents (db w))))) w)) /\
  (query_fails env Q_activeAgents = true ->
   emitted (snd (metricsBroadcastTick env w)) = emitted w).
Proof.
  split; [apply try_catch_swallows|].
  destruct (query_fails env Q_activeAgents) eqn:Ha.
  - assert (Hr : metricsBroadcastTick env w
                 = (Ok tt, set_log (fun l => l ++ [(error, "Database query error");
                                                   (error, "Metrics broadcasting failed")]) w)).
    { unfold metricsBroadcastTick, try_catch.
      unfold bind at 1, database_query at 1. rewrite Ha. simpl.
      unfold logger, modify, set_log. simpl. rewrite <- app_assoc. reflexivity. }
    rewrite Hr. split; [reflexivity|]. split; [discriminate|].
    split; [discriminate|]. intros _. reflexivity.
  - destruct (broadcast_loop env
                (filter (fun a => agent_status a = ACTIVE) (agents (db w))) w)
      as (r & lines & Hloop & Hall).
    assert (Hr : exists lines',
               metricsBroadcastTick env w
               = (Ok tt,
                  set_log (fun l => l ++ lines')
                    (set_emitted (fun l => l ++
                       map (fun a => mkEmit (Some ("agent-" +:+ agent_id a)) "metrics"
                                            (agent_id a))
                           (filter (fun a => filter (fun m => metric_agent_id m = agent_id a)
                                                    (agent_metrics (db w)) <> [])
                                   (answered env
                                      (filter (fun a => agent_status a = ACTIVE)
                                              (agents (db w)))))) w)) /\
               (r = Ok tt -> lines' = lines)).
    { unfold metricsBroadcastTick, try_catch.
      unfold bind at 1, database_query at 1. rewrite Ha. cbn [ret].
      unfold bind at 1, get_world at 1. cbn beta iota. rewrite Hloop.
      destruct r as [[]|e].
      - exists lines. split; [reflexivity | intros _; reflexivity].
      - exists (lines ++ [(error, "Metrics broadcasting failed")]).
        split; [|discriminate].
        unfold logger, modify, set_log. simpl. rewrite <- app_assoc. reflexivity. }
    destruct Hr as (lines' & Hr & Hlines). rewrite Hr.
    split; [reflexivity|]. split; [intros _; reflexivity|].
    split; [|discriminate].
    intros _ Hanswer. apply answered_all in Hanswer.
    destruct (Hall Hanswer) as [-> ->]. rewrite (Hlines eq_refl), Hanswer.
    unfold set_log. simpl. rewrite app_nil_r. reflexivity.
Qed.

(** X13. A tick of the system-health job whose queries answer emits the
    snapshot once to every client and caches it under [system:health]
    for 300 seconds; it returns normally even when the cache write
    fails, in which case the event has still gone out and the cache is
    as before.  The tables are never changed. *)
Theorem X13_system_health_tick_broadcasts_and_caches (env : Env) (w : World) :
  query_fails env Q_healthStats = false ->
  query_fails env Q_unresolvedAlerts = false ->
  fst (systemHealthTick env w) = Ok tt /\
  db (snd (systemHealthTick env w)) = db w /\
  emitted (snd (systemHealthTick env w))
    = emitted w ++
      [mkEmit None "system_health"
         (status_value (determineSystemStatus (health_stats (db w))
                                              (unresolved_alerts (db w))))] /\
  (redis_fails env = false ->
   cache (snd (systemHealthTick env w)) !! "system:health"
     = Some (status_value (determineSystemStatus (health_stats (db w))
                                                 (unresolved_alerts (db w))), 300)) /\
  (redis_fails env = true -> cache (snd (systemHealthTick env w)) = cache w).
Proof.
  intros H1 H2. unfold systemHealthTick, try_catch, bind.
  rewrite (getSystemHealth_ok env w H1 H2).
  cbn [systemStatus computeSystemHealth].
  unfold emit, redis_set, modify, logger. simpl.
  destruct (redis_fails env); simpl.
  - repeat split; solve [reflexivity | congruence].
  - case_decide; simpl; repeat split;
      solve [reflexivity | congruence | intros _; apply lookup_insert_eq].
Qed.

End SystemTicks.

(** ** More on the retention sweep *)

Section SweepMore.
Import MonitoringService.

(** X14. The sweep stops at the first [DELETE] that fails and still
    returns normally: when the one on the metrics fails, no alert is
    removed either, however long ago it was resolved; when the one on
    the alerts fails, the metrics have already been removed and stay
    removed. *)
Theorem X14_sweep_stops_at_first_failure (env : Env) (w : World) :
  fst (cleanupTick env w) = Ok tt /\
  (query_fails env Q_deleteMetrics = true ->
   db (snd (cleanupTick env w)) = db w) /\
  (query_fails env Q_deleteMetrics = false ->
   query_fails env Q_deleteAlerts = true ->
   agent_metrics (db (snd (cleanupTick env w)))
     = filter (fun m => metric_expired (clock w) m = false) (agent_metrics (db w)) /\
   alerts (db (snd (cleanupTick env w))) = alerts (db w)).
Proof.
  split; [apply try_catch_swallows|].
  unfold cleanupTick, try_catch, bind, database_query. split.
  - intros Hm. rewrite Hm. reflexivity.
  - intros Hm Ha. rewrite Hm. simpl. rewrite Ha. simpl. split; reflexivity.
Qed.

Lemma filter_twice {A} (P : A -> Prop) `{!forall x, Decision (P x)} (l : list A) :
  filter P (filter P l) = filter P l.
Proof.
  induction l as [|x l IH]; [reflexivity|].
  rewrite filter_cons. destruct (decide (P x)) as [Hx|Hx]; [|exact IH].
  rewrite filter_cons. rewrite decide_True by exact Hx. rewrite IH. reflexivity.
Qed.

(** X15. Sweeping twice in a row, with no time passing in between,
    removes nothing that the first sweep left: the tables after the
    second sweep are those after the first. *)
Theorem X15_sweep_is_idempotent (env : Env) (w : World) :
  db (snd (cleanupTick env (snd (cleanupTick env w))))
  = db (snd (cleanupTick env w)).
Proof.
  unfold cleanupTick, try_catch, bind, database_query.
  destruct (query_fails env Q_deleteMetrics); simpl; [reflexivity|].
  destruct (query_fails env Q_deleteAlerts); simpl.
  - unfold set_agent_metrics. simpl. rewrite filter_twice. reflexivity.
  - unfold set_alerts, set_agent_metrics. simpl. rewrite !filter_twice. reflexivity.
Qed.

End SweepMore.

(** ** Starting and stopping the whole service *)

Section ServiceLifecycle.
Import MonitoringService Registry.

(** The loop of [stopMonitoring] over the entries [l]. *)
Lemma stop_loop (has_destroy : CronTask -> bool) (l : list (string * CronTask)) w :
  exists w',
    for_each l (fun entry =>
                  run (if has_destroy (snd entry)
                       then task_destroy (snd entry)
                       else ret tt);
                  jobs_delete (fst entry)) w
      = (Ok tt, w') /\
    (forall k, monitoringJobs (svc w') !! k
               = if decide (k ∈ map fst l) then None else monitoringJobs (svc w) !! k) /\
    (forall t, t ∈ cron_live (svc w') <->
               t ∈ cron_live (svc w) /\ (t ∈ map snd l -> has_destroy t = false)) /\
    ((forall t, t ∈ map snd l -> has_destroy t = false) ->
     cron_live (svc w') = cron_live (svc w)) /\
    isRunning (svc w') = isRunning (svc w) /\
    db w' = db w /\ log w' = log w /\ emitted w' = emitted w /\
    dispatched w' = dispatched w /\ cache w' = cache w.
Proof.
  revert w. induction l as [|[k0 t0] l IH]; intros w.
  - exists w. split; [reflexivity|]. split; [|split; [|split]].
    + intros k. rewrite decide_False; [reflexivity | intros H; inversion H].
    + intros t. split; [intros H; split; [exact H | intros H'; inversion H'] | tauto].
    + reflexivity.
    + repeat split.
  - cbn [for_each]. unfold bind at 1. unfold bind at 1. cbn [fst snd].
    destruct (has_destroy t0) eqn:Hd0; unfold task_destroy, ret, jobs_delete, modify;
      match goal with
      | |- context [for_each l _ ?w1] =>
          destruct (IH w1) as (w' & Hrun & Hjobs & Hlive & Hsame & Hrest)
      end;
      simpl in Hjobs, Hlive, Hsame, Hrest;
      exists w'; (split; [exact Hrun|]); (split; [|split; [|split]]).
    + intros k. rewrite Hjobs. cbn [map fst].
      repeat case_decide; try reflexivity;
        repeat match goal with
        | H : _ ∈ _ :: _ |- _ => apply elem_of_cons in H as [->|?]
        | H : _ ∉ _ :: _ |- _ => apply not_elem_of_cons in H as [? ?]
        end; try tauto.
      * apply lookup_delete_eq.
      * apply lookup_delete_ne. congruence.
    + intros t. rewrite Hlive. cbn [map snd].
      rewrite list_elem_of_filter. split.
      * intros [[Hne Hin] Hl]. split; [exact Hin|]. intros Hmem.
        apply elem_of_cons in Hmem as [->|Hmem]; [congruence | exact (Hl Hmem)].
      * intros [Hin Hl]. split; [split; [|exact Hin]|].
        -- intros ->. specialize (Hl (list_elem_of_here _ _)). congruence.
        -- intros Hmem. apply Hl. apply list_elem_of_further. exact Hmem.
    + intros Hall. cbn [map snd] in Hall.
      specialize (Hall t0 (list_elem_of_here _ _)). congruence.
    + exact Hrest.
    + intros k. rewrite Hjobs. cbn [map fst].
      repeat case_decide; try reflexivity;
        repeat match goal with
        | H : _ ∈ _ :: _ |- _ => apply elem_of_cons in H as [->|?]
        | H : _ ∉ _ :: _ |- _ => apply not_elem_of_cons in H as [? ?]
        end; try tauto.
      * apply lookup_delete_eq.
      * apply lookup_delete_ne. congruence.
    + intros t. rewrite Hlive. cbn [map snd]. split.
      * intros [Hin Hl]. split; [exact Hin|]. intros Hmem.
        apply elem_of_cons in Hmem as [->|Hmem]; [exact Hd0 | exact (Hl Hmem)].
      * intros [Hin Hl]. split; [exact Hin|]. intros Hmem.
        apply Hl. apply list_elem_of_further. exact Hmem.
    + intros Hall. cbn [map snd] in Hall. rewrite Hsame; [reflexivity|].
      intros t Ht. apply Hall. apply list_elem_of_further. exact Ht.
    + exact Hrest.
Qed.

(** X16. [stopMonitoring] on a running service returns normally, empties
    the registry and marks the service as not running.  It destroys a
    registered cron task only when the task object has a [destroy]
    member: a live task is still live afterwards exactly when it was
    not registered or has no [destroy], so with task objects that have
    none the registry is empty and every task keeps firing.  Tasks that
    are not in the registry are not touched.  On a service that is not
    marked as running it does nothing at all, whatever jobs are
    registered. *)
Theorem X16_stopMonitoring_clears_registry (has_destroy : CronTask -> bool)
    (w : World) :
  (isRunning (svc w) = true ->
   fst (stopMonitoring has_destroy w) = Ok tt /\
   monitoringJobs (svc (snd (stopMonitoring has_destroy w))) = ∅ /\
   isRunning (svc (snd (stopMonitoring has_destroy w))) = false /\
   (forall t, t ∈ cron_live (svc (snd (stopMonitoring has_destroy w))) <->
      t ∈ cron_live (svc w) /\
      forall k, monitoringJobs (svc w) !! k = Some t -> has_destroy t = false) /\
   ((forall k t, monitoringJobs (svc w) !! k = Some t -> has_destroy t = false) ->
    cron_live (svc (snd (stopMonitoring has_destroy w))) = cron_live (svc w)) /\
   db (snd (stopMonitoring has_destroy w)) = db w) /\
  (isRunning (svc w) = false -> stopMonitoring has_destroy w = (Ok tt, w)).
Proof.
  split.
  - intros Hrun. remember (stopMonitoring has_destroy w) as r eqn:Hr.
    unfold stopMonitoring in Hr. unfold bind at 1, get_world in Hr.
    rewrite Hrun in Hr.
    unfold bind at 1, logger, modify in Hr. unfold bind at 1 in Hr.
    match type of Hr with
    | context [for_each ?l _ ?w1] =>
        destruct (stop_loop has_destroy l w1)
          as (w' & Hloop & Hjobs & Hlive & Hsame & _ & Hdb & _)
    end.
    rewrite Hloop in Hr. unfold bind, set_running, modify in Hr. simpl in Hr.
    subst r. simpl in *.
    split; [reflexivity|]. split; [|split; [reflexivity|split; [|split]]].
    + apply map_eq. intros k. rewrite Hjobs, lookup_empty. simpl.
      destruct (decide (k ∈ map fst (map_to_list (monitoringJobs (svc w)))))
        as [_|Hnin]; [reflexivity|].
      destruct (monitoringJobs (svc w) !! k) as [t|] eqn:Hk; [|reflexivity].
      exfalso. apply Hnin. apply list_elem_of_fmap. exists (k, t).
      split; [reflexivity|]. apply elem_of_map_to_list. exact Hk.
    + intros t. rewrite Hlive. simpl. split.
      * intros [Hin Hnot]. split; [exact Hin|]. intros k Hk. apply Hnot.
        apply list_elem_of_fmap. exists (k, t). split; [reflexivity|].
        apply elem_of_map_to_list. exact Hk.
      * intros [Hin Hnot]. split; [exact Hin|]. intros Hmem.
        apply list_elem_of_fmap in Hmem as ([k t'] & Heq & Hkt). simpl in Heq. subst t'.
        apply elem_of_map_to_list in Hkt. exact (Hnot k Hkt).
    + intros Hnone. rewrite Hsame; [reflexivity|].
      intros t Hmem.
      apply list_elem_of_fmap in Hmem as ([k t'] & Heq & Hkt). simpl in Heq. subst t'.
      apply elem_of_map_to_list in Hkt. exact (Hnone k t Hkt).
    + rewrite Hdb. reflexivity.
  - intros Hrun. unfold stopMonitoring, bind, get_world. rewrite Hrun. reflexivity.
Qed.

Lemma grows_refl s : grows s s.
Proof. repeat split; auto. Qed.

Lemma grows_trans s1 s2 s3 : grows s1 s2 -> grows s2 s3 -> grows s1 s3.
Proof.
  intros (J1 & L1 & R1 & S1) (J2 & L2 & R2 & S2). repeat split.
  - intros k t H. apply J2, J1, H.
  - intros t H. apply L2, L1, H.
  - congruence.
  - lia.
Qed.

Lemma grows_of_keeps {A} (m : M A) : keeps_svc m -> grows_svc m.
Proof. intros H w. rewrite H. apply grows_refl. Qed.

Lemma grows_bind {A B} (m : M A) (k : A -> M B) :
  grows_svc m -> (forall a, grows_svc (k a)) -> grows_svc (bind m k).
Proof.
  intros Hm Hk w. unfold bind. specialize (Hm w).
  destruct (m w) as [[a|e] w1]; simpl in *; [|exact Hm].
  exact (grows_trans _ _ _ Hm (Hk a w1)).
Qed.

Lemma grows_try_catch {A} (m : M A) (h : string -> M A) :
  grows_svc m -> (forall e, grows_svc (h e)) -> grows_svc (try_catch m h).
Proof.
  intros Hm Hh w. unfold try_catch. specialize (Hm w).
  destruct (m w) as [[a|e] w1]; simpl in *; [exact Hm|].
  exact (grows_trans _ _ _ Hm (Hh e w1)).
Qed.

Lemma grows_for_each {A} (xs : list A) (body : A -> M unit) :
  (forall x, grows_svc (body x)) -> grows_svc (for_each xs body).
Proof.
  intros Hbody. induction xs as [|x xs IH]; simpl.
  - apply grows_of_keeps, keeps_ret.
  - apply grows_bind; [apply Hbody | intros _; exact IH].
Qed.

Lemma grows_startAgentMonitoring env agentId :
  grows_svc (startAgentMonitoring env agentId).
Proof.
  intros w. destruct (monitoringJobs (svc w) !! agentId) as [t|] eqn:Hjob.
  - rewrite (start_registered env agentId w t Hjob). apply grows_refl.
  - rewrite (start_unregistered env agentId w Hjob). cbv zeta.
    repeat split; simpl.
    + intros k t Hk. rewrite lookup_insert_ne; [exact Hk | congruence].
    + intros t Ht. case_bool_decide; [exact Ht|].
      apply elem_of_app. left. exact Ht.
    + lia.
Qed.

Lemma grows_discover env : grows_svc (discoverAndMonitorAgents env).
Proof.
  unfold discoverAndMonitorAgents.
  apply grows_try_catch; [|intros e; apply grows_of_keeps, keeps_logger].
  apply grows_bind; [apply grows_of_keeps, keeps_database_query | intros _].
  apply grows_bind; [apply grows_of_keeps, keeps_get_world | intros w0].
  apply grows_bind; [|intros _; apply grows_of_keeps, keeps_logger].
  apply grows_for_each. intros row. apply grows_startAgentMonitoring.
Qed.

Lemma bind_ok {A B} (m : M A) (k : A -> M B) w a w1 :
  m w = (Ok a, w1) -> bind m k w = k a w1.
Proof. intros H. unfold bind. rewrite H. reflexivity. Qed.

Lemma logger_run lvl msg w :
  logger lvl msg w = (Ok tt, set_log (fun l => l ++ [(lvl, msg)]) w).
Proof. reflexivity. Qed.

(** Registering a system job under [name]. *)
Lemma register_system_job kind name w :
  (do job <- cron_schedule kind true; jobs_set name job) w
  = (Ok tt,
     set_svc (fun s =>
       mkService (<[name := mkCronTask (cron_seq s) kind]> (monitoringJobs s))
                 (isRunning s)
                 (cron_live s ++ [mkCronTask (cron_seq s) kind])
                 (S (cron_seq s))) w).
Proof. destruct w. reflexivity. Qed.

(** X17. [startMonitoring] on a service that is not running never
    raises, whatever fails during discovery: it returns normally, marks
    the service as running, and leaves the three system jobs registered
    under [system-health], [cleanup] and [metrics-broadcast], each with a
    live cron task of its kind.  On a running service it only logs a
    warning. *)
Theorem X17_startMonitoring_always_starts (env : Env) (w : World) :
  (isRunning (svc w) = false ->
   fst (startMonitoring env w) = Ok tt /\
   isRunning (svc (snd (startMonitoring env w))) = true /\
   (exists t, monitoringJobs (svc (snd (startMonitoring env w))) !! "system-health"
                = Some t /\
              task_kind t = SystemHealthJob /\
              t ∈ cron_live (svc (snd (startMonitoring env w)))) /\
   (exists t, monitoringJobs (svc (snd (startMonitoring env w))) !! "cleanup"
                = Some t /\
              task_kind t = CleanupJob /\
              t ∈ cron_live (svc (snd (startMonitoring env w)))) /\
   (exists t, monitoringJobs (svc (snd (startMonitoring env w))) !! "metrics-broadcast"
                = Some t /\
              task_kind t = MetricsBroadcastJob /\
              t ∈ cron_live (svc (snd (startMonitoring env w))))) /\
  (isRunning (svc w) = true ->
   startMonitoring env w
   = (Ok tt, set_log (fun l => l ++ [(warn, "Monitoring service is already running")]) w)).
Proof.
  split.
  - intros Hrun. remember (startMonitoring env w) as r eqn:Hr.
    unfold startMonitoring in Hr. unfold bind at 1, get_world in Hr.
    rewrite Hrun in Hr. unfold try_catch in Hr.
    rewrite (bind_ok _ _ _ tt _ (logger_run _ _ _)) in Hr.
    unfold startSystemHealthMonitoring, startPeriodicCleanup,
      startMetricsBroadcasting in Hr.
    rewrite (bind_ok _ _ _ tt _ (register_system_job _ _ _)) in Hr.
    match type of Hr with
    | context [bind (discoverAndMonitorAgents env) _ ?w1] =>
        pose proof (grows_discover env w1) as (Hjobs & Hlive & _ & _);
        pose proof (try_catch_swallows
                      (run database_query env Q_activeAgents;
                       do w0 <- get_world;
                       run for_each (filter (fun a => agent_status a = ACTIVE)
                                            (agents (db w0)))
                             (fun row => startAgentMonitoring env (agent_id row));
                       logger info
                         ("Started monitoring for " +:+
                          pretty (length (filter (fun a => agent_status a = ACTIVE)
                                                 (agents (db w0)))) +:+
                          " active agents"))
                      error "Failed to discover agents" w1) as Hok;
        change (fst (discoverAndMonitorAgents env w1) = Ok tt) in Hok;
        destruct (discoverAndMonitorAgents env w1) as [r2 w2] eqn:Hd
    end.
    simpl in Hok, Hjobs, Hlive. subst r2.
    rewrite (bind_ok _ _ _ tt _ Hd) in Hr.
    rewrite (bind_ok _ _ _ tt _ (register_system_job _ _ _)) in Hr.
    rewrite (bind_ok _ _ _ tt _ (register_system_job _ _ _)) in Hr.
    unfold bind, set_running, logger, modify in Hr. simpl in Hr.
    subst r. simpl in *.
    split; [reflexivity|]. split; [reflexivity|]. split; [|split].
    + eexists. split; [|split].
      * rewrite lookup_insert_ne by discriminate.
        rewrite lookup_insert_ne by discriminate.
        apply Hjobs. apply lookup_insert_eq.
      * reflexivity.
      * rewrite !elem_of_app. left; left. apply Hlive.
        apply elem_of_app. right. apply list_elem_of_here.
    + eexists. split; [|split].
      * rewrite lookup_insert_ne by discriminate. apply lookup_insert_eq.
      * reflexivity.
      * rewrite !elem_of_app. left; right. apply list_elem_of_here.
    + eexists. split; [|split].
      * apply lookup_insert_eq.
      * reflexivity.
      * rewrite !elem_of_app. right. apply list_elem_of_here.
  - intros Hrun. unfold startMonitoring, bind, get_world. rewrite Hrun. reflexivity.
Qed.

Lemma for_each_app {A} (xs ys : list A) (body : A -> M unit) w :
  for_each (xs ++ ys) body w
  = match for_each xs body w with
    | (Ok _, w1) => for_each ys body w1
    | (Err e, w1) => (Err e, w1)
    end.
Proof.
  revert w. induction xs as [|x xs IH]; intros w; [reflexivity|].
  cbn [app for_each]. unfold bind.
  destruct (body x w) as [[[]|e] w1]; [apply IH | reflexivity].
Qed.

(** After [startAgentMonitoring] the agent has a job in the registry,
    and the entries of the other agents are as before. *)
Lemma start_registers env agentId w :
  is_Some (monitoringJobs (svc (snd (startAgentMonitoring env agentId w))) !! agentId).
Proof.
  destruct (monitoringJobs (svc w) !! agentId) as [t|] eqn:Hjob.
  - rewrite (start_registered env agentId w t Hjob). simpl. rewrite Hjob.
    eexists. reflexivity.
  - rewrite (start_unregistered env agentId w Hjob). cbv zeta. simpl.
    rewrite lookup_insert_eq. eexists. reflexivity.
Qed.

Lemma start_other env agentId w k :
  k <> agentId ->
  monitoringJobs (svc (snd (startAgentMonitoring env agentId w))) !! k
  = monitoringJobs (svc w) !! k.
Proof.
  intros Hne. destruct (monitoringJobs (svc w) !! agentId) as [t|] eqn:Hjob.
  - rewrite (start_registered env agentId w t Hjob). reflexivity.
  - rewrite (start_unregistered env agentId w Hjob). cbv zeta. simpl.
    apply lookup_insert_ne. congruence.
Qed.

(** The loop of [discoverAndMonitorAgents] over the rows [l]. *)
Lemma start_loop env (l : list AgentRow) w :
  (fst (for_each l (fun row => startAgentMonitoring env (agent_id row)) w) = Ok tt ->
   forall b, b ∈ l ->
     is_Some (monitoringJobs
                (svc (snd (for_each l
                             (fun row => startAgentMonitoring env (agent_id row)) w)))
                !! agent_id b)) /\
  (forall k, k ∉ map agent_id l ->
     monitoringJobs
       (svc (snd (for_each l (fun row => startAgentMonitoring env (agent_id row)) w)))
       !! k
     = monitoringJobs (svc w) !! k).
Proof.
  revert w. induction l as [|x l IH]; intros w.
  - split; [intros _ b Hb; inversion Hb | intros k _; reflexivity].
  - cbn [for_each]. unfold bind.
    pose proof (start_registers env (agent_id x) w) as Hreg.
    pose proof (fun k => start_other env (agent_id x) w k) as Hother.
    destruct (startAgentMonitoring env (agent_id x) w) as [[[]|e] w1];
      cbn [fst snd] in *.
    + destruct (IH w1) as [IHreg IHother]. split.
      * intros Hok b Hb. apply elem_of_cons in Hb as [->|Hb]; [|exact (IHreg Hok b Hb)].
        destruct Hreg as [t Ht].
        pose proof (grows_for_each l
                      (fun row => startAgentMonitoring env (agent_id row))
                      (fun row => grows_startAgentMonitoring env (agent_id row)) w1)
          as (Hjobs & _).
        exists t. exact (Hjobs _ _ Ht).
      * intros k Hk. cbn [map] in Hk. apply not_elem_of_cons in Hk as [Hne Hk].
        rewrite (IHother k Hk). exact (Hother k Hne).
    + split; [discriminate|].
      intros k Hk. cbn [map] in Hk. apply not_elem_of_cons in Hk as [Hne Hk].
      exact (Hother k Hne).
Qed.

(** X18. Discovery stops at the first active agent whose start fails
    (its first health check and the alert for it both fail), wherever
    that agent stands among the active ones: the error is logged and
    swallowed, the agents before it and the failing agent itself have
    their jobs registered, and no later active agent gets a job,
    although discovery returns normally. *)
Theorem X18_discovery_stops_at_first_failure (env : Env) (w : World)
    (pre : list AgentRow) (a : AgentRow) (rest : list AgentRow) (e : string) :
  query_fails env Q_activeAgents = false ->
  filter (fun a => agent_status a = ACTIVE) (agents (db w)) = pre ++ a :: rest ->
  fst (for_each pre (fun row => startAgentMonitoring env (agent_id row)) w) = Ok tt ->
  fst (startAgentMonitoring env (agent_id a)
         (snd (for_each pre (fun row => startAgentMonitoring env (agent_id row)) w)))
    = Err e ->
  fst (discoverAndMonitorAgents env w) = Ok tt /\
  svc (snd (discoverAndMonitorAgents env w))
    = svc (snd (startAgentMonitoring env (agent_id a)
                  (snd (for_each pre
                          (fun row => startAgentMonitoring env (agent_id row)) w)))) /\
  (forall b, b ∈ pre ++ [a] ->
     is_Some (monitoringJobs (svc (snd (discoverAndMonitorAgents env w)))
                !! agent_id b)) /\
  (forall b, b ∈ rest -> agent_id b ∉ map agent_id (pre ++ [a]) ->
     monitoringJobs (svc w) !! agent_id b = None ->
     monitoringJobs (svc (snd (discoverAndMonitorAgents env w))) !! agent_id b = None).
Proof.
  intros Hq Hrows Hpre Hfail.
  destruct (start_loop env pre w) as [Hreg Hother]. specialize (Hreg Hpre).
  assert (Hsvc : fst (discoverAndMonitorAgents env w) = Ok tt /\
                 svc (snd (discoverAndMonitorAgents env w))
                 = svc (snd (startAgentMonitoring env (agent_id a)
                               (snd (for_each pre
                                       (fun row => startAgentMonitoring env (agent_id row))
                                       w))))).
  { remember (discoverAndMonitorAgents env w) as r eqn:Hr.
    unfold discoverAndMonitorAgents, try_catch in Hr.
    unfold bind at 1, database_query in Hr. rewrite Hq in Hr. cbn [ret] in Hr.
    unfold bind at 1, get_world in Hr. cbn beta iota in Hr. rewrite Hrows in Hr.
    unfold bind at 1 in Hr. rewrite for_each_app in Hr.
    destruct (for_each pre (fun row => startAgentMonitoring env (agent_id row)) w)
      as [[[]|e'] w1]; [|discriminate].
    cbn [for_each] in Hr. unfold bind at 1 in Hr. cbn [snd] in *.
    destruct (startAgentMonitoring env (agent_id a) w1) as [[[]|e'] w2];
      [discriminate|].
    subst r. split; reflexivity. }
  destruct Hsvc as [Hok Hsvc]. split; [exact Hok|]. split; [exact Hsvc|].
  rewrite Hsvc. split.
  - intros b Hb. apply elem_of_app in Hb as [Hb|Hb].
    + destruct (Hreg b Hb) as [t Ht].
      destruct (grows_startAgentMonitoring env (agent_id a)
                  (snd (for_each pre
                          (fun row => startAgentMonitoring env (agent_id row)) w)))
        as (Hjobs & _).
      exists t. exact (Hjobs _ _ Ht).
    + apply list_elem_of_singleton in Hb as ->. apply start_registers.
  - intros b _ Hnot Hb. rewrite map_app in Hnot. cbn [map] in Hnot.
    apply not_elem_of_app in Hnot as [Hpre_ids Ha].
    rewrite start_other.
    + rewrite (Hother _ Hpre_ids). exact Hb.
    + intros Heq. apply Ha. rewrite Heq. apply list_elem_of_here.
Qed.

End ServiceLifecycle.

(** ** Metric history *)

Section MetricHistory.
Import Queries.

#[local] Instance earlier_total : Total earlier.
Proof. intros a b. unfold earlier. lia. Qed.

(** X19. [MonitoringService.getAgentMetrics] puts only one of six fixed
    intervals into its statement, whatever string it is given, and falls
    back to one hour for a range it does not know.  When the query
    answers, it returns exactly the samples of the agent recorded within
    that interval before now, ordered oldest first, and leaves the world
    as it was. *)
Theorem X19_getAgentMetrics_window (o : Outside) (w : World)
    (agentId timeRange : string) :
  read_fails o R_metricsHistory = false ->
  interval_of timeRange
    ∈ [Minutes 5; Minutes 15; Hours 1; Hours 6; Hours 24; Days 7] /\
  (timeRange ∉ ["5m"; "15m"; "1h"; "6h"; "24h"; "7d"] ->
   interval_of timeRange = Hours 1) /\
  exists rows,
    getAgentMetrics o agentId timeRange w = (Ok rows, w) /\
    (forall m, m ∈ rows <->
       m ∈ agent_metrics (db w) /\ metric_agent_id m = agentId /\
       clock w - interval_micros (interval_of timeRange) <= recorded_at m) /\
    Sorted earlier rows /\
    length rows
      = length (filter (fun m => metric_agent_id m = agentId /\
                                 clock w - interval_micros (interval_of timeRange)
                                   <= recorded_at m)
                       (agent_metrics (db w))).
Proof.
  intros Hr. split; [|split].
  - unfold interval_of.
    repeat match goal with
           | |- context [if ?b then _ else _] => destruct b
           end;
      repeat first [apply list_elem_of_here | apply list_elem_of_further].
  - intros Hnot. unfold interval_of.
    repeat match goal with
           | |- context [(?s =? ?t)%string] =>
               destruct (String.eqb_spec s t) as [->|_];
               [exfalso; apply Hnot;
                repeat first [apply list_elem_of_here | apply list_elem_of_further] |]
           end.
    reflexivity.
  - unfold getAgentMetrics, try_catch, bind, read_query. rewrite Hr. simpl.
    eexists. split; [reflexivity|]. split; [|split].
    + intros m. rewrite merge_sort_Permutation, list_elem_of_filter. tauto.
    + apply Sorted_merge_sort, _.
    + apply Permutation_length, merge_sort_Permutation.
Qed.

End MetricHistory.

(** ** The statement of [updateAgent] *)

Section UpdateStatement.
Import AgentUpdate.

(** X20. The statement [updateAgent] builds lines up with its values for
    every combination of given fields: the n-th given field is written
    [column = $n] and its value is the n-th value, [updated_at] takes no
    placeholder, and the agent id is the last value, which is the one the
    [WHERE id = $k] placeholder names.  With no field given the
    statement only touches [updated_at] and the id is [$1]. *)
Theorem X20_update_statement_lines_up (agentId : string) (data : UpdateAgentData) :
  updateFields (build_update agentId data)
    = imap (fun i cv => fst cv +:+ " = $" +:+ pretty (S i)) (given data)
      ++ ["updated_at = CURRENT_TIMESTAMP"] /\
  values (build_update agentId data) = map snd (given data) ++ [VText agentId] /\
  paramCount (build_update agentId data) = length (values (build_update agentId data)) /\
  values (build_update agentId data)
    !! (paramCount (build_update agentId data) - 1)%nat = Some (VText agentId) /\
  (given data = [] ->
   update_statement (build_update agentId data)
   = "UPDATE agents SET updated_at = CURRENT_TIMESTAMP WHERE id = $1 RETURNING *").
Proof.
  destruct data as [[n|] [d|] [u|] [c|] [s|] [t|]];
    (repeat split; try reflexivity; discriminate).
Qed.

End UpdateStatement.

(** ** Updating, starting, stopping and deleting an agent *)

Section AgentLifecycle.
Import AgentService MonitoringService Queries AgentUpdate Server.

(** The update of [last_health_check] that [performAgentHealthCheck]
    makes is the general [updateAgent] with that one field given. *)
Lemma stamp_is_updateAgent env agentId w :
  AgentService.updateAgent env agentId w
  = AgentUpdate.updateAgent env agentId
      (mkUpdate None None None None None (Some (clock w))) w.
Proof.
  unfold AgentService.updateAgent, AgentUpdate.updateAgent, try_catch, bind,
    database_query.
  destruct (query_fails env Q_updateAgent); reflexivity.
Qed.

Lemma map_unknown_agent (f : AgentRow -> AgentRow) (l : list AgentRow) agentId :
  agentId ∉ map agent_id l ->
  map (fun a => if decide (agent_id a = agentId) then f a else a) l = l.
Proof.
  induction l as [|a l IH]; intros Hnotin; [reflexivity|].
  simpl in *. apply not_elem_of_cons in Hnotin as [Hne Hrest].
  rewrite decide_False by congruence. rewrite (IH Hrest). reflexivity.
Qed.

Lemma filter_known_agent (l : list AgentRow) agentId :
  agentId ∈ map agent_id l ->
  filter (fun a => agent_id a = agentId) l <> [].
Proof.
  intros Hin Hnil. apply list_elem_of_fmap in Hin as (a & Hid & Hin).
  assert (Ha : a ∈ filter (fun a => agent_id a = agentId) l).
  { apply list_elem_of_filter. split; [congruence | exact Hin]. }
  rewrite Hnil in Ha. inversion Ha.
Qed.

Lemma updateAgent_known env agentId data w :
  query_fails env Q_updateAgent = false ->
  agentId ∈ map agent_id (agents (db w)) ->
  AgentUpdate.updateAgent env agentId data w
  = (Ok tt,
     set_log (fun l => l ++ [(info, "Agent updated successfully")])
       (set_db (set_agents (map (fun a =>
          if decide (agent_id a = agentId) then apply_update data a else a))) w)).
Proof.
  intros Hq Hin. apply filter_known_agent in Hin.
  unfold AgentUpdate.updateAgent, try_catch, bind, database_query. rewrite Hq. simpl.
  destruct (filter (fun a => agent_id a = agentId) (agents (db w))); [congruence|].
  reflexivity.
Qed.

Lemma updateAgent_unknown env agentId data w :
  query_fails env Q_updateAgent = false ->
  agentId ∉ map agent_id (agents (db w)) ->
  fst (AgentUpdate.updateAgent env agentId data w) = Err "Agent not found" /\
  db (snd (AgentUpdate.updateAgent env agentId data w)) = db w /\
  cache (snd (AgentUpdate.updateAgent env agentId data w)) = cache w /\
  svc (snd (AgentUpdate.updateAgent env agentId data w)) = svc w.
Proof.
  intros Hq Hnotin.
  pose proof (filter_unknown_agent _ _ Hnotin) as Hnil.
  pose proof (map_unknown_agent (apply_update data) _ _ Hnotin) as Hmap.
  unfold AgentUpdate.updateAgent, try_catch, bind, database_query. rewrite Hq. simpl.
  rewrite Hnil. simpl. unfold set_agents. rewrite Hmap.
  repeat split. destruct (db w). reflexivity.
Qed.

(** X21. [updateAgent] on an id that no agent carries raises [Agent not
    found] and leaves every row as it was.  On a known id it returns
    normally, gives the row the [status] and [last_health_check] that
    were passed and keeps the ones that were not, never changes the id
    or the owner of a row, and leaves the rows of other ids alone. *)
Theorem X21_updateAgent_effect (env : Env) (w : World) (agentId : string)
    (data : UpdateAgentData) :
  query_fails env Q_updateAgent = false ->
  (agentId ∉ map agent_id (agents (db w)) ->
   fst (AgentUpdate.updateAgent env agentId data w) = Err "Agent not found" /\
   db (snd (AgentUpdate.updateAgent env agentId data w)) = db w) /\
  (agentId ∈ map agent_id (agents (db w)) ->
   fst (AgentUpdate.updateAgent env agentId data w) = Ok tt /\
   map agent_id (agents (db (snd (AgentUpdate.updateAgent env agentId data w))))
     = map agent_id (agents (db w)) /\
   map agent_user_id (agents (db (snd (AgentUpdate.updateAgent env agentId data w))))
     = map agent_user_id (agents (db w)) /\
   filter (fun a => agent_id a <> agentId)
          (agents (db (snd (AgentUpdate.updateAgent env agentId data w))))
     = filter (fun a => agent_id a <> agentId) (agents (db w)) /\
   map (fun a => (agent_status a, last_health_check a))
       (filter (fun a => agent_id a = agentId)
               (agents (db (snd (AgentUpdate.updateAgent env agentId data w)))))
     = map (fun a => (default (agent_status a) (u_status data),
                      match u_last_health_check data with
                      | Some t => Some t
                      | None => last_health_check a
                      end))
           (filter (fun a => agent_id a = agentId) (agents (db w)))).
Proof.
  intros Hq. split.
  - intros Hnotin.
    destruct (updateAgent_unknown env agentId data w Hq Hnotin) as (H1 & H2 & _).
    split; assumption.
  - intros Hin. rewrite (updateAgent_known env agentId data w Hq Hin). simpl.
    split; [reflexivity|]. clear Hin.
    induction (agents (db w)) as [|a l (IH1 & IH2 & IH3 & IH4)]; simpl.
    + repeat split.
    + destruct (decide (agent_id a = agentId)) as [E|N]; simpl;
        rewrite ?filter_cons; simpl;
        repeat case_decide; simpl in *; try congruence; try tauto;
        (split; [|split; [|split]]); solve [ f_equal; assumption | assumption ].
Qed.

Lemma lift_run {A} (m : M A) s r w' :
  m (world s) = (r, w') -> lift m s = (r, mkState w' (ai s)).
Proof. intros H. unfold lift. rewrite H. reflexivity. Qed.

Lemma sbind_ok {A B} (m : SM A) (k : A -> SM B) s a s1 :
  m s = (Ok a, s1) -> sbind m k s = k a s1.
Proof. intros H. unfold sbind. rewrite H. reflexivity. Qed.

Lemma sbind_err {A B} (m : SM A) (k : A -> SM B) s e s1 :
  m s = (Err e, s1) -> sbind m k s = (Err e, s1).
Proof. intros H. unfold sbind. rewrite H. reflexivity. Qed.

(** X22. [startAgent] for an agent that is in the table but has no AI
    agent in memory (none was created in this process) raises [Agent
    <id> not found] after it has already written [active] into the
    agent's row: the status stays [active], no interval is started and
    the status is not cached. *)
Theorem X22_startAgent_without_ai_agent (o : Outside) (s : State) (agentId : string) :
  query_fails (outside_env o) Q_updateAgent = false ->
  agentId ∈ map agent_id (agents (db (world s))) ->
  ai_agents (ai s) !! agentId = None ->
  exists s',
    startAgent o agentId s = (Err ("Agent " +:+ agentId +:+ " not found"), s') /\
    Forall (fun a => agent_id a = agentId -> agent_status a = ACTIVE)
           (agents (db (world s'))) /\
    map agent_id (agents (db (world s'))) = map agent_id (agents (db (world s))) /\
    cache (world s') = cache (world s) /\
    ai s' = ai s.
Proof.
  intros Hq Hin Hai.
  unfold startAgent, stry.
  rewrite (sbind_ok _ _ _ tt _ (lift_run _ s _ _ (logger_run _ _ _))).
  match goal with
  | |- context [sbind (lift (AgentUpdate.updateAgent ?env0 agentId ?data)) ?k ?s1] =>
      rewrite (sbind_ok (lift (AgentUpdate.updateAgent env0 agentId data)) k s1 tt _
                 (lift_run _ s1 _ _
                    (updateAgent_known env0 agentId data (world s1) Hq Hin)))
  end.
  match goal with
  | |- context [sbind (ai_startMonitoring agentId) ?k ?s1] =>
      rewrite (sbind_err (ai_startMonitoring agentId) k s1
                 ("Agent " +:+ agentId +:+ " not found") s1)
  end.
  2:{ unfold ai_startMonitoring. cbn [ai]. rewrite Hai. reflexivity. }
  unfold sbind, lift, logger, modify, throw. simpl.
  eexists. split; [reflexivity|]. simpl. split; [|split; [|split; reflexivity]].
  - apply Forall_forall. intros a Ha.
    apply list_elem_of_fmap in Ha as (a0 & -> & _).
    destruct (decide (agent_id a0 = agentId)); simpl; [reflexivity | congruence].
  - rewrite map_map. apply map_ext. intros a.
    destruct (decide (agent_id a = agentId)); reflexivity.
Qed.

(** X23. [AIAgentService.startMonitoring] does not look for an interval
    that is already running: called twice for a known agent it starts
    two intervals and remembers only the second, so the [stopMonitoring]
    that follows clears the second and leaves the first running for
    good, with no handle left to clear it.  Called once, the interval it
    starts is the one [stopMonitoring] clears. *)
Theorem X23_second_start_leaks_an_interval (s : State) (agentId : string)
    (d : AgentData) :
  ai_agents (ai s) !! agentId = Some d ->
  Forall (fun h => (h < timer_seq (ai s))%nat) (timers (ai s)) ->
  timers (ai (snd (ai_stopMonitoring agentId (snd (ai_startMonitoring agentId s)))))
    = timers (ai s) /\
  timers (ai (snd (ai_stopMonitoring agentId
                     (snd (ai_startMonitoring agentId
                             (snd (ai_startMonitoring agentId s)))))))
    = timers (ai s) ++ [timer_seq (ai s)] /\
  ai_agents (ai (snd (ai_stopMonitoring agentId
                        (snd (ai_startMonitoring agentId
                                (snd (ai_startMonitoring agentId s)))))))
    !! agentId = Some (mkAgentData None) /\
  ai (snd (ai_stopMonitoring agentId
             (snd (ai_stopMonitoring agentId
                     (snd (ai_startMonitoring agentId
                             (snd (ai_startMonitoring agentId s))))))))
    = ai (snd (ai_stopMonitoring agentId
                 (snd (ai_startMonitoring agentId
                         (snd (ai_startMonitoring agentId s)))))).
Proof.
  intros Hd Hfresh.
  assert (Hkeep : forall h0, (timer_seq (ai s) <= h0)%nat ->
             filter (fun h => h <> h0) (timers (ai s)) = timers (ai s)).
  { intros h0 Hh0. induction Hfresh as [|h l Hh _ IH]; [reflexivity|].
    rewrite filter_cons. rewrite decide_True by lia. rewrite IH. reflexivity. }
  unfold ai_startMonitoring, ai_stopMonitoring. rewrite Hd. cbn.
  rewrite !lookup_insert_eq. cbn. rewrite !lookup_insert_eq. cbn.
  rewrite !lookup_insert_eq. cbn.
  split; [|split; [|split; reflexivity]].
  - rewrite filter_app, Hkeep by lia.
    rewrite filter_cons, decide_False by (intros H; apply H; reflexivity).
    rewrite filter_nil. apply app_nil_r.
  - rewrite !filter_app, Hkeep by lia.
    rewrite !filter_cons, !filter_nil.
    rewrite decide_True by lia.
    rewrite decide_False by (intros H; apply H; reflexivity).
    rewrite app_nil_r. reflexivity.
Qed.

Lemma ai_stop_ok agentId s :
  exists s',
    ai_stopMonitoring agentId s = (Ok tt, s') /\
    db (world s') = db (world s) /\
    cache (world s') = cache (world s) /\
    svc (world s') = svc (world s) /\
    clock (world s') = clock (world s) /\
    (forall h, ai_agents (ai s) !! agentId = Some (mkAgentData (Some h)) ->
               h ∉ timers (ai s')) /\
    (forall d, ai_agents (ai s') !! agentId = Some d -> monitoringInterval d = None).
Proof.
  unfold ai_stopMonitoring.
  destruct (ai_agents (ai s) !! agentId) as [[[h|]]|] eqn:Hd;
    (eexists; split; [reflexivity|]; cbn; repeat split).
  - intros h' Heq. inversion Heq; subst h'.
    intros Hin. apply list_elem_of_filter in Hin as [Hne _]. apply Hne. reflexivity.
  - intros d Hd'. rewrite lookup_insert_eq in Hd'. inversion Hd'. reflexivity.
  - intros h Heq. discriminate.
  - intros d Hd'. rewrite Hd in Hd'. inversion Hd'. reflexivity.
  - intros h Heq. discriminate.
  - intros d Hd'. rewrite Hd in Hd'. discriminate.
Qed.

Lemma stopAgent_known o agentId s :
  query_fails (outside_env o) Q_updateAgent = false ->
  redis_fails (outside_env o) = false ->
  agentId ∈ map agent_id (agents (db (world s))) ->
  exists s',
    stopAgent o agentId s = (Ok tt, s') /\
    db (world s')
      = set_agents (map (fun a => if decide (agent_id a = agentId)
                                  then apply_update (with_status INACTIVE) a else a))
                   (db (world s)) /\
    cache (world s') !! ("agent:" +:+ agentId +:+ ":status") = Some ("inactive", 3600) /\
    svc (world s') = svc (world s) /\
    clock (world s') = clock (world s) /\
    (forall h, ai_agents (ai s) !! agentId = Some (mkAgentData (Some h)) ->
               h ∉ timers (ai s')) /\
    (forall d, ai_agents (ai s') !! agentId = Some d -> monitoringInterval d = None).
Proof.
  intros Hq Hr Hin. unfold stopAgent, stry.
  rewrite (sbind_ok _ _ _ tt _ (lift_run _ s _ _ (logger_run _ _ _))).
  match goal with
  | |- context [sbind (lift (AgentUpdate.updateAgent ?env0 agentId ?data)) ?k ?s1] =>
      rewrite (sbind_ok (lift (AgentUpdate.updateAgent env0 agentId data)) k s1 tt _
                 (lift_run _ s1 _ _
                    (updateAgent_known env0 agentId data (world s1) Hq Hin)))
  end.
  match goal with
  | |- context [sbind (ai_stopMonitoring agentId) ?k ?s1] =>
      destruct (ai_stop_ok agentId s1)
        as (s2 & Hstop & Hdb & Hcache & Hsvc & Hclock & Htimer & Hentry);
      rewrite (sbind_ok (ai_stopMonitoring agentId) k s1 tt s2 Hstop)
  end.
  unfold sbind, lift, redis_set, logger, modify. rewrite Hr. cbn in *.
  eexists. split; [reflexivity|]. cbn.
  rewrite Hdb, Hsvc, Hclock.
  split; [reflexivity|]. split; [apply lookup_insert_eq|].
  split; [reflexivity|]. split; [reflexivity|]. split; assumption.
Qed.

(** X24. [stopAgent] for an agent that is in the table succeeds whether
    or not an AI agent exists for it in memory: the row gets status
    [inactive], an interval the AI agent had running is cleared, and
    [agent:<id>:status] is cached as [inactive] for 3600 seconds.  The
    jobs of the monitoring service are not touched. *)
Theorem X24_stopAgent_always_stops (o : Outside) (s : State) (agentId : string) :
  query_fails (outside_env o) Q_updateAgent = false ->
  redis_fails (outside_env o) = false ->
  agentId ∈ map agent_id (agents (db (world s))) ->
  exists s',
    stopAgent o agentId s = (Ok tt, s') /\
    Forall (fun a => agent_id a = agentId -> agent_status a = INACTIVE)
           (agents (db (world s'))) /\
    cache (world s') !! ("agent:" +:+ agentId +:+ ":status") = Some ("inactive", 3600) /\
    (forall h, ai_agents (ai s) !! agentId = Some (mkAgentData (Some h)) ->
               h ∉ timers (ai s')) /\
    (forall d, ai_agents (ai s') !! agentId = Some d -> monitoringInterval d = None) /\
    svc (world s') = svc (world s).
Proof.
  intros Hq Hr Hin.
  destruct (stopAgent_known o agentId s Hq Hr Hin)
    as (s' & Hrun & Hdb & Hcache & Hsvc & _ & Htimer & Hentry).
  exists s'. split; [exact Hrun|]. rewrite Hdb. simpl.
  split; [|repeat split; assumption].
  apply Forall_forall. intros a Ha.
  apply list_elem_of_fmap in Ha as (a0 & -> & _).
  destruct (decide (agent_id a0 = agentId)); simpl; [reflexivity | congruence].
Qed.

(** A check whose runtime call raises, for an agent that has no row,
    lets the [Agent not found] of [createAlert] out. *)
Lemma check_for_missing_agent env agentId e w :
  agent_runtime env agentId = Err e ->
  query_fails env Q_getAgentById = false ->
  agentId ∉ map agent_id (agents (db w)) ->
  fst (performAgentHealthCheck env agentId w) = Err "Agent not found".
Proof.
  intros Hrt Hq Hnotin. apply filter_unknown_agent in Hnotin.
  unfold performAgentHealthCheck, executeAgentTask, createAlert, getAgentById,
    try_catch, bind, database_query.
  rewrite Hrt. simpl. rewrite Hq. simpl. rewrite Hnotin. reflexivity.
Qed.

(** X25. [deleteAgent] for an agent that is in the table sets it
    inactive and then removes its row and, by the cascade of the schema,
    its samples and its alerts; rows of other agents stay.  It does not
    touch the monitoring service: a job registered for the agent stays
    registered, and its next tick, once the runtime call raises, ends
    with [Agent not found] because the row is gone. *)
Theorem X25_deleteAgent_leaves_job_behind (o : Outside) (s : State)
    (agentId : string) :
  query_fails (outside_env o) Q_updateAgent = false ->
  redis_fails (outside_env o) = false ->
  read_fails o R_deleteAgent = false ->
  agentId ∈ map agent_id (agents (db (world s))) ->
  exists s',
    deleteAgent o agentId s = (Ok tt, s') /\
    (agentId ∉ map agent_id (agents (db (world s')))) /\
    Forall (fun a => alert_agent_id a <> agentId) (alerts (db (world s'))) /\
    Forall (fun m => metric_agent_id m <> agentId) (agent_metrics (db (world s'))) /\
    agents (db (world s'))
      = filter (fun a => agent_id a <> agentId) (agents (db (world s))) /\
    alerts (db (world s'))
      = filter (fun a => alert_agent_id a <> agentId) (alerts (db (world s))) /\
    svc (world s') = svc (world s) /\
    (forall env e,
        agent_runtime env agentId = Err e ->
        query_fails env Q_getAgentById = false ->
        fst (tick env (AgentMonitor agentId) (world s')) = Err "Agent not found").
Proof.
  intros Hq Hr Hd Hin. unfold deleteAgent, stry.
  destruct (stopAgent_known o agentId s Hq Hr Hin)
    as (s1 & Hstop & Hdb & _ & Hsvc & _).
  rewrite (sbind_ok _ _ _ tt s1 Hstop).
  assert (Hin1 : agentId ∈ map agent_id (agents (db (world s1)))).
  { rewrite Hdb. simpl. rewrite map_map.
    erewrite map_ext; [exact Hin|].
    intros a. simpl. destruct (decide (agent_id a = agentId)); reflexivity. }
  apply filter_known_agent in Hin1.
  unfold sbind, lift, read_query, get_world, modify, logger. rewrite Hd. cbn.
  destruct (filter (fun a => agent_id a = agentId) (agents (db (world s1))))
    as [|a0 l0] eqn:Hf; [congruence|].
  cbn. eexists. split; [reflexivity|]. cbn. rewrite Hdb, Hsvc. cbn.
  assert (Hgone : agentId ∉ map agent_id
                    (filter (fun a => agent_id a <> agentId)
                       (map (fun a => if decide (agent_id a = agentId)
                                      then apply_update (with_status INACTIVE) a else a)
                            (agents (db (world s)))))).
  { intros Hmem. apply list_elem_of_fmap in Hmem as (a & Hid & Ha).
    apply list_elem_of_filter in Ha as [Hne _]. congruence. }
  split; [exact Hgone|]. split; [|split; [|split; [|split; [reflexivity|split]]]].
  - apply Forall_forall. intros a Ha. apply list_elem_of_filter in Ha as [Hne _].
    exact Hne.
  - apply Forall_forall. intros m Hm. apply list_elem_of_filter in Hm as [Hne _].
    exact Hne.
  - clear. induction (agents (db (world s))) as [|a l IH]; [reflexivity|].
    simpl. rewrite !filter_cons.
    destruct (decide (agent_id a = agentId)) as [E|N]; simpl.
    + rewrite !decide_False by (intros H; apply H; exact E). exact IH.
    + rewrite !decide_True by exact N. rewrite IH. reflexivity.
  - reflexivity.
  - intros env e Hrt Hq'. simpl. unfold agentMonitorTick.
    apply (check_for_missing_agent env agentId e _ Hrt Hq'). simpl.
    rewrite Hdb. exact Hgone.
Qed.

Lemma stopAgent_unknown o agentId s :
  query_fails (outside_env o) Q_updateAgent = false ->
  agentId ∉ map agent_id (agents (db (world s))) ->
  exists s',
    stopAgent o agentId s = (Err "Agent not found", s') /\
    db (world s') = db (world s) /\ ai s' = ai s.
Proof.
  intros Hq Hnotin. unfold stopAgent, stry.
  rewrite (sbind_ok _ _ _ tt _ (lift_run _ s _ _ (logger_run _ _ _))).
  match goal with
  | |- context [sbind (lift (AgentUpdate.updateAgent ?env0 agentId ?data)) ?k ?s1] =>
      destruct (updateAgent_unknown env0 agentId data (world s1) Hq Hnotin)
        as (Hres & Hdb & _);
      destruct (AgentUpdate.updateAgent env0 agentId data (world s1)) as [r w1] eqn:Hu;
      simpl in Hres, Hdb; subst r;
      rewrite (sbind_err (lift (AgentUpdate.updateAgent env0 agentId data)) k s1
                 "Agent not found" _ (lift_run _ s1 _ _ Hu))
  end.
  unfold sbind, lift, logger, modify, throw. cbn.
  eexists. split; [reflexivity|]. cbn. split; [exact Hdb | reflexivity].
Qed.

(** X26. [deleteAgent] for an id that no agent carries raises [Agent not
    found] from the status update it starts with: the [DELETE] is never
    sent and no row is removed. *)
Theorem X26_deleteAgent_unknown (o : Outside) (s : State) (agentId : string) :
  query_fails (outside_env o) Q_updateAgent = false ->
  agentId ∉ map agent_id (agents (db (world s))) ->
  fst (deleteAgent o agentId s) = Err "Agent not found" /\
  db (world (snd (deleteAgent o agentId s))) = db (world s) /\
  ai (snd (deleteAgent o agentId s)) = ai s.
Proof.
  intros Hq Hnotin.
  destruct (stopAgent_unknown o agentId s Hq Hnotin) as (s1 & Hstop & Hdb & Hai).
  assert (Hrun : exists s', deleteAgent o agentId s = (Err "Agent not found", s') /\
                            db (world s') = db (world s) /\ ai s' = ai s).
  { unfold deleteAgent, stry.
    rewrite (sbind_err _ _ _ "Agent not found" s1 Hstop).
    unfold sbind, lift, logger, modify, throw. cbn.
    eexists. split; [reflexivity|]. cbn. split; assumption. }
  destruct Hrun as (s' & Hrun & Hdb' & Hai'). rewrite Hrun. repeat split; assumption.
Qed.

End AgentLifecycle.

Section SettingsStatement.
Import AgentUpdate SettingsUpdate.

(** X27. [updateNotificationSettings]: for every patch, the column list
    of the INSERT is the list of assignments with the placeholder
    numbers taken out, so every given column is still followed by
    [ = ] and the last item is [updated_at = CURRENT_TIMESTAMP] (the
    second [replace] looks for that text followed by a comma, which the
    last item never is); the user id is the last value, its placeholder
    number is the number of values, and the same number is used again
    for the last of the listed placeholders. *)
Theorem X27_settings_insert_columns (userId : string) (patch : SettingsPatch) :
  let b := build_settings userId patch in
  insert_columns b
  = join ", " (map (fun c => c +:+ " = ") (given_columns patch)
               ++ ["updated_at = CURRENT_TIMESTAMP"])
  /\ s_paramCount b = S (length (given_columns patch))
  /\ length (s_values b) = s_paramCount b
  /\ last (s_values b) = Some (SText userId)
  /\ insert_placeholders b
     = ("$" +:+ pretty (s_paramCount b))
       :: map (fun i => "$" +:+ pretty i) (seq 1 (s_paramCount b)).
Proof.
  destruct patch as [[e|] [s|] [t|] [h|] [a|]]; vm_compute; repeat split; reflexivity.
Qed.

End SettingsStatement.

(** * Scenarios for the further properties *)

Section MoreScenarios.
Import AgentService NotificationService MonitoringService Registry Fanout Health.
Import Queries AgentUpdate Server Fixtures MoreFixtures ServerFixtures.

Lemma X1_createAlert_witness :
  exists w',
    createAlert calm "R" "latency" HIGH "slow" one_agent_world
      = (Ok (uuid_generate_v4 0), w') /\
    length (alerts (db w')) = 2%nat /\
    length (emitted w') = 2%nat.
Proof.
  destruct (X1_createAlert_stores_and_announces calm one_agent_world
              "R" "latency" HIGH "slow" agent_R
              eq_refl eq_refl eq_refl eq_refl)
    as (w' & Hrun & Hal & _ & Hem & _).
  exists w'. rewrite Hal, Hem. split; [exact Hrun | split; reflexivity].
Defined.

Lemma X2_cache_failure_witness :
  exists w',
    createAlert cache_down "R" "latency" HIGH "slow" one_agent_world
      = (Err "redis error", w') /\
    length (alerts (db w')) = 2%nat /\
    cache w' = ∅.
Proof.
  destruct (X2_createAlert_cache_failure_keeps_alert cache_down one_agent_world
              "R" "latency" HIGH "slow" agent_R
              eq_refl eq_refl eq_refl eq_refl)
    as (w' & Hrun & Hal & _ & _ & Hcache).
  exists w'. rewrite Hal, Hcache. split; [exact Hrun | split; reflexivity].
Defined.


Lemma X4_failed_check_witness :
  exists w',
    performAgentHealthCheck runtime_down "R" one_agent_world = (Ok tt, w') /\
    length (alerts (db w')) = 2%nat /\
    reached one_agent_world w' = [Email; Slack].
Proof.
  destruct (X4_failed_check_raises_critical_alert runtime_down one_agent_world
              "R" "Agent R not found" agent_R
              eq_refl eq_refl eq_refl eq_refl eq_refl)
    as (w' & Hrun & Hal & _ & Hre).
  exists w'. rewrite Hal, Hre. split; [exact Hrun | split; reflexivity].
Defined.

Lemma X5_three_failed_ticks_witness :
  length (alerts (db (Ticks.fire_times runtime_down (AgentMonitor "R") 3 one_agent_world)))
  = 4%nat.
Proof.
  destruct (X5_failed_ticks_pile_up_alerts runtime_down one_agent_world
              "R" "Agent R not found" agent_R 3
              eq_refl eq_refl eq_refl eq_refl eq_refl)
    as (_ & Hlen & _).
  rewrite Hlen. reflexivity.
Defined.

Lemma X6_resolve_unknown_witness :
  resolveAlert calm "Z" "U" one_agent_world
  = (Ok tt, set_log (fun l => l ++ [(info, "Alert resolved")]) one_agent_world).
Proof.
  apply (X6_resolve_unknown_alert_is_silent calm one_agent_world "Z" "U").
  - reflexivity.
  - apply (bool_decide_unpack _). vm_compute. exact I.
Defined.

Lemma X7_resolve_count_witness :
  unresolved_alerts (db (snd (resolveAlert calm "A" "U" one_agent_world))) = 0.
Proof.
  rewrite (X7_resolve_lowers_unresolved_count calm one_agent_world "A" "U" eq_refl).
  reflexivity.
Defined.

Lemma X8_listing_witness :
  exists closed_list,
    getAgentAlerts calm_reads "R" true (snd (resolveAlert calm "A" "U" one_agent_world))
      = (Ok closed_list, snd (resolveAlert calm "A" "U" one_agent_world)) /\
    mkAlertRow "A" "R" "U" "latency" HIGH "slow" true (Some 1000) (Some "U") 0
      ∈ closed_list.
Proof.
  destruct (X8_resolved_alert_changes_listing calm calm_reads one_agent_world "A" "U" "R"
              eq_refl eq_refl)
    as (open_list & closed_list & _ & Hclosed & _ & Hin & _).
  exists closed_list. split; [exact Hclosed |].
  apply (Hin alert_A); [apply list_elem_of_here | reflexivity | reflexivity].
Defined.

Lemma X9_getSystemHealth_witness :
  exists h,
    getSystemHealth calm one_agent_world = (Ok h, one_agent_world) /\
    totalAgents h = 1.
Proof.
  destruct (X9_getSystemHealth_reads_only calm one_agent_world) as [Hok _].
  destruct (Hok eq_refl eq_refl) as (h & Hrun & _ & _ & _ & _ & Htotal).
  exists h. split; [exact Hrun | exact Htotal].
Defined.

Lemma X10_healthy_fleet_witness :
  exists h,
    getSystemHealth calm healthy_world = (Ok h, healthy_world) /\
    systemStatus h = healthy.
Proof.
  apply (X10_fleet_above_95_is_healthy calm healthy_world).
  - reflexivity.
  - reflexivity.
  - discriminate.
  - repeat constructor. discriminate.
  - repeat constructor. vm_compute. discriminate.
  - vm_compute. discriminate.
Defined.

Lemma X11_no_samples_witness :
  exists h,
    getSystemHealth calm one_agent_world = (Ok h, one_agent_world) /\
    systemStatus h <> healthy /\
    avgUptime h = 0%Q.
Proof.
  apply (X11_fleet_without_samples_is_not_healthy calm one_agent_world).
  - reflexivity.
  - reflexivity.
  - discriminate.
  - reflexivity.
Defined.

Lemma X12_metrics_broadcast_witness :
  fst (metricsBroadcastTick latest_down_for_S three_agent_world) = Ok tt /\
  emitted (snd (metricsBroadcastTick latest_down_for_S three_agent_world))
    = [mkEmit (Some "agent-R") "metrics" "R"] /\
  metricsBroadcastTick calm three_agent_world
    = (Ok tt,
       set_emitted (fun l => l ++ [mkEmit (Some "agent-R") "metrics" "R";
                                   mkEmit (Some "agent-S") "metrics" "S";
                                   mkEmit (Some "agent-T") "metrics" "T"])
                   three_agent_world).
Proof.
  destruct (X12_metrics_broadcast_reaches_active_agents_with_samples
              latest_down_for_S three_agent_world) as (Hrun & _ & Hpart & _).
  destruct (X12_metrics_broadcast_reaches_active_agents_with_samples
              calm three_agent_world) as (_ & _ & _ & Hall & _).
  split; [exact Hrun|]. split.
  - rewrite (Hpart eq_refl). reflexivity.
  - rewrite (Hall eq_refl); [reflexivity|]. intros a _. reflexivity.
Defined.

Lemma X13_system_health_tick_witness :
  fst (systemHealthTick calm one_agent_world) = Ok tt /\
  cache (snd (systemHealthTick calm one_agent_world)) !! "system:health"
    = Some (status_value warning, 300).
Proof.
  destruct (X13_system_health_tick_broadcasts_and_caches calm one_agent_world
              eq_refl eq_refl)
    as (Hrun & _ & _ & Hcache & _).
  split; [exact Hrun |]. rewrite (Hcache eq_refl). reflexivity.
Defined.

Lemma X14_sweep_failure_witness :
  fst (cleanupTick metrics_delete_down sweep_world) = Ok tt /\
  db (snd (cleanupTick metrics_delete_down sweep_world)) = db sweep_world.
Proof.
  destruct (X14_sweep_stops_at_first_failure metrics_delete_down sweep_world)
    as (Hrun & Hkeep & _).
  split; [exact Hrun | exact (Hkeep eq_refl)].
Defined.

Lemma X16_stopMonitoring_witness :
  fst (stopMonitoring (fun _ => false) started_world) = Ok tt /\
  monitoringJobs (svc (snd (stopMonitoring (fun _ => false) started_world))) = ∅ /\
  isRunning (svc (snd (stopMonitoring (fun _ => false) started_world))) = false /\
  cron_live (svc (snd (stopMonitoring (fun _ => false) started_world)))
    = cron_live (svc started_world) /\
  length (cron_live (svc started_world)) = 4%nat.
Proof.
  destruct (X16_stopMonitoring_clears_registry (fun _ => false) started_world)
    as [Hrunning _].
  destruct Hrunning as (Hrun & Hjobs & Hflag & _ & Hlive & _).
  - vm_compute. reflexivity.
  - split; [exact Hrun|]. split; [exact Hjobs|]. split; [exact Hflag|].
    split; [apply Hlive; intros k t _; reflexivity | vm_compute; reflexivity].
Defined.

Lemma X17_startMonitoring_witness :
  fst (startMonitoring calm one_agent_world) = Ok tt /\
  isRunning (svc (snd (startMonitoring calm one_agent_world))) = true.
Proof.
  destruct (X17_startMonitoring_always_starts calm one_agent_world) as [Hstart _].
  destruct (Hstart eq_refl) as (Hrun & Hflag & _).
  split; [exact Hrun | exact Hflag].
Defined.

Lemma X18_discovery_witness :
  fst (discoverAndMonitorAgents S_unknown_cache_down three_agent_world) = Ok tt /\
  is_Some (monitoringJobs
             (svc (snd (discoverAndMonitorAgents S_unknown_cache_down three_agent_world)))
             !! "R") /\
  is_Some (monitoringJobs
             (svc (snd (discoverAndMonitorAgents S_unknown_cache_down three_agent_world)))
             !! "S") /\
  monitoringJobs
    (svc (snd (discoverAndMonitorAgents S_unknown_cache_down three_agent_world)))
    !! "T" = None.
Proof.
  destruct (X18_discovery_stops_at_first_failure S_unknown_cache_down three_agent_world
              [agent_R] agent_S [agent_T] "redis error")
    as (Hrun & _ & Hfirst & Hrest).
  - reflexivity.
  - reflexivity.
  - vm_compute. reflexivity.
  - vm_compute. reflexivity.
  - split; [exact Hrun|]. split; [|split].
    + apply (Hfirst agent_R). apply list_elem_of_here.
    + apply (Hfirst agent_S). apply list_elem_of_further, list_elem_of_here.
    + apply (Hrest agent_T); [apply list_elem_of_here | | reflexivity].
      apply (bool_decide_unpack _). vm_compute. exact I.
Defined.

Lemma X19_metric_window_witness :
  exists rows,
    getAgentMetrics calm_reads "R" "1h" healthy_world = (Ok rows, healthy_world) /\
    length rows = 1%nat.
Proof.
  destruct (X19_getAgentMetrics_window calm_reads healthy_world "R" "1h"
              eq_refl)
    as (_ & _ & rows & Hrun & _ & _ & Hlen).
  exists rows. rewrite Hlen. split; [exact Hrun | reflexivity].
Defined.

Lemma X20_nothing_given_witness :
  update_statement (build_update "R" nothing_given)
  = "UPDATE agents SET updated_at = CURRENT_TIMESTAMP WHERE id = $1 RETURNING *".
Proof.
  destruct (X20_update_statement_lines_up "R" nothing_given) as (_ & _ & _ & _ & Hnone).
  exact (Hnone eq_refl).
Defined.

Lemma X21_updateAgent_witness :
  fst (AgentUpdate.updateAgent calm "R" set_inactive one_agent_world) = Ok tt /\
  map agent_id
      (agents (db (snd (AgentUpdate.updateAgent calm "R" set_inactive one_agent_world))))
    = ["R"].
Proof.
  destruct (X21_updateAgent_effect calm one_agent_world "R" set_inactive eq_refl)
    as [_ Hknown].
  destruct Hknown as (Hrun & Hids & _).
  - apply list_elem_of_here.
  - split; [exact Hrun | exact Hids].
Defined.

Lemma X22_startAgent_witness :
  exists s',
    startAgent calm_reads "R" server_without_ai = (Err "Agent R not found", s') /\
    cache (world s') = ∅ /\
    ai s' = ai server_without_ai.
Proof.
  destruct (X22_startAgent_without_ai_agent calm_reads server_without_ai "R")
    as (s' & Hrun & _ & _ & Hcache & Hai).
  - reflexivity.
  - apply list_elem_of_here.
  - reflexivity.
  - exists s'. split; [exact Hrun | split; [exact Hcache | exact Hai]].
Defined.

Lemma X23_leaked_interval_witness :
  timers (ai (snd (ai_stopMonitoring "R"
                     (snd (ai_startMonitoring "R"
                             (snd (ai_startMonitoring "R" server_with_ai)))))))
  = [0%nat].
Proof.
  destruct (X23_second_start_leaks_an_interval server_with_ai "R" (mkAgentData None))
    as (_ & Hleak & _).
  - reflexivity.
  - constructor.
  - exact Hleak.
Defined.

Lemma X24_stopAgent_witness :
  exists s',
    stopAgent calm_reads "R" server_with_ai = (Ok tt, s') /\
    cache (world s') !! "agent:R:status" = Some ("inactive", 3600).
Proof.
  destruct (X24_stopAgent_always_stops calm_reads server_with_ai "R")
    as (s' & Hrun & _ & Hcache & _).
  - reflexivity.
  - reflexivity.
  - apply list_elem_of_here.
  - exists s'. split; [exact Hrun | exact Hcache].
Defined.

Lemma X25_deleteAgent_witness :
  exists s',
    deleteAgent calm_reads "R" server_monitoring_R = (Ok tt, s') /\
    agents (db (world s')) = [] /\
    svc (world s') = svc (world server_monitoring_R) /\
    fst (tick runtime_down (AgentMonitor "R") (world s')) = Err "Agent not found".
Proof.
  destruct (X25_deleteAgent_leaves_job_behind calm_reads server_monitoring_R "R")
    as (s' & Hrun & _ & _ & _ & Hag & _ & Hsvc & Htick).
  - reflexivity.
  - reflexivity.
  - reflexivity.
  - apply list_elem_of_here.
  - exists s'. split; [exact Hrun |].
    split; [rewrite Hag; reflexivity |].
    split; [exact Hsvc |].
    apply (Htick runtime_down "Agent R not found"); reflexivity.
Defined.

Lemma X26_deleteAgent_unknown_witness :
  fst (deleteAgent calm_reads "Z" server_with_ai) = Err "Agent not found" /\
  db (world (snd (deleteAgent calm_reads "Z" server_with_ai))) = db one_agent_world.
Proof.
  destruct (X26_deleteAgent_unknown calm_reads server_with_ai "Z") as (Hrun & Hdb & _).
  - reflexivity.
  - apply (bool_decide_unpack _). vm_compute. exact I.
  - split; [exact Hrun | exact Hdb].
Defined.

End MoreScenarios.
